(** * Client-side TLS engine of Postfix: [src/tls/tls_client.c]

    A shallow embedding of the hostname matcher, the peer verifier, the
    session-cache helpers, the engine initialisation and the handshake
    orchestrator, together with the properties the specification states
    about them.

    Conventions.
    - A C [int] is a [Z]; a C truth value is tested with [truthy]
      (non-zero) and produced with [c_bool] (0 or 1).
    - A [const char *] that the code dereferences is the [string] of the
      characters before its terminator; [EmptyString] is the terminating
      NUL.  A pointer that may be null is an [option].
    - Calls into OpenSSL, into the tlsmgr(8) client and into the Postfix
      utility library are answered by an oracle record ([Env]); every call
      the properties talk about is also recorded in a trace of [event]s. *)

From Stdlib Require Import ZArith List String Ascii Bool Lia.
Import ListNotations.
Local Open Scope string_scope.
Local Open Scope list_scope.
Local Open Scope Z_scope.

(** ** C integers used as truth values *)

Definition c_bool (b : bool) : Z := if b then 1 else 0.
Definition truthy (z : Z) : bool := negb (z =? 0).

(** ** The C string functions [match_hostname] relies on *)

Module CString.

Definition NUL : ascii := "000"%char.

Definition code (c : ascii) : Z := Z.of_N (N_of_ascii c).

(** [s[i]]: the byte at offset [i]; the terminator sits after the
    contents. *)
Fixpoint char_at (s : string) (i : nat) : ascii :=
  match s, i with
  | EmptyString, _ => NUL
  | String c _, O => c
  | String _ r, S j => char_at r j
  end.

(** [p + n] on a pointer into a string. *)
Fixpoint ptr_add (s : string) (n : nat) {struct n} : string :=
  match n with
  | O => s
  | S m =>
      match s with
      | String _ r => ptr_add r m
      | EmptyString => EmptyString
      end
  end.

(** [tolower] in the C locale, on [unsigned char] values. *)
Definition tolower (c : Z) : Z :=
  if (65 <=? c) && (c <=? 90) then c + 32 else c.

(** [strcasecmp]: walk both strings, compare the folded bytes, stop at
    the first difference or at a terminator. *)
Fixpoint strcasecmp (s1 s2 : string) : Z :=
  match s1, s2 with
  | EmptyString, EmptyString => 0
  | EmptyString, String c2 _ => 0 - tolower (code c2)
  | String c1 _, EmptyString => tolower (code c1) - 0
  | String c1 r1, String c2 r2 =>
      let d := tolower (code c1) - tolower (code c2) in
      if d =? 0
      then if code c1 =? 0 then 0 else strcasecmp r1 r2
      else d
  end.

(** [strchr]: pointer to the first occurrence of [c], or null. *)
Fixpoint strchr (s : string) (c : ascii) : option string :=
  match s with
  | EmptyString => if Ascii.eqb c NUL then Some EmptyString else None
  | String a r =>
      if Ascii.eqb a c then Some s
      else if Ascii.eqb a NUL then None
      else strchr r c
  end.

(** A well-formed C string has no NUL before its terminator. *)
Fixpoint nul_free (s : string) : bool :=
  match s with
  | EmptyString => true
  | String c r => negb (Ascii.eqb c NUL) && nul_free r
  end.

End CString.
Import CString.

(** ** [match_hostname] (tls_client.c, lines 453-461) *)

Definition match_hostname (pattern hostname : string) : Z :=
  c_bool
    ((strcasecmp hostname pattern =? 0)
     || (Ascii.eqb (char_at pattern 0) "*"
         && Ascii.eqb (char_at pattern 1) "."
         && negb (Ascii.eqb (char_at pattern 2) NUL)
         && match strchr hostname "." with
            | Some peername_left =>
                strcasecmp (ptr_add peername_left 1) (ptr_add pattern 2) =? 0
            | None => false
            end)).

(** ** Objects of the TLS engine and of the certificate library

    The engine's objects are opaque to this module; each is a handle.  An
    [SSL] connection object carries the two settings this module gives it
    before the handshake, so that the engine's answers may depend on them. *)

Inductive SSL_CTX : Type := ssl_ctx_handle (id : nat).
Inductive SSL_SESSION : Type := ssl_session_handle (id : nat).
Inductive X509 : Type := x509_handle (id : nat).
Inductive BIO : Type := bio_handle (id : nat).

(** A [VSTREAM] is used only through [vstream_fileno]. *)
Record VSTREAM : Type := mkVSTREAM { vstream_fileno : Z }.

Inductive SSL_verify_mode : Type := SSL_VERIFY_NONE | SSL_VERIFY_PEER.

Record SSL : Type := mkSSL {
  ssl_ctx : SSL_CTX;
  ssl_verify_mode : SSL_verify_mode;
  ssl_session : option SSL_SESSION
}.

Record SSL_CIPHER : Type := mkSSL_CIPHER {
  SSL_CIPHER_get_name : string;
  SSL_CIPHER_usebits : Z;
  SSL_CIPHER_algbits : Z
}.

(** Result of the engine's trust-chain verification; the code compares it
    with [X509_V_OK] only. *)
Inductive X509_verify_result : Type :=
| X509_V_OK
| X509_V_ERR (code : Z).

Definition is_X509_V_OK (r : X509_verify_result) : bool :=
  match r with X509_V_OK => true | X509_V_ERR _ => false end.

(** The tag of a [GENERAL_NAME] and the string the code reads from it
    ([gn->type], [gn->d.ia5->data]). *)
Inductive GEN_type : Type :=
| GEN_OTHERNAME | GEN_EMAIL | GEN_DNS | GEN_X400 | GEN_DIRNAME
| GEN_EDIPARTY | GEN_URI | GEN_IPADD | GEN_RID.

Record GENERAL_NAME : Type := mkGENERAL_NAME {
  gn_type : GEN_type;
  gn_d_ia5_data : string
}.

Definition is_GEN_DNS (t : GEN_type) : bool :=
  match t with GEN_DNS => true | _ => false end.

(** Status of a request to tlsmgr(8); the code compares it with
    [TLS_MGR_STAT_OK] only. *)
Inductive tls_mgr_status : Type :=
| TLS_MGR_STAT_OK
| TLS_MGR_STAT_not_OK.

(** ** The connection state

    The record lives in a module so that a field can still be named
    where a local variable of the C code has the same name. *)

Module Ctx.

(** Modelled from the spec: the declaration of [TLScontext_t] is in tls.h,
    outside this file.  The record has the fields tls_client.c reads or
    writes, under the names it uses; they are the members of the
    ConnectionState of the spec (section 3), and the header comment of
    tls_client.c describes the ones handed to the caller. *)
Record TLScontext_t : Type := mkTLScontext {
  con : option SSL;
  serverid : option string;
  enforce_verify_errors : Z;
  enforce_CN : Z;
  hostname_matched : Z;
  internal_bio : option BIO;
  network_bio : option BIO;
  peer_verified : Z;
  peer_CN : option string;
  issuer_CN : option string;
  session_reused : Z;
  protocol : option string;
  cipher_name : option string;
  cipher_usebits : Z;
  cipher_algbits : Z
}.

Definition set_con (v : option SSL) (c : TLScontext_t)
  : TLScontext_t :=
  mkTLScontext v (serverid c) (enforce_verify_errors c) (enforce_CN c)
    (hostname_matched c) (internal_bio c) (network_bio c) (peer_verified c)
    (peer_CN c) (issuer_CN c) (session_reused c) (protocol c)
    (cipher_name c) (cipher_usebits c) (cipher_algbits c).

Definition set_serverid (v : option string) (c : TLScontext_t)
  : TLScontext_t :=
  mkTLScontext (con c) v (enforce_verify_errors c) (enforce_CN c)
    (hostname_matched c) (internal_bio c) (network_bio c) (peer_verified c)
    (peer_CN c) (issuer_CN c) (session_reused c) (protocol c)
    (cipher_name c) (cipher_usebits c) (cipher_algbits c).

Definition set_enforce_verify_errors (v : Z) (c : TLScontext_t)
  : TLScontext_t :=
  mkTLScontext (con c) (serverid c) v (enforce_CN c) (hostname_matched c)
    (internal_bio c) (network_bio c) (peer_verified c) (peer_CN c)
    (issuer_CN c) (session_reused c) (protocol c) (cipher_name c)
    (cipher_usebits c) (cipher_algbits c).

Definition set_enforce_CN (v : Z) (c : TLScontext_t)
  : TLScontext_t :=
  mkTLScontext (con c) (serverid c) (enforce_verify_errors c) v
    (hostname_matched c) (internal_bio c) (network_bio c) (peer_verified c)
    (peer_CN c) (issuer_CN c) (session_reused c) (protocol c)
    (cipher_name c) (cipher_usebits c) (cipher_algbits c).

Definition set_hostname_matched (v : Z) (c : TLScontext_t)
  : TLScontext_t :=
  mkTLScontext (con c) (serverid c) (enforce_verify_errors c) (enforce_CN c)
    v (internal_bio c) (network_bio c) (peer_verified c) (peer_CN c)
    (issuer_CN c) (session_reused c) (protocol c) (cipher_name c)
    (cipher_usebits c) (cipher_algbits c).

Definition set_internal_bio (v : option BIO) (c : TLScontext_t)
  : TLScontext_t :=
  mkTLScontext (con c) (serverid c) (enforce_verify_errors c) (enforce_CN c)
    (hostname_matched c) v (network_bio c) (peer_verified c) (peer_CN c)
    (issuer_CN c) (session_reused c) (protocol c) (cipher_name c)
    (cipher_usebits c) (cipher_algbits c).

Definition set_network_bio (v : option BIO) (c : TLScontext_t)
  : TLScontext_t :=
  mkTLScontext (con c) (serverid c) (enforce_verify_errors c) (enforce_CN c)
    (hostname_matched c) (internal_bio c) v (peer_verified c) (peer_CN c)
    (issuer_CN c) (session_reused c) (protocol c) (cipher_name c)
    (cipher_usebits c) (cipher_algbits c).

Definition set_peer_verified (v : Z) (c : TLScontext_t)
  : TLScontext_t :=
  mkTLScontext (con c) (serverid c) (enforce_verify_errors c) (enforce_CN c)
    (hostname_matched c) (internal_bio c) (network_bio c) v (peer_CN c)
    (issuer_CN c) (session_reused c) (protocol c) (cipher_name c)
    (cipher_usebits c) (cipher_algbits c).

Definition set_peer_CN (v : option string) (c : TLScontext_t)
  : TLScontext_t :=
  mkTLScontext (con c) (serverid c) (enforce_verify_errors c) (enforce_CN c)
    (hostname_matched c) (internal_bio c) (network_bio c) (peer_verified c)
    v (issuer_CN c) (session_reused c) (protocol c) (cipher_name c)
    (cipher_usebits c) (cipher_algbits c).

Definition set_issuer_CN (v : option string) (c : TLScontext_t)
  : TLScontext_t :=
  mkTLScontext (con c) (serverid c) (enforce_verify_errors c) (enforce_CN c)
    (hostname_matched c) (internal_bio c) (network_bio c) (peer_verified c)
    (peer_CN c) v (session_reused c) (protocol c) (cipher_name c)
    (cipher_usebits c) (cipher_algbits c).

Definition set_session_reused (v : Z) (c : TLScontext_t)
  : TLScontext_t :=
  mkTLScontext (con c) (serverid c) (enforce_verify_errors c) (enforce_CN c)
    (hostname_matched c) (internal_bio c) (network_bio c) (peer_verified c)
    (peer_CN c) (issuer_CN c) v (protocol c) (cipher_name c)
    (cipher_usebits c) (cipher_algbits c).

Definition set_protocol (v : option string) (c : TLScontext_t)
  : TLScontext_t :=
  mkTLScontext (con c) (serverid c) (enforce_verify_errors c) (enforce_CN c)
    (hostname_matched c) (internal_bio c) (network_bio c) (peer_verified c)
    (peer_CN c) (issuer_CN c) (session_reused c) v (cipher_name c)
    (cipher_usebits c) (cipher_algbits c).

Definition set_cipher_name (v : option string) (c : TLScontext_t)
  : TLScontext_t :=
  mkTLScontext (con c) (serverid c) (enforce_verify_errors c) (enforce_CN c)
    (hostname_matched c) (internal_bio c) (network_bio c) (peer_verified c)
    (peer_CN c) (issuer_CN c) (session_reused c) (protocol c) v
    (cipher_usebits c) (cipher_algbits c).

Definition set_cipher_usebits (v : Z) (c : TLScontext_t)
  : TLScontext_t :=
  mkTLScontext (con c) (serverid c) (enforce_verify_errors c) (enforce_CN c)
    (hostname_matched c) (internal_bio c) (network_bio c) (peer_verified c)
    (peer_CN c) (issuer_CN c) (session_reused c) (protocol c)
    (cipher_name c) v (cipher_algbits c).

Definition set_cipher_algbits (v : Z) (c : TLScontext_t)
  : TLScontext_t :=
  mkTLScontext (con c) (serverid c) (enforce_verify_errors c) (enforce_CN c)
    (hostname_matched c) (internal_bio c) (network_bio c) (peer_verified c)
    (peer_CN c) (issuer_CN c) (session_reused c) (protocol c)
    (cipher_name c) (cipher_usebits c) v.

End Ctx.
Import Ctx.

(** Modelled from the spec: [tls_alloc_context] is defined outside this
    file.  It creates the connection state; the result fields start out
    cleared, and the certificate names are null pointers until the
    verifier fills them (header comment of tls_client.c; spec, section 3). *)
Definition tls_alloc_context (log_level : Z) (peername : string)
  : TLScontext_t :=
  mkTLScontext None None 0 0 0 None None 0 None None 0 None None 0 0.

(** ** Log messages and the trace of calls *)

Inductive message : Type :=
| Msg_looking_for_session (cache_id : string)
| Msg_reloaded_session (cache_id : string)
| Msg_save_session (cache_id : string)
| Msg_remove_session (cache_id : string)
| Msg_initializing_engine
| Msg_no_entropy
| Msg_dNSNames_none_match (peername : string) (dNSName_found : Z)
| Msg_CommonName_mismatch (peername CN : string)
| Msg_Verified (subject_CN issuer : string)
| Msg_Unverified (subject_CN issuer : string)
| Msg_setting_up (peername : string)
| Msg_no_SSL_new
| Msg_no_ex_data
| Msg_no_BIO_pair
| Msg_SSL_connect_error (peername : string) (sts : Z)
| Msg_reusing_old_session
| Msg_hostname_mismatch (peername : string)
| Msg_established (peername protocol cipher : string) (usebits algbits : Z).

(** Where [match_hostname] is called from in [verify_extract_peer]. *)
Inductive match_site : Type :=
| at_dNSName       (* line 496 *)
| at_CommonName.   (* line 522 *)

Inductive event : Type :=
| E_msg_info (m : message)
| E_msg_warn (m : message)
| E_tls_print_errors
| E_tls_check_version
| E_SSL_load_error_strings
| E_OpenSSL_add_ssl_algorithms
| E_tls_ext_seed (nbytes : Z)
| E_tls_int_seed
| E_SSL_CTX_new
| E_SSL_CTX_free (ctx : SSL_CTX)
| E_SSL_CTX_set_options (ctx : SSL_CTX) (off : Z)
| E_SSL_CTX_set_info_callback (ctx : SSL_CTX)
| E_SSL_CTX_set_cipher_list (ctx : SSL_CTX) (cipherlist : string)
| E_tls_set_ca_certificate_info (ctx : SSL_CTX) (CAfile CApath : string)
| E_tls_set_my_certificate_key_info (ctx : SSL_CTX)
    (cert_file key_file dcert_file dkey_file : string)
| E_SSL_CTX_set_tmp_rsa_callback (ctx : SSL_CTX)
| E_SSL_CTX_set_verify (ctx : SSL_CTX) (mode : SSL_verify_mode)
| E_SSL_CTX_set_timeout (ctx : SSL_CTX) (t : Z)
| E_tls_mgr_policy
| E_SSL_CTX_set_session_cache_mode (ctx : SSL_CTX)
| E_SSL_CTX_sess_set_new_cb (ctx : SSL_CTX)
| E_SSL_get_ex_new_index
| E_tls_mgr_lookup (cache_type : Z) (cache_id : string)
| E_tls_session_activate (session_data : string)
| E_tls_session_passivate (session : SSL_SESSION)
| E_tls_mgr_update (cache_type : Z) (cache_id session_data : string)
| E_tls_mgr_delete (cache_type : Z) (cache_id : string)
| E_SSL_SESSION_free (session : SSL_SESSION)
| E_SSL_new (ctx : SSL_CTX)
| E_SSL_set_ex_data
| E_SSL_set_verify (mode : SSL_verify_mode)
| E_BIO_new_bio_pair
| E_SSL_set_session (session : SSL_SESSION)
| E_SSL_set_connect_state
| E_SSL_set_bio
| E_BIO_set_callback (dump : bool)
| E_tls_bio_connect (fd timeout : Z)
| E_tls_stream_start
| E_tls_free_context
| E_X509_get_ext_d2i (cert : X509)
| E_sk_GENERAL_NAME_free
| E_X509_free (cert : X509)
| E_match_hostname (site : match_site) (pattern hostname : string)
| E_store_peer_CN (v : option string)
| E_store_issuer_CN (v : option string)
| E_tls_client_stop (timeout failure : Z)
| E_SSL_shutdown
| E_tls_stream_stop.

Definition is_tls_mgr_delete (e : event) : bool :=
  match e with E_tls_mgr_delete _ _ => true | _ => false end.

Definition is_match_hostname (e : event) : bool :=
  match e with E_match_hostname _ _ _ => true | _ => false end.

Definition is_SSL_set_session (e : event) : bool :=
  match e with E_SSL_set_session _ => true | _ => false end.

Definition is_tls_bio_connect (e : event) : bool :=
  match e with E_tls_bio_connect _ _ => true | _ => false end.

Definition is_SSL_CTX_new (e : event) : bool :=
  match e with E_SSL_CTX_new => true | _ => false end.

Definition is_X509_get_ext_d2i (e : event) : bool :=
  match e with E_X509_get_ext_d2i _ => true | _ => false end.

Definition is_store_peer_CN_non_null (e : event) : bool :=
  match e with E_store_peer_CN (Some _) => true | _ => false end.

Definition is_store_issuer_CN_non_null (e : event) : bool :=
  match e with E_store_issuer_CN (Some _) => true | _ => false end.

(** ** The environment: configuration and the answers of the collaborators *)

Record Env : Type := mkEnv {
  (* mail_params.h *)
  var_smtp_tls_loglevel : Z;
  var_tls_daemon_rand_bytes : Z;
  var_smtp_tls_cipherlist : string;
  var_smtp_tls_CAfile : string;
  var_smtp_tls_CApath : string;
  var_smtp_tls_cert_file : string;
  var_smtp_tls_key_file : string;
  var_smtp_tls_dcert_file : string;
  var_smtp_tls_dkey_file : string;
  var_smtp_tls_scache_timeout : Z;
  (* tls_mgr.h: the bit of the client cache in the cache-type mask *)
  TLS_MGR_SCACHE_CLIENT : Z;
  (* TLS library of Postfix *)
  tls_ext_seed : Z -> Z;
  tls_bug_bits : Z;
  tls_set_ca_certificate_info : SSL_CTX -> string -> string -> Z;
  tls_set_my_certificate_key_info :
    SSL_CTX -> string -> string -> string -> string -> Z;
  tls_mgr_policy : tls_mgr_status * Z;
  tls_mgr_lookup : Z -> string -> tls_mgr_status * string;
  tls_session_activate : string -> option SSL_SESSION;
  tls_session_passivate : SSL_SESSION -> option string;
  tls_bio_connect : Z -> Z -> TLScontext_t -> Z;
  tls_peer_CN : X509 -> option string;
  tls_issuer_CN : X509 -> option string;
  (* OpenSSL *)
  SSL_CTX_new : option SSL_CTX;
  SSL_CTX_set_cipher_list : SSL_CTX -> string -> Z;
  SSL_get_ex_new_index : Z;
  SSL_new : SSL_CTX -> option SSL;
  SSL_set_ex_data : SSL -> Z;
  BIO_new_bio_pair : option (BIO * BIO);
  SSL_session_reused : option SSL -> Z;
  SSL_get_peer_certificate : option SSL -> option X509;
  SSL_get_verify_result : option SSL -> X509_verify_result;
  X509_get_ext_d2i_subject_alt_name : X509 -> option (list GENERAL_NAME);
  SSL_get_version : option SSL -> string;
  SSL_get_current_cipher : option SSL -> SSL_CIPHER
}.

(** ** Process-wide variables and the state threaded through the code *)

Record Globals : Type := mkGlobals {
  tls_client_cache : Z;     (* static int tls_client_cache = 0 *)
  TLScontext_index : Z      (* tls.h *)
}.

Record World : Type := mkWorld {
  globals : Globals;
  trace : list event
}.

(** A C function body: it runs on the world and either falls through
    with a value ([Normal]) or leaves the function by [return]
    ([Returned]). *)
Inductive Flow (R A : Type) : Type :=
| Normal (a : A)
| Returned (r : R).
Arguments Normal {R A} a.
Arguments Returned {R A} r.

Definition Fn (R A : Type) : Type := World -> Flow R A * World.

Definition ret {R A : Type} (a : A) : Fn R A := fun w => (Normal a, w).

Definition bind {R A B : Type} (m : Fn R A) (k : A -> Fn R B) : Fn R B :=
  fun w =>
    match m w with
    | (Normal a, w') => k a w'
    | (Returned r, w') => (Returned r, w')
    end.

Definition c_return {R A : Type} (r : R) : Fn R A :=
  fun w => (Returned r, w).

Definition emit {R : Type} (e : event) : Fn R unit :=
  fun w => (Normal tt, mkWorld (globals w) (trace w ++ [e])).

Definition get_globals {R : Type} : Fn R Globals :=
  fun w => (Normal (globals w), w).

Definition put_globals {R : Type} (g : Globals) : Fn R unit :=
  fun w => (Normal tt, mkWorld g (trace w)).

Definition when {R : Type} (b : bool) (m : Fn R unit) : Fn R unit :=
  if b then m else ret tt.

(** Running a whole function: both ways of leaving it yield its result. *)
Definition run {R : Type} (body : Fn R R) (w : World) : R * World :=
  match body w with
  | (Normal r, w') => (r, w')
  | (Returned r, w') => (r, w')
  end.

(** Calling a function from inside another one. *)
Definition call {R A : Type} (body : Fn A A) : Fn R A :=
  fun w => let (a, w') := run body w in (Normal a, w').

Declare Scope fn_scope.
Delimit Scope fn_scope with fn.
Notation "x <- m ;; k" := (bind m (fun x => k))
  (at level 61, m at next level, right associativity) : fn_scope.
Notation "' pat <- m ;; k" := (bind m (fun x => match x with pat => k end))
  (at level 61, pat pattern, m at next level, right associativity) : fn_scope.
Notation "m ;; k" := (bind m (fun _ => k))
  (at level 61, right associativity) : fn_scope.
Local Open Scope fn_scope.

(** ** [load_clnt_session] (lines 165-195) *)

Definition load_clnt_session (env : Env) (cache_id : string)
  : Fn (option SSL_SESSION) (option SSL_SESSION) :=
  when (3 <=? var_smtp_tls_loglevel env)
       (emit (E_msg_info (Msg_looking_for_session cache_id))) ;;
  g <- get_globals ;;
  emit (E_tls_mgr_lookup (tls_client_cache g) cache_id) ;;
  session <-
    match tls_mgr_lookup env (tls_client_cache g) cache_id with
    | (TLS_MGR_STAT_OK, session_data) =>
        emit (E_tls_session_activate session_data) ;;
        match tls_session_activate env session_data with
        | Some session =>
            when (3 <=? var_smtp_tls_loglevel env)
                 (emit (E_msg_info (Msg_reloaded_session cache_id))) ;;
            ret (Some session)
        | None => ret None
        end
    | (TLS_MGR_STAT_not_OK, _) => ret None
    end ;;
  c_return session.

(** ** [new_client_session_cb] (lines 199-246)

    The engine calls this hook with the connection state it finds through
    [SSL_get_ex_data]; the version-specific patch of old OpenSSL releases
    is compiled out. *)

Definition new_client_session_cb (env : Env) (TLScontext : TLScontext_t)
    (session : SSL_SESSION) : Fn Z Z :=
  let cache_id := match serverid TLScontext with Some s => s | None => "" end in
  when (3 <=? var_smtp_tls_loglevel env)
       (emit (E_msg_info (Msg_save_session cache_id))) ;;
  emit (E_tls_session_passivate session) ;;
  match tls_session_passivate env session with
  | Some session_data =>
      g <- get_globals ;;
      emit (E_tls_mgr_update (tls_client_cache g) cache_id session_data)
  | None => ret tt
  end ;;
  emit (E_SSL_SESSION_free session) ;;
  c_return 1.

(** ** [uncache_session] (lines 250-259) *)

Definition uncache_session (env : Env) (TLScontext : TLScontext_t)
  : Fn unit unit :=
  match serverid TLScontext with
  | None => c_return tt
  | Some id =>
      when (3 <=? var_smtp_tls_loglevel env)
           (emit (E_msg_info (Msg_remove_session id))) ;;
      g <- get_globals ;;
      emit (E_tls_mgr_delete (tls_client_cache g) id)
  end.

(** ** [tls_client_init] (lines 263-449) *)

(** The value an [int] holds after a [long] is stored in it. *)
Definition int_of_long (z : Z) : Z := (z + 2 ^ 31) mod 2 ^ 32 - 2 ^ 31.

Definition tls_client_init (env : Env) (unused_verifydepth : Z)
  : Fn (option SSL_CTX) (option SSL_CTX) :=
  let off := 0 in
  when (2 <=? var_smtp_tls_loglevel env)
       (emit (E_msg_info Msg_initializing_engine)) ;;
  emit E_tls_check_version ;;
  emit E_SSL_load_error_strings ;;
  emit E_OpenSSL_add_ssl_algorithms ;;
  emit (E_tls_ext_seed (var_tls_daemon_rand_bytes env)) ;;
  (if tls_ext_seed env (var_tls_daemon_rand_bytes env) <? 0
   then emit (E_msg_warn Msg_no_entropy) ;; c_return None
   else ret tt) ;;
  emit E_tls_int_seed ;;
  emit E_SSL_CTX_new ;;
  client_ctx <-
    match SSL_CTX_new env with
    | None => emit E_tls_print_errors ;; c_return None
    | Some ctx => ret ctx
    end ;;
  let off := int_of_long (Z.lor off (tls_bug_bits env)) in
  emit (E_SSL_CTX_set_options client_ctx off) ;;
  when (2 <=? var_smtp_tls_loglevel env)
       (emit (E_SSL_CTX_set_info_callback client_ctx)) ;;
  (if negb (Ascii.eqb (char_at (var_smtp_tls_cipherlist env) 0) NUL)
   then
     emit (E_SSL_CTX_set_cipher_list client_ctx
             (var_smtp_tls_cipherlist env)) ;;
     if SSL_CTX_set_cipher_list env client_ctx (var_smtp_tls_cipherlist env)
        =? 0
     then
       emit E_tls_print_errors ;;
       emit (E_SSL_CTX_free client_ctx) ;;
       c_return None
     else ret tt
   else ret tt) ;;
  emit (E_tls_set_ca_certificate_info client_ctx
          (var_smtp_tls_CAfile env) (var_smtp_tls_CApath env)) ;;
  (if tls_set_ca_certificate_info env client_ctx
        (var_smtp_tls_CAfile env) (var_smtp_tls_CApath env) <? 0
   then emit (E_SSL_CTX_free client_ctx) ;; c_return None
   else ret tt) ;;
  (if negb (Ascii.eqb (char_at (var_smtp_tls_cert_file env) 0) NUL)
      || negb (Ascii.eqb (char_at (var_smtp_tls_dcert_file env) 0) NUL)
   then
     emit (E_tls_set_my_certificate_key_info client_ctx
             (var_smtp_tls_cert_file env) (var_smtp_tls_key_file env)
             (var_smtp_tls_dcert_file env) (var_smtp_tls_dkey_file env)) ;;
     if tls_set_my_certificate_key_info env client_ctx
          (var_smtp_tls_cert_file env) (var_smtp_tls_key_file env)
          (var_smtp_tls_dcert_file env) (var_smtp_tls_dkey_file env) <? 0
     then emit (E_SSL_CTX_free client_ctx) ;; c_return None
     else ret tt
   else ret tt) ;;
  emit (E_SSL_CTX_set_tmp_rsa_callback client_ctx) ;;
  emit (E_SSL_CTX_set_verify client_ctx SSL_VERIFY_NONE) ;;
  emit (E_SSL_CTX_set_timeout client_ctx (var_smtp_tls_scache_timeout env)) ;;
  emit E_tls_mgr_policy ;;
  match tls_mgr_policy env with
  | (TLS_MGR_STAT_OK, cache_types) =>
      g <- get_globals ;;
      let cache := Z.land cache_types (TLS_MGR_SCACHE_CLIENT env) in
      put_globals (mkGlobals cache (TLScontext_index g)) ;;
      when (negb (cache =? 0))
           (emit (E_SSL_CTX_set_session_cache_mode client_ctx) ;;
            emit (E_SSL_CTX_sess_set_new_cb client_ctx))
  | (TLS_MGR_STAT_not_OK, _) => ret tt
  end ;;
  g <- get_globals ;;
  when (TLScontext_index g <? 0)
       (emit E_SSL_get_ex_new_index ;;
        put_globals
          (mkGlobals (tls_client_cache g) (SSL_get_ex_new_index env))) ;;
  c_return (Some client_ctx).

(** ** [verify_extract_peer] (lines 465-540) *)

(** The [for] loop over the subject alternative names (lines 490-499),
    started with the values the two counters have on entry.  It yields
    [dNSName_found] and [hostname_matched] as they are when the loop is
    left, by [break] or at the end of the stack.  The counter is a [Z]:
    it counts entries of one certificate and stays far below [INT_MAX]. *)
Fixpoint dNSName_loop {R : Type} (gens : list GENERAL_NAME)
    (peername : string) (dNSName_found hostname_matched : Z)
  : Fn R (Z * Z) :=
  match gens with
  | [] => ret (dNSName_found, hostname_matched)
  | gn :: rest =>
      if is_GEN_DNS (gn_type gn)
      then
        let dNSName_found := dNSName_found + 1 in
        emit (E_match_hostname at_dNSName (gn_d_ia5_data gn) peername) ;;
        let hostname_matched := match_hostname (gn_d_ia5_data gn) peername in
        if truthy hostname_matched
        then ret (dNSName_found, hostname_matched)
        else dNSName_loop rest peername dNSName_found hostname_matched
      else dNSName_loop rest peername dNSName_found hostname_matched
  end.

Definition verify_extract_peer {R : Type} (env : Env) (peername : string)
    (peercert : X509) (TLScontext : TLScontext_t) : Fn R TLScontext_t :=
  let hostname_matched := 0 in
  let dNSName_found := 0 in
  let TLScontext :=
    set_peer_verified
      (c_bool (is_X509_V_OK (SSL_get_verify_result env (con TLScontext))))
      TLScontext in
  let verify_peername :=
    c_bool (negb (enforce_CN TLScontext =? 0)
            && negb (peer_verified TLScontext =? 0)) in
  '(dNSName_found, hostname_matched) <-
    (if truthy verify_peername
     then
       emit (E_X509_get_ext_d2i peercert) ;;
       match X509_get_ext_d2i_subject_alt_name env peercert with
       | Some gens =>
           r <- dNSName_loop gens peername dNSName_found hostname_matched ;;
           emit E_sk_GENERAL_NAME_free ;;
           ret r
       | None => ret (dNSName_found, hostname_matched)
       end
     else ret (dNSName_found, hostname_matched)) ;;
  when (truthy dNSName_found && negb (truthy hostname_matched))
       (emit (E_msg_info (Msg_dNSNames_none_match peername dNSName_found))) ;;
  emit (E_store_peer_CN (tls_peer_CN env peercert)) ;;
  CN <-
    match tls_peer_CN env peercert with
    | Some s => ret s
    | None => emit (E_store_peer_CN (Some "")) ;; ret ""
    end ;;
  let TLScontext := set_peer_CN (Some CN) TLScontext in
  emit (E_store_issuer_CN (tls_issuer_CN env peercert)) ;;
  issuer <-
    match tls_issuer_CN env peercert with
    | Some s => ret s
    | None => emit (E_store_issuer_CN (Some "")) ;; ret ""
    end ;;
  let TLScontext := set_issuer_CN (Some issuer) TLScontext in
  hostname_matched <-
    (if negb (truthy dNSName_found) && truthy verify_peername
     then
       if negb (Ascii.eqb (char_at CN 0) NUL)
       then
         emit (E_match_hostname at_CommonName CN peername) ;;
         let hostname_matched := match_hostname CN peername in
         when (negb (truthy hostname_matched))
              (emit (E_msg_info (Msg_CommonName_mismatch peername CN))) ;;
         ret hostname_matched
       else ret hostname_matched
     else ret hostname_matched) ;;
  let TLScontext := set_hostname_matched hostname_matched TLScontext in
  when (1 <=? var_smtp_tls_loglevel env)
       (if truthy (peer_verified TLScontext)
           && (negb (truthy (enforce_CN TLScontext))
               || truthy (Ctx.hostname_matched TLScontext))
        then emit (E_msg_info (Msg_Verified CN issuer))
        else emit (E_msg_info (Msg_Unverified CN issuer))) ;;
  ret TLScontext.

(** ** Teardown *)

(** Modelled from the spec: [tls_client_stop] is defined outside this
    file.  A clean teardown ([failure] clear) attempts the close
    notification, a failure teardown skips it; either way the connection
    state is released and the stream gets its own read/write path back
    (spec, section 4.4, Teardown; header comment of tls_client.c: "If the
    failure flag is set, no SSL_shutdown() handshake is performed"). *)
Definition tls_client_stop {R : Type} (client_ctx : SSL_CTX)
    (stream : VSTREAM) (timeout failure : Z) (TLScontext : TLScontext_t)
  : Fn R unit :=
  emit (E_tls_client_stop timeout failure) ;;
  when (negb (truthy failure)) (emit E_SSL_shutdown) ;;
  emit E_tls_free_context ;;
  emit E_tls_stream_stop.

(** ** [tls_client_start] (lines 547-744)

    The body is cut at the stages of a connection: allocation and
    transport binding, priming from the session cache, the handshake,
    verification of the peer, and the verdict.  [serverid] is handed to
    [mystrdup], so it is a string, not a null pointer.  The patch of the
    verify result for OpenSSL releases before 0.9.6a is compiled out. *)

(** Lines 559-611: the connection state, the engine session, the
    enforcement flags and the BIO pair. *)
Definition tls_client_start_allocate (env : Env) (client_ctx : SSL_CTX)
    (enforce_peername : Z) (peername serverid : string)
  : Fn (option TLScontext_t) TLScontext_t :=
  when (1 <=? var_smtp_tls_loglevel env)
       (emit (E_msg_info (Msg_setting_up peername))) ;;
  let TLScontext := tls_alloc_context (var_smtp_tls_loglevel env) peername in
  let TLScontext := set_serverid (Some serverid) TLScontext in
  emit (E_SSL_new client_ctx) ;;
  ssl <-
    match SSL_new env client_ctx with
    | None =>
        emit (E_msg_info Msg_no_SSL_new) ;;
        emit E_tls_print_errors ;;
        emit E_tls_free_context ;;
        c_return None
    | Some ssl => ret ssl
    end ;;
  let TLScontext := set_con (Some ssl) TLScontext in
  emit E_SSL_set_ex_data ;;
  (if SSL_set_ex_data env ssl =? 0
   then
     emit (E_msg_info Msg_no_ex_data) ;;
     emit E_tls_print_errors ;;
     emit E_tls_free_context ;;
     c_return None
   else ret tt) ;;
  TLScontext <-
    (if truthy enforce_peername
     then
       emit (E_SSL_set_verify SSL_VERIFY_PEER) ;;
       ret (set_con (Some (mkSSL (ssl_ctx ssl) SSL_VERIFY_PEER
                                 (ssl_session ssl)))
              (set_enforce_CN 1 (set_enforce_verify_errors 1 TLScontext)))
     else
       ret (set_enforce_CN 0 (set_enforce_verify_errors 0 TLScontext))) ;;
  let TLScontext := set_hostname_matched 0 TLScontext in
  emit E_BIO_new_bio_pair ;;
  match BIO_new_bio_pair env with
  | None =>
      emit (E_msg_info Msg_no_BIO_pair) ;;
      emit E_tls_print_errors ;;
      emit E_tls_free_context ;;
      c_return None
  | Some (internal, network) =>
      ret (set_network_bio (Some network)
             (set_internal_bio (Some internal) TLScontext))
  end.

(** [SSL_set_session] on the connection object of the state. *)
Definition SSL_set_session (session : SSL_SESSION) (ssl : option SSL)
  : option SSL :=
  match ssl with
  | Some c => Some (mkSSL (ssl_ctx c) (ssl_verify_mode c) (Some session))
  | None => None
  end.

(** Lines 620-642: try to load a session from the cache. *)
Definition tls_client_start_prime (env : Env) (serverid : string)
    (TLScontext : TLScontext_t) : Fn (option TLScontext_t) TLScontext_t :=
  g <- get_globals ;;
  if truthy (tls_client_cache g)
  then
    session <- call (load_clnt_session env serverid) ;;
    match session with
    | Some session =>
        emit (E_SSL_set_session session) ;;
        emit (E_SSL_SESSION_free session) ;;
        ret (set_con (SSL_set_session session (con TLScontext)) TLScontext)
    | None => ret TLScontext
    end
  else ret TLScontext.

(** Lines 648-690: seed, connect state, BIO, and the handshake itself.
    The trace holds the calls [tls_client_start] makes.  What the engine
    does inside [tls_bio_connect] is not part of it, the callbacks it
    invokes included: [new_client_session_cb], when registered, runs in
    there. *)
Definition tls_client_start_handshake (env : Env) (stream : VSTREAM)
    (timeout : Z) (peername : string) (TLScontext : TLScontext_t)
  : Fn (option TLScontext_t) unit :=
  emit E_tls_int_seed ;;
  emit (E_tls_ext_seed (var_tls_daemon_rand_bytes env)) ;;
  emit E_SSL_set_connect_state ;;
  emit E_SSL_set_bio ;;
  when (3 <=? var_smtp_tls_loglevel env) (emit (E_BIO_set_callback true)) ;;
  emit (E_tls_bio_connect (vstream_fileno stream) timeout) ;;
  let sts := tls_bio_connect env (vstream_fileno stream) timeout TLScontext in
  if sts <=? 0
  then
    emit (E_msg_info (Msg_SSL_connect_error peername sts)) ;;
    emit E_tls_print_errors ;;
    call (uncache_session env TLScontext) ;;
    emit E_tls_free_context ;;
    c_return None
  else ret tt.

(** Lines 696-718: the engine is active; record reuse and verify the
    peer if it presented a certificate. *)
Definition tls_client_start_verify (env : Env) (peername : string)
    (TLScontext : TLScontext_t) : Fn (option TLScontext_t) TLScontext_t :=
  emit E_tls_stream_start ;;
  when ((3 <=? var_smtp_tls_loglevel env)
        && truthy (SSL_session_reused env (con TLScontext)))
       (emit (E_msg_info Msg_reusing_old_session)) ;;
  when (var_smtp_tls_loglevel env <? 4) (emit (E_BIO_set_callback false)) ;;
  let TLScontext :=
    set_session_reused (SSL_session_reused env (con TLScontext)) TLScontext in
  match SSL_get_peer_certificate env (con TLScontext) with
  | Some peercert =>
      TLScontext <- verify_extract_peer env peername peercert TLScontext ;;
      emit (E_X509_free peercert) ;;
      ret TLScontext
  | None => ret TLScontext
  end.

(** Lines 719-743: the verdict under enforcement, then the negotiated
    parameters. *)
Definition tls_client_start_finish (env : Env) (client_ctx : SSL_CTX)
    (stream : VSTREAM) (timeout enforce_peername : Z) (peername : string)
    (TLScontext : TLScontext_t)
  : Fn (option TLScontext_t) (option TLScontext_t) :=
  (if truthy enforce_peername && negb (truthy (hostname_matched TLScontext))
   then
     emit (E_msg_info (Msg_hostname_mismatch peername)) ;;
     tls_client_stop client_ctx stream timeout 0 TLScontext ;;
     c_return None
   else ret tt) ;;
  let TLScontext :=
    set_protocol (Some (SSL_get_version env (con TLScontext))) TLScontext in
  let cipher := SSL_get_current_cipher env (con TLScontext) in
  let TLScontext :=
    set_cipher_name (Some (SSL_CIPHER_get_name cipher)) TLScontext in
  let TLScontext := set_cipher_algbits (SSL_CIPHER_algbits cipher) TLScontext in
  let TLScontext := set_cipher_usebits (SSL_CIPHER_usebits cipher) TLScontext in
  when (1 <=? var_smtp_tls_loglevel env)
       (emit (E_msg_info
                (Msg_established peername
                   (SSL_get_version env (con TLScontext))
                   (SSL_CIPHER_get_name cipher)
                   (cipher_usebits TLScontext) (cipher_algbits TLScontext)))) ;;
  emit E_tls_int_seed ;;
  c_return (Some TLScontext).

(** Lines 559-690: everything up to a completed handshake. *)
Definition tls_client_start_connect (env : Env) (client_ctx : SSL_CTX)
    (stream : VSTREAM) (timeout enforce_peername : Z)
    (peername serverid : string)
  : Fn (option TLScontext_t) TLScontext_t :=
  TLScontext <-
    tls_client_start_allocate env client_ctx enforce_peername peername
      serverid ;;
  TLScontext <- tls_client_start_prime env serverid TLScontext ;;
  tls_client_start_handshake env stream timeout peername TLScontext ;;
  ret TLScontext.

Definition tls_client_start (env : Env) (client_ctx : SSL_CTX)
    (stream : VSTREAM) (timeout enforce_peername : Z)
    (peername serverid : string)
  : Fn (option TLScontext_t) (option TLScontext_t) :=
  TLScontext <-
    tls_client_start_connect env client_ctx stream timeout enforce_peername
      peername serverid ;;
  TLScontext <- tls_client_start_verify env peername TLScontext ;;
  tls_client_start_finish env client_ctx stream timeout enforce_peername
    peername TLScontext.

(** ** The matching rule in the words of the specification *)

(** Two characters are the same up to case when they are equal or are
    the upper-case and lower-case form of one ASCII letter. *)
Definition same_char_nocase (a b : ascii) : Prop :=
  a = b
  \/ (65 <= code a <= 90 /\ code b = code a + 32)
  \/ (65 <= code b <= 90 /\ code a = code b + 32).

Inductive eq_nocase : string -> string -> Prop :=
| eq_nocase_nil : eq_nocase EmptyString EmptyString
| eq_nocase_cons (a b : ascii) (s t : string) :
    same_char_nocase a b -> eq_nocase s t ->
    eq_nocase (String a s) (String b t).

(** [label] holds no dot: it ends at the first dot of the hostname. *)
Fixpoint dot_free (label : string) : Prop :=
  match label with
  | EmptyString => True
  | String c r => c <> "."%char /\ dot_free r
  end.

Definition match_spec (pattern hostname : string) : Prop :=
  eq_nocase pattern hostname
  \/ exists remainder : string,
       pattern = String "*" (String "." remainder)
       /\ remainder <> EmptyString
       /\ exists label suffix : string,
            hostname = (label ++ String "." suffix)%string
            /\ dot_free label
            /\ eq_nocase suffix remainder.

(** The DNS-type entries of a subject alternative name stack, in order. *)
Definition dNSNames (gens : list GENERAL_NAME) : list string :=
  map gn_d_ia5_data (filter (fun gn => is_GEN_DNS (gn_type gn)) gens).

(** The entries the loop tests: those up to and including the first one
    that matches. *)
Fixpoint tested_until_match (peername : string) (names : list string)
  : list string :=
  match names with
  | [] => []
  | n :: rest =>
      if truthy (match_hostname n peername) then [n]
      else n :: tested_until_match peername rest
  end.

(** The calls of [match_hostname] the loop makes for a list of names. *)
Definition dNS_match_events (peername : string) (names : list string)
  : list event :=
  map (fun n => E_match_hostname at_dNSName n peername) names.

(** ** Two properties of function bodies used in the proofs *)

(** [m] leaves the process-wide variables alone and only appends to the
    trace, and nothing it appends satisfies [p]. *)
Definition avoids {R A : Type} (p : event -> bool) (m : Fn R A) : Prop :=
  forall w : World,
    globals (snd (m w)) = globals w
    /\ exists evs : list event,
         trace (snd (m w)) = trace w ++ evs /\ filter p evs = [].

(** The way [m] leaves (falling through or returning, and with which
    value) does not depend on the world it starts in. *)
Definition value_stable {R A : Type} (m : Fn R A) : Prop :=
  forall w1 w2 : World, fst (m w1) = fst (m w2).

(** ** Sample environments

    A mail server [mail.example.com] reached through a working engine;
    the parameters are the answers that differ between the scenarios. *)

Definition sample_client_ctx : SSL_CTX := ssl_ctx_handle 0.
Definition sample_stream : VSTREAM := mkVSTREAM 5.
Definition sample_cert : X509 := x509_handle 0.
Definition sample_session : SSL_SESSION := ssl_session_handle 0.

Definition sample_env (loglevel seed_status : Z)
    (lookup : tls_mgr_status * string) (activated : option SSL_SESSION)
    (sts : Z) (verify_result : X509_verify_result)
    (alt_names : option (list GENERAL_NAME)) (CN : option string) : Env :=
  {| var_smtp_tls_loglevel := loglevel;
     var_tls_daemon_rand_bytes := 32;
     var_smtp_tls_cipherlist := "";
     var_smtp_tls_CAfile := "/etc/postfix/cacert.pem";
     var_smtp_tls_CApath := "";
     var_smtp_tls_cert_file := "";
     var_smtp_tls_key_file := "";
     var_smtp_tls_dcert_file := "";
     var_smtp_tls_dkey_file := "";
     var_smtp_tls_scache_timeout := 3600;
     TLS_MGR_SCACHE_CLIENT := 2;
     tls_ext_seed := fun _ => seed_status;
     tls_bug_bits := 0;
     tls_set_ca_certificate_info := fun _ _ _ => 0;
     tls_set_my_certificate_key_info := fun _ _ _ _ _ => 0;
     tls_mgr_policy := (TLS_MGR_STAT_OK, 3);
     tls_mgr_lookup := fun _ _ => lookup;
     tls_session_activate := fun _ => activated;
     tls_session_passivate := fun _ => Some "blob";
     tls_bio_connect := fun _ _ _ => sts;
     tls_peer_CN := fun _ => CN;
     tls_issuer_CN := fun _ => Some "Example CA";
     SSL_CTX_new := Some sample_client_ctx;
     SSL_CTX_set_cipher_list := fun _ _ => 1;
     SSL_get_ex_new_index := 0;
     SSL_new := fun ctx => Some (mkSSL ctx SSL_VERIFY_NONE None);
     SSL_set_ex_data := fun _ => 1;
     BIO_new_bio_pair := Some (bio_handle 0, bio_handle 1);
     SSL_session_reused := fun ssl =>
       match ssl with
       | Some (mkSSL _ _ (Some _)) => 1
       | _ => 0
       end;
     SSL_get_peer_certificate := fun _ => Some sample_cert;
     SSL_get_verify_result := fun _ => verify_result;
     X509_get_ext_d2i_subject_alt_name := fun _ => alt_names;
     SSL_get_version := fun _ => "TLSv1";
     SSL_get_current_cipher := fun _ => mkSSL_CIPHER "AES256-SHA" 256 256 |}.

Definition sample_world (cache : Z) : World :=
  mkWorld (mkGlobals cache 0) [].

(** Enforcement on, the only alternative name is for another host, the
    CommonName is the host's (scenario B of the specification). *)
Definition env_wrong_alt_name : Env :=
  sample_env 1 0 (TLS_MGR_STAT_not_OK, "") None 1 X509_V_OK
    (Some [mkGENERAL_NAME GEN_DNS "wrong.example.com"])
    (Some "mail.example.com").

(** The same peer behind a cache that holds a usable session. *)
Definition env_wrong_alt_name_cached : Env :=
  sample_env 3 0 (TLS_MGR_STAT_OK, "blob") (Some sample_session) 1 X509_V_OK
    (Some [mkGENERAL_NAME GEN_DNS "wrong.example.com"])
    (Some "mail.example.com").

(** A self-signed peer: the trust chain does not verify (scenario D). *)
Definition env_untrusted : Env :=
  sample_env 1 0 (TLS_MGR_STAT_not_OK, "") None 1 (X509_V_ERR 18)
    (Some [mkGENERAL_NAME GEN_DNS "mail.example.com"])
    (Some "mail.example.com").

(** The handshake times out. *)
Definition env_handshake_timeout : Env :=
  sample_env 1 0 (TLS_MGR_STAT_not_OK, "") None (-1) X509_V_OK None
    (Some "mail.example.com").

(** The cache answers with a blob that cannot be activated. *)
Definition env_corrupt_blob : Env :=
  sample_env 3 0 (TLS_MGR_STAT_OK, "garbage") None 1 X509_V_OK None
    (Some "mail.example.com").

(** tlsmgr(8) has no entropy to give. *)
Definition env_no_entropy : Env :=
  sample_env 2 (-1) (TLS_MGR_STAT_not_OK, "") None 1 X509_V_OK None None.

(** ** Helpers for statements about [match_hostname] *)

(** A character with its ASCII letter case folded, and a string so
    folded, byte by byte. *)
Definition lower_ascii (c : ascii) : ascii :=
  ascii_of_N (Z.to_N (tolower (code c))).

Fixpoint lowercase (s : string) : string :=
  match s with
  | EmptyString => EmptyString
  | String c r => String (lower_ascii c) (lowercase r)
  end.

(** The number of dots of a name: one less than its number of labels. *)
Fixpoint count_dots (s : string) : nat :=
  match s with
  | EmptyString => O
  | String c r => if Ascii.eqb c "." then S (count_dots r) else count_dots r
  end.

(** ** Helpers for statements about the verifier and the orchestrator *)

(** The string behind a pointer that may be null; a null pointer gives
    the empty string. *)
Definition string_or_empty (o : option string) : string :=
  match o with
  | Some s => s
  | None => ""
  end.

(** The lines the verifier logs about a name that did not match. *)
Definition is_mismatch_msg (e : event) : bool :=
  match e with
  | E_msg_info (Msg_dNSNames_none_match _ _) => true
  | E_msg_info (Msg_CommonName_mismatch _ _) => true
  | _ => false
  end.

(** Requests to tlsmgr(8) about the session cache. *)
Definition is_tls_mgr_request (e : event) : bool :=
  match e with
  | E_tls_mgr_lookup _ _ => true
  | E_tls_mgr_update _ _ _ => true
  | E_tls_mgr_delete _ _ => true
  | _ => false
  end.

Definition is_SSL_SESSION_free (e : event) : bool :=
  match e with E_SSL_SESSION_free _ => true | _ => false end.

Definition is_SSL_CTX_free (e : event) : bool :=
  match e with E_SSL_CTX_free _ => true | _ => false end.

Definition is_SSL_CTX_sess_set_new_cb (e : event) : bool :=
  match e with E_SSL_CTX_sess_set_new_cb _ => true | _ => false end.

Definition is_SSL_get_ex_new_index (e : event) : bool :=
  match e with E_SSL_get_ex_new_index => true | _ => false end.

Definition is_SSL_CTX_set_cipher_list (e : event) : bool :=
  match e with E_SSL_CTX_set_cipher_list _ _ => true | _ => false end.

Definition is_tls_set_my_certificate_key_info (e : event) : bool :=
  match e with
  | E_tls_set_my_certificate_key_info _ _ _ _ _ => true
  | _ => false
  end.

Definition is_tls_free_context (e : event) : bool :=
  match e with E_tls_free_context => true | _ => false end.

Definition is_X509_free (e : event) : bool :=
  match e with E_X509_free _ => true | _ => false end.

(** Handing a cached session to the engine and dropping the reference. *)
Definition is_session_handoff (e : event) : bool :=
  match e with
  | E_SSL_set_session _ => true
  | E_SSL_SESSION_free _ => true
  | _ => false
  end.

(** Anything that reaches the cache service or the peer. *)
Definition is_cache_or_network (e : event) : bool :=
  match e with
  | E_tls_mgr_lookup _ _ => true
  | E_tls_mgr_update _ _ _ => true
  | E_tls_mgr_delete _ _ => true
  | E_tls_bio_connect _ _ => true
  | E_tls_stream_start => true
  | E_SSL_shutdown => true
  | _ => false
  end.

(** One stage run: [m], started in [w], leaves as [f] and appends [evs]
    to the trace, the process-wide variables untouched. *)
Definition steps {R A : Type} (m : Fn R A) (w : World) (f : Flow R A)
    (evs : list event) : Prop :=
  m w = (f, mkWorld (globals w) (trace w ++ evs)).

Definition is_tls_mgr_lookup (e : event) : bool :=
  match e with E_tls_mgr_lookup _ _ => true | _ => false end.

(** The kinds of call [verify_extract_peer] makes. *)
Definition is_verifier_event (e : event) : bool :=
  match e with
  | E_msg_info _ => true
  | E_X509_get_ext_d2i _ => true
  | E_sk_GENERAL_NAME_free => true
  | E_match_hostname _ _ _ => true
  | E_store_peer_CN _ => true
  | E_store_issuer_CN _ => true
  | _ => false
  end.

(** One of the three allocation steps of [tls_client_start] fails: the
    engine session, its application data, or the BIO pair. *)
Definition allocation_fails (env : Env) (client_ctx : SSL_CTX) : bool :=
  match SSL_new env client_ctx with
  | None => true
  | Some ssl =>
      (SSL_set_ex_data env ssl =? 0)
      || match BIO_new_bio_pair env with
         | None => true
         | Some _ => false
         end
  end.

(** Enforcement on, the alternative name is the host's (scenario A of
    the specification). *)
Definition env_alt_name_matches : Env :=
  sample_env 1 0 (TLS_MGR_STAT_not_OK, "") None 1 X509_V_OK
    (Some [mkGENERAL_NAME GEN_DNS "mail.example.com"])
    (Some "other.example.com").

(** An environment in which the engine cannot create a session. *)
Definition without_engine_session (env : Env) : Env :=
  {| var_smtp_tls_loglevel := var_smtp_tls_loglevel env;
     var_tls_daemon_rand_bytes := var_tls_daemon_rand_bytes env;
     var_smtp_tls_cipherlist := var_smtp_tls_cipherlist env;
     var_smtp_tls_CAfile := var_smtp_tls_CAfile env;
     var_smtp_tls_CApath := var_smtp_tls_CApath env;
     var_smtp_tls_cert_file := var_smtp_tls_cert_file env;
     var_smtp_tls_key_file := var_smtp_tls_key_file env;
     var_smtp_tls_dcert_file := var_smtp_tls_dcert_file env;
     var_smtp_tls_dkey_file := var_smtp_tls_dkey_file env;
     var_smtp_tls_scache_timeout := var_smtp_tls_scache_timeout env;
     TLS_MGR_SCACHE_CLIENT := TLS_MGR_SCACHE_CLIENT env;
     tls_ext_seed := tls_ext_seed env;
     tls_bug_bits := tls_bug_bits env;
     tls_set_ca_certificate_info := tls_set_ca_certificate_info env;
     tls_set_my_certificate_key_info := tls_set_my_certificate_key_info env;
     tls_mgr_policy := tls_mgr_policy env;
     tls_mgr_lookup := tls_mgr_lookup env;
     tls_session_activate := tls_session_activate env;
     tls_session_passivate := tls_session_passivate env;
     tls_bio_connect := tls_bio_connect env;
     tls_peer_CN := tls_peer_CN env;
     tls_issuer_CN := tls_issuer_CN env;
     SSL_CTX_new := SSL_CTX_new env;
     SSL_CTX_set_cipher_list := SSL_CTX_set_cipher_list env;
     SSL_get_ex_new_index := SSL_get_ex_new_index env;
     SSL_new := fun _ => None;
     SSL_set_ex_data := SSL_set_ex_data env;
     BIO_new_bio_pair := BIO_new_bio_pair env;
     SSL_session_reused := SSL_session_reused env;
     SSL_get_peer_certificate := SSL_get_peer_certificate env;
     SSL_get_verify_result := SSL_get_verify_result env;
     X509_get_ext_d2i_subject_alt_name := X509_get_ext_d2i_subject_alt_name env;
     SSL_get_version := SSL_get_version env;
     SSL_get_current_cipher := SSL_get_current_cipher env |}.

Definition env_no_engine_session : Env :=
  without_engine_session env_wrong_alt_name_cached.

(** * Properties *)

(** ** Truth values *)

Lemma truthy_c_bool (b : bool) : truthy (c_bool b) = b.
Proof. destruct b; reflexivity. Qed.

Lemma c_bool_eq_1 (b : bool) : c_bool b = 1 <-> b = true.
Proof. destruct b; cbn; split; intros; congruence. Qed.

(** ** The hostname matcher *)

Example match_exact :
  match_hostname "example.com" "example.com" = 1.
Proof. reflexivity. Qed.

Example match_wild :
  match_hostname "*.example.com" "mail.example.com" = 1.
Proof. reflexivity. Qed.

Example match_wild_case :
  match_hostname "*.Example.COM" "MAIL.example.com" = 1.
Proof. reflexivity. Qed.

Example match_wild_bare :
  match_hostname "*.example.com" "example.com" = 0.
Proof. reflexivity. Qed.

Example match_wild_deep :
  match_hostname "*.example.com" "a.b.example.com" = 0.
Proof. reflexivity. Qed.

Example match_star_dot_only :
  match_hostname "*." "mail." = 0 /\ match_hostname "*." "*." = 1.
Proof. split; reflexivity. Qed.

Section CStringFacts.

Lemma code_range (c : ascii) : 0 <= code c < 256.
Proof.
  unfold code. pose proof (N_ascii_bounded c). lia.
Qed.

Lemma code_inj (a b : ascii) : code a = code b -> a = b.
Proof.
  unfold code. intros H. apply N2Z.inj in H.
  rewrite <- (ascii_N_embedding a), <- (ascii_N_embedding b).
  now rewrite H.
Qed.

Lemma code_NUL (c : ascii) : code c = 0 <-> c = NUL.
Proof.
  split; intros H.
  - apply code_inj. exact H.
  - subst c. reflexivity.
Qed.

Lemma tolower_eq_iff (a b : ascii) :
  tolower (code a) = tolower (code b) <-> same_char_nocase a b.
Proof.
  unfold same_char_nocase, tolower.
  pose proof (code_range a). pose proof (code_range b).
  split.
  - intros E.
    destruct ((65 <=? code a) && (code a <=? 90)) eqn:Ha;
      destruct ((65 <=? code b) && (code b <=? 90)) eqn:Hb;
      rewrite ?andb_true_iff, ?andb_false_iff, ?Z.leb_le, ?Z.leb_gt in *.
    + left. apply code_inj. lia.
    + right. left. lia.
    + right. right. lia.
    + left. apply code_inj. lia.
  - intros [E | [[R E] | [R E]]].
    + now subst b.
    + rewrite E.
      replace ((65 <=? code a) && (code a <=? 90)) with true
        by (symmetry; apply andb_true_iff; rewrite !Z.leb_le; lia).
      replace ((65 <=? code a + 32) && (code a + 32 <=? 90)) with false
        by (symmetry; apply andb_false_iff; rewrite !Z.leb_gt; lia).
      reflexivity.
    + rewrite E.
      replace ((65 <=? code b) && (code b <=? 90)) with true
        by (symmetry; apply andb_true_iff; rewrite !Z.leb_le; lia).
      replace ((65 <=? code b + 32) && (code b + 32 <=? 90)) with false
        by (symmetry; apply andb_false_iff; rewrite !Z.leb_gt; lia).
      reflexivity.
Qed.

Lemma tolower_zero (c : ascii) : tolower (code c) = 0 -> c = NUL.
Proof.
  unfold tolower. pose proof (code_range c). intros E.
  apply code_NUL.
  destruct ((65 <=? code c) && (code c <=? 90)) eqn:Hc; [|exact E].
  apply andb_true_iff in Hc. rewrite !Z.leb_le in Hc. lia.
Qed.

Lemma nul_free_cons (c : ascii) (s : string) :
  nul_free (String c s) = true <-> c <> NUL /\ nul_free s = true.
Proof.
  cbn. rewrite andb_true_iff, negb_true_iff, Ascii.eqb_neq. tauto.
Qed.

Lemma same_char_nocase_sym (a b : ascii) :
  same_char_nocase a b -> same_char_nocase b a.
Proof. unfold same_char_nocase. intuition auto. Qed.

Lemma eq_nocase_sym (s t : string) : eq_nocase s t -> eq_nocase t s.
Proof.
  induction 1; constructor; auto using same_char_nocase_sym.
Qed.

Lemma strcasecmp_zero_iff (s1 : string) :
  forall s2 : string,
    nul_free s1 = true -> nul_free s2 = true ->
    (strcasecmp s1 s2 = 0 <-> eq_nocase s1 s2).
Proof.
  induction s1 as [|c1 r1 IH]; intros [|c2 r2] N1 N2.
  - cbn. split; [constructor | reflexivity].
  - apply nul_free_cons in N2 as [N2 _]. cbn. split; intros H.
    + exfalso. apply N2, tolower_zero. lia.
    + inversion H.
  - apply nul_free_cons in N1 as [N1 _]. cbn. split; intros H.
    + exfalso. apply N1, tolower_zero. lia.
    + inversion H.
  - apply nul_free_cons in N1 as [N1 M1].
    apply nul_free_cons in N2 as [N2 M2].
    cbn [strcasecmp].
    destruct (tolower (code c1) - tolower (code c2) =? 0) eqn:D.
    + apply Z.eqb_eq in D.
      assert (C : (code c1 =? 0) = false)
        by (apply Z.eqb_neq; rewrite code_NUL; exact N1).
      rewrite C, (IH r2 M1 M2). split; intros H.
      * constructor; [apply tolower_eq_iff; lia | exact H].
      * now inversion H.
    + apply Z.eqb_neq in D. split; intros H.
      * contradiction.
      * exfalso. inversion H; subst.
        apply D. apply Z.sub_move_0_r. now apply tolower_eq_iff.
Qed.

Lemma nul_free_app (s t : string) :
  nul_free (s ++ t)%string = true <->
  nul_free s = true /\ nul_free t = true.
Proof.
  induction s as [|c r IH]; cbn [append].
  - cbn. tauto.
  - rewrite !nul_free_cons, IH. tauto.
Qed.

(** [strchr] on a dot finds the split of the string at its first dot. *)
Lemma strchr_dot_split (h p : string) :
  strchr h "." = Some p ->
  exists label suffix : string,
    h = (label ++ String "." suffix)%string
    /\ dot_free label /\ p = String "." suffix.
Proof.
  induction h as [|c r IH]; cbn [strchr].
  - cbn. discriminate.
  - destruct (Ascii.eqb c ".") eqn:E.
    + apply Ascii.eqb_eq in E. subst c. intros [= <-].
      exists EmptyString, r. cbn. auto.
    + destruct (Ascii.eqb c NUL); [discriminate|].
      intros H. destruct (IH H) as (label & suffix & -> & DF & ->).
      exists (String c label), suffix. cbn. repeat split; auto.
      now apply Ascii.eqb_neq.
Qed.

Lemma strchr_dot_of_split (label suffix : string) :
  nul_free label = true -> dot_free label ->
  strchr (label ++ String "." suffix)%string "."
  = Some (String "." suffix).
Proof.
  induction label as [|c r IH]; intros N DF.
  - reflexivity.
  - apply nul_free_cons in N as [N M]. destruct DF as [D DF].
    cbn [append strchr].
    apply Ascii.eqb_neq in D. apply Ascii.eqb_neq in N.
    rewrite D, N. auto.
Qed.

End CStringFacts.

(** The three tests on the first bytes of the pattern say that it is
    [*.] followed by something. *)
Lemma wildcard_prefix_iff (pattern : string) :
  nul_free pattern = true ->
  (Ascii.eqb (char_at pattern 0) "*"
   && Ascii.eqb (char_at pattern 1) "."
   && negb (Ascii.eqb (char_at pattern 2) NUL) = true
   <-> exists remainder : string,
         pattern = String "*" (String "." remainder)
         /\ remainder <> EmptyString).
Proof.
  intros N.
  rewrite !andb_true_iff, negb_true_iff, !Ascii.eqb_eq, Ascii.eqb_neq.
  split.
  - intros [[H0 H1] H2].
    destruct pattern as [|a [|b r]]; cbn in H0, H1, H2; try discriminate.
    subst a b. exists r. split; [reflexivity|].
    intros ->. now apply H2.
  - intros (r & -> & NE). cbn. repeat split.
    destruct r as [|c r]; [contradiction|]. cbn.
    apply nul_free_cons in N as [_ N]. apply nul_free_cons in N as [_ N].
    apply nul_free_cons in N as [N _]. exact N.
Qed.

Lemma match_hostname_0_or_1 (pattern hostname : string) :
  match_hostname pattern hostname = 0 \/ match_hostname pattern hostname = 1.
Proof.
  unfold match_hostname.
  destruct (_ || _); cbn; auto.
Qed.

(** C1. On C strings, [match_hostname pattern hostname] is true exactly
    when the pattern equals the hostname up to case, or the pattern is
    [*.] followed by a non-empty remainder, the hostname has a dot, and the
    part of the hostname after its first dot equals that remainder up to
    case.  In particular [example.com] matches itself, [*.example.com]
    matches [mail.example.com], and [*.example.com] matches neither
    [example.com] nor [a.b.example.com]. *)
Theorem match_hostname_spec (pattern hostname : string) :
  nul_free pattern = true -> nul_free hostname = true ->
  (match_hostname pattern hostname = 1 <-> match_spec pattern hostname)
  /\ match_hostname "example.com" "example.com" = 1
  /\ match_hostname "*.example.com" "mail.example.com" = 1
  /\ match_hostname "*.example.com" "example.com" = 0
  /\ match_hostname "*.example.com" "a.b.example.com" = 0.
Proof.
  intros NP NH.
  split; [|repeat split].
  unfold match_hostname, match_spec.
  rewrite c_bool_eq_1, orb_true_iff, Z.eqb_eq.
  rewrite (strcasecmp_zero_iff hostname pattern NH NP).
  rewrite andb_true_iff, (wildcard_prefix_iff pattern NP).
  split.
  - intros [E | [(r & -> & NE) S]].
    + left. now apply eq_nocase_sym.
    + right. exists r. repeat split; auto.
      destruct (strchr hostname ".") as [p|] eqn:C; [|discriminate].
      destruct (strchr_dot_split _ _ C) as (label & suffix & -> & DF & ->).
      exists label, suffix. repeat split; auto.
      apply Z.eqb_eq in S. cbn [ptr_add] in S.
      apply nul_free_app in NH as [_ NS].
      apply nul_free_cons in NS as [_ NS].
      apply nul_free_cons in NP as [_ NP]. apply nul_free_cons in NP as [_ NP].
      now apply strcasecmp_zero_iff in S.
  - intros [E | (r & -> & NE & label & suffix & -> & DF & E)].
    + left. now apply eq_nocase_sym.
    + right. split; [exists r; auto|].
      apply nul_free_app in NH as [NL NS].
      apply nul_free_cons in NS as [_ NS].
      apply nul_free_cons in NP as [_ NP]. apply nul_free_cons in NP as [_ NP].
      rewrite (strchr_dot_of_split label suffix NL DF). cbn [ptr_add].
      apply Z.eqb_eq. now apply strcasecmp_zero_iff.
Qed.

Lemma match_hostname_spec_witness :
  (match_hostname "*.Example.com" "Mail.example.COM" = 1
   <-> match_spec "*.Example.com" "Mail.example.COM")
  /\ match_hostname "example.com" "example.com" = 1
  /\ match_hostname "*.example.com" "mail.example.com" = 1
  /\ match_hostname "*.example.com" "example.com" = 0
  /\ match_hostname "*.example.com" "a.b.example.com" = 0.
Proof.
  apply (match_hostname_spec "*.Example.com" "Mail.example.COM");
    reflexivity.
Defined.

(** ** The peer verifier *)

Lemma truthy_match_hostname (pattern hostname : string) :
  match_hostname pattern hostname
  = c_bool (truthy (match_hostname pattern hostname)).
Proof.
  destruct (match_hostname_0_or_1 pattern hostname) as [E | E];
    rewrite E; reflexivity.
Qed.

(** What the loop over the alternative names leaves behind: the number of
    DNS entries it tested, the outcome of the last test, and one call of
    [match_hostname] per tested entry, in order. *)
Lemma dNSName_loop_run (R : Type) (peername : string)
    (gens : list GENERAL_NAME) :
  forall (found matched : Z) (w : World),
    @dNSName_loop R gens peername found matched w =
    (Normal
       (found
        + Z.of_nat
            (List.length (tested_until_match peername (dNSNames gens))),
        match dNSNames gens with
        | [] => matched
        | _ :: _ =>
            c_bool (existsb (fun n => truthy (match_hostname n peername))
                      (dNSNames gens))
        end),
     mkWorld (globals w)
       (trace w
        ++ dNS_match_events peername
             (tested_until_match peername (dNSNames gens)))).
Proof.
  induction gens as [|gn rest IH]; intros found matched w.
  - cbn. rewrite Z.add_0_r, app_nil_r. now destruct w.
  - cbn [dNSName_loop]. unfold dNSNames in *. cbn [filter].
    destruct (is_GEN_DNS (gn_type gn)) eqn:T.
    + cbn [map tested_until_match existsb]. unfold bind, emit.
      destruct (truthy (match_hostname (gn_d_ia5_data gn) peername)) eqn:M.
      * cbn. rewrite (truthy_match_hostname (gn_d_ia5_data gn) peername), M.
        reflexivity.
      * rewrite IH. cbn [globals trace List.length dNS_match_events map].
        rewrite <- app_assoc. cbn [app].
        rewrite (truthy_match_hostname (gn_d_ia5_data gn) peername), M.
        cbn [orb c_bool].
        replace (found + 1 + Z.of_nat (List.length (tested_until_match peername
                   (map gn_d_ia5_data
                      (filter (fun gn0 => is_GEN_DNS (gn_type gn0)) rest)))))
          with (found + Z.of_nat (S (List.length (tested_until_match peername
                   (map gn_d_ia5_data
                      (filter (fun gn0 => is_GEN_DNS (gn_type gn0)) rest))))))
          by lia.
        destruct (map gn_d_ia5_data
                    (filter (fun gn0 => is_GEN_DNS (gn_type gn0)) rest));
          reflexivity.
    + apply IH.
Qed.

Lemma filter_dNS_match_events (f : event -> bool) (peername : string)
    (names : list string) :
  (forall n, f (E_match_hostname at_dNSName n peername) = false) ->
  filter f (dNS_match_events peername names) = [].
Proof.
  intros H. induction names as [|n l IH]; cbn; [reflexivity|].
  now rewrite H.
Qed.


(** ** Reasoning rules for function bodies *)

Section FnRules.

Context {R : Type}.
Variable p : event -> bool.

Lemma avoids_ret {A : Type} (a : A) : avoids p (@ret R A a).
Proof.
  intros w. split; [reflexivity|]. exists []. cbn.
  now rewrite app_nil_r.
Qed.

Lemma avoids_c_return {A : Type} (r : R) : avoids p (@c_return R A r).
Proof.
  intros w. split; [reflexivity|]. exists []. cbn.
  now rewrite app_nil_r.
Qed.

Lemma avoids_get_globals : avoids p (@get_globals R).
Proof.
  intros w. split; [reflexivity|]. exists []. cbn.
  now rewrite app_nil_r.
Qed.

Lemma avoids_emit (e : event) : p e = false -> avoids p (@emit R e).
Proof.
  intros H w. split; [reflexivity|]. exists [e]. cbn.
  now rewrite H.
Qed.

Lemma avoids_bind {A B : Type} (m : Fn R A) (k : A -> Fn R B) :
  avoids p m -> (forall a, avoids p (k a)) -> avoids p (bind m k).
Proof.
  intros Hm Hk w. unfold bind.
  destruct (Hm w) as (G1 & e1 & T1 & F1).
  destruct (m w) as [[a | r] w1]; cbn [snd] in *.
  - destruct (Hk a w1) as (G2 & e2 & T2 & F2).
    split; [congruence|]. exists (e1 ++ e2).
    rewrite T2, T1, app_assoc, filter_app, F1, F2. auto.
  - split; [exact G1|]. exists e1. auto.
Qed.

Lemma avoids_when (b : bool) (m : Fn R unit) :
  avoids p m -> avoids p (when b m).
Proof. destruct b; cbn; auto using avoids_ret. Qed.

Lemma value_stable_ret {A : Type} (a : A) : value_stable (@ret R A a).
Proof. intros w1 w2. reflexivity. Qed.

Lemma value_stable_c_return {A : Type} (r : R) :
  value_stable (@c_return R A r).
Proof. intros w1 w2. reflexivity. Qed.

Lemma value_stable_emit (e : event) : value_stable (@emit R e).
Proof. intros w1 w2. reflexivity. Qed.

Lemma value_stable_bind {A B : Type} (m : Fn R A) (k : A -> Fn R B) :
  value_stable m -> (forall a, value_stable (k a)) ->
  value_stable (bind m k).
Proof.
  intros Hm Hk w1 w2. unfold bind.
  specialize (Hm w1 w2).
  destruct (m w1) as [[a1 | r1] w1'], (m w2) as [[a2 | r2] w2'];
    cbn in Hm; try discriminate.
  - injection Hm as ->. apply Hk.
  - injection Hm as ->. reflexivity.
Qed.

Lemma value_stable_when (b : bool) (m : Fn R unit) :
  value_stable m -> value_stable (when b m).
Proof. destruct b; cbn; auto using value_stable_ret. Qed.

End FnRules.

Lemma avoids_call {R A : Type} (p : event -> bool) (body : Fn A A) :
  avoids p body -> avoids p (@call R A body).
Proof.
  intros H w. unfold call, run. specialize (H w).
  destruct (body w) as [[a | r] w']; exact H.
Qed.

(** Stepping through a body with the rules above; tests on values the
    environment supplies are split into their cases. *)
Ltac fn_rules :=
  repeat match goal with
    | |- avoids _ (bind _ _) => apply avoids_bind; [|intros ?]
    | |- avoids _ (when _ _) => apply avoids_when
    | |- avoids _ (ret _) => apply avoids_ret
    | |- avoids _ (c_return _) => apply avoids_c_return
    | |- avoids _ get_globals => apply avoids_get_globals
    | |- avoids _ (emit _) => apply avoids_emit; reflexivity
    | |- avoids _ (match ?x with _ => _ end) => destruct x
    | |- value_stable (bind _ _) => apply value_stable_bind; [|intros ?]
    | |- value_stable (when _ _) => apply value_stable_when
    | |- value_stable (ret _) => apply value_stable_ret
    | |- value_stable (c_return _) => apply value_stable_c_return
    | |- value_stable (emit _) => apply value_stable_emit
    | |- value_stable (match ?x with _ => _ end) => destruct x
    end.

Lemma avoids_dNSName_loop {R : Type} (p : event -> bool)
    (gens : list GENERAL_NAME) (peername : string) (found matched : Z) :
  (forall n, p (E_match_hostname at_dNSName n peername) = false) ->
  avoids p (@dNSName_loop R gens peername found matched).
Proof.
  intros H w. rewrite dNSName_loop_run. cbn [snd globals trace].
  split; [reflexivity|]. eexists. split; [reflexivity|].
  now apply filter_dNS_match_events.
Qed.

Lemma value_stable_dNSName_loop {R : Type} (gens : list GENERAL_NAME)
    (peername : string) (found matched : Z) :
  value_stable (@dNSName_loop R gens peername found matched).
Proof. intros w1 w2. now rewrite !dNSName_loop_run. Qed.

Lemma value_stable_call {R A : Type} (body : Fn A A) :
  value_stable body -> value_stable (@call R A body).
Proof.
  intros H w1 w2. unfold call, run. specialize (H w1 w2).
  destruct (body w1) as [[a1 | r1] w1'], (body w2) as [[a2 | r2] w2'];
    cbn in *; congruence.
Qed.

(** *** The stages never ask the cache to delete, except where the
    handshake fails *)

Lemma verify_extract_peer_no_delete {R : Type} (env : Env)
    (peername : string) (peercert : X509) (TLScontext : TLScontext_t) :
  avoids is_tls_mgr_delete
    (@verify_extract_peer R env peername peercert TLScontext).
Proof.
  unfold verify_extract_peer. fn_rules.
  now apply avoids_dNSName_loop.
Qed.

Lemma load_clnt_session_no_delete (env : Env) (cache_id : string) :
  avoids is_tls_mgr_delete (load_clnt_session env cache_id).
Proof. unfold load_clnt_session. fn_rules. Qed.

Lemma new_client_session_cb_no_delete (env : Env)
    (TLScontext : TLScontext_t) (session : SSL_SESSION) :
  avoids is_tls_mgr_delete (new_client_session_cb env TLScontext session).
Proof. unfold new_client_session_cb. fn_rules. Qed.

Lemma allocate_no_delete (env : Env) (client_ctx : SSL_CTX)
    (enforce_peername : Z) (peername serverid : string) :
  avoids is_tls_mgr_delete
    (tls_client_start_allocate env client_ctx enforce_peername peername
       serverid).
Proof. unfold tls_client_start_allocate. fn_rules. Qed.

Lemma prime_no_delete (env : Env) (serverid : string)
    (TLScontext : TLScontext_t) :
  avoids is_tls_mgr_delete (tls_client_start_prime env serverid TLScontext).
Proof.
  unfold tls_client_start_prime. fn_rules.
  apply avoids_call, load_clnt_session_no_delete.
Qed.

Lemma verify_no_delete (env : Env) (peername : string)
    (TLScontext : TLScontext_t) :
  avoids is_tls_mgr_delete (tls_client_start_verify env peername TLScontext).
Proof.
  unfold tls_client_start_verify. fn_rules.
  apply verify_extract_peer_no_delete.
Qed.

(** *** The outcome of a stage depends on the environment only *)

Lemma verify_extract_peer_stable {R : Type} (env : Env)
    (peername : string) (peercert : X509) (TLScontext : TLScontext_t) :
  value_stable (@verify_extract_peer R env peername peercert TLScontext).
Proof.
  unfold verify_extract_peer. fn_rules.
  apply value_stable_dNSName_loop.
Qed.

Lemma uncache_session_stable (env : Env) (TLScontext : TLScontext_t) :
  value_stable (uncache_session env TLScontext).
Proof.
  intros w1 w2. unfold uncache_session.
  destruct (serverid TLScontext); [|reflexivity].
  unfold bind, when, emit, get_globals.
  destruct (3 <=? var_smtp_tls_loglevel env); reflexivity.
Qed.

Lemma allocate_stable (env : Env) (client_ctx : SSL_CTX)
    (enforce_peername : Z) (peername serverid : string) :
  value_stable
    (tls_client_start_allocate env client_ctx enforce_peername peername
       serverid).
Proof. unfold tls_client_start_allocate. fn_rules. Qed.

Lemma handshake_stable (env : Env) (stream : VSTREAM) (timeout : Z)
    (peername : string) (TLScontext : TLScontext_t) :
  value_stable
    (tls_client_start_handshake env stream timeout peername TLScontext).
Proof.
  unfold tls_client_start_handshake. fn_rules.
  apply value_stable_call, uncache_session_stable.
Qed.

Lemma verify_stable (env : Env) (peername : string)
    (TLScontext : TLScontext_t) :
  value_stable (tls_client_start_verify env peername TLScontext).
Proof.
  unfold tls_client_start_verify. fn_rules.
  apply verify_extract_peer_stable.
Qed.

Lemma finish_stable (env : Env) (client_ctx : SSL_CTX) (stream : VSTREAM)
    (timeout enforce_peername : Z) (peername : string)
    (TLScontext : TLScontext_t) :
  value_stable
    (tls_client_start_finish env client_ctx stream timeout enforce_peername
       peername TLScontext).
Proof. unfold tls_client_start_finish, tls_client_stop. fn_rules. Qed.

(** ** The peer verifier, continued *)

Arguments match_hostname : simpl never.

(** Splitting every test that is left in a goal about a run. *)
Ltac split_tests :=
  repeat
    (cbv beta iota; cbn [globals trace fst snd];
     match goal with
     | |- context [match ?x with _ => _ end] =>
         lazymatch x with
         | context [match _ with _ => _ end] => fail
         | _ => idtac
         end;
         match type of x with
         | bool => destruct x eqn:?
         | option _ => destruct x eqn:?
         | tls_mgr_status => destruct x eqn:?
         | list _ => destruct x eqn:?
         | (_ * _)%type => destruct x eqn:?
         end
     end);
  cbv beta iota; cbn [globals trace fst snd].

Ltac close_run :=
  cbn [fst snd globals trace];
  do 2 eexists; split;
  [ rewrite <- ?app_assoc; reflexivity | ].

(** C5. Whatever the certificate, the connection state and the outcome of
    the other checks, the verifier leaves [peer_CN] and [issuer_CN] set to
    a string: the name extracted from the certificate, or the empty string
    when extraction yields nothing.  Each field receives a non-null value
    exactly once in the course of the run. *)
Theorem peer_names_populated (R : Type) (env : Env) (peername : string)
    (peercert : X509) (TLScontext : TLScontext_t) (w : World) :
  exists (TLScontext' : TLScontext_t) (evs : list event),
    @verify_extract_peer R env peername peercert TLScontext w
    = (Normal TLScontext', mkWorld (globals w) (trace w ++ evs))
    /\ peer_CN TLScontext'
       = Some (match tls_peer_CN env peercert with
               | Some s => s
               | None => ""
               end)
    /\ issuer_CN TLScontext'
       = Some (match tls_issuer_CN env peercert with
               | Some s => s
               | None => ""
               end)
    /\ List.length (filter is_store_peer_CN_non_null evs) = 1%nat
    /\ List.length (filter is_store_issuer_CN_non_null evs) = 1%nat.
Proof.
  unfold verify_extract_peer, bind, emit, when, ret.
  cbn [enforce_CN peer_verified set_peer_verified].
  match goal with
  | |- context [if ?b then (fun w0 : World => _) else _] => destruct b eqn:VP
  end.
  - destruct (X509_get_ext_d2i_subject_alt_name env peercert) as [gens|].
    + rewrite dNSName_loop_run. cbn [globals trace].
      split_tests; close_run;
        rewrite ?filter_app, ?filter_dNS_match_events by reflexivity;
        cbn; auto.
    + cbn [globals trace].
      split_tests; close_run; cbn; auto.
  - cbn [globals trace].
    split_tests; close_run; cbn; auto.
Qed.

Lemma filter_match_dNS_match_events (peername : string)
    (names : list string) :
  filter is_match_hostname (dNS_match_events peername names)
  = dNS_match_events peername names.
Proof.
  unfold dNS_match_events.
  induction names as [|n l IH]; cbn; [reflexivity|]. now rewrite IH.
Qed.

Lemma tested_until_match_found (peername n : string) (l : list string) :
  truthy (0 + Z.of_nat (List.length (tested_until_match peername (n :: l))))
  = true.
Proof.
  cbn [tested_until_match].
  destruct (truthy (match_hostname n peername)); reflexivity.
Qed.

(** C2. The verifier's verdict and its calls of [match_hostname], for
    every certificate.  With peername verification on and at least one
    DNS-type alternative name, [hostname_matched] is decided by those
    names alone: they are tested in order up to the first match, and
    [match_hostname] is never called on the CommonName, whether or not a
    name matched.  The CommonName is tested only when verification is on
    and no DNS-type name was examined. *)
Theorem subject_alt_names_take_precedence (R : Type) (env : Env)
    (peername : string) (peercert : X509) (TLScontext : TLScontext_t)
    (w : World) :
  exists (TLScontext' : TLScontext_t) (evs : list event),
    @verify_extract_peer R env peername peercert TLScontext w
    = (Normal TLScontext', mkWorld (globals w) (trace w ++ evs))
    /\ let verify_peername :=
         negb (enforce_CN TLScontext =? 0)
         && is_X509_V_OK (SSL_get_verify_result env (con TLScontext)) in
       let names :=
         match X509_get_ext_d2i_subject_alt_name env peercert with
         | Some gens => dNSNames gens
         | None => []
         end in
       let CN :=
         match tls_peer_CN env peercert with Some s => s | None => "" end in
       hostname_matched TLScontext'
       = (if verify_peername
          then match names with
               | _ :: _ =>
                   c_bool (existsb (fun n => truthy (match_hostname n peername))
                             names)
               | [] =>
                   if Ascii.eqb (char_at CN 0) NUL then 0
                   else match_hostname CN peername
               end
          else 0)
       /\ filter is_match_hostname evs
          = (if verify_peername
             then match names with
                  | _ :: _ =>
                      dNS_match_events peername
                        (tested_until_match peername names)
                  | [] =>
                      if Ascii.eqb (char_at CN 0) NUL then []
                      else [E_match_hostname at_CommonName CN peername]
                  end
             else []).
Proof.
  unfold verify_extract_peer, bind, emit, when, ret.
  cbn [enforce_CN peer_verified set_peer_verified].
  destruct (enforce_CN TLScontext =? 0);
    destruct (is_X509_V_OK (SSL_get_verify_result env (con TLScontext)));
    cbn [negb andb c_bool truthy Z.eqb];
    try (cbn [globals trace]; split_tests; close_run; cbn; now auto).
  destruct (X509_get_ext_d2i_subject_alt_name env peercert) as [gens|].
  - rewrite dNSName_loop_run.
    destruct (dNSNames gens) as [|n l].
    + cbn [globals trace]. split_tests; close_run; cbn; now auto.
    + rewrite !tested_until_match_found, !truthy_c_bool.
      cbn [globals trace negb andb].
      destruct (existsb (fun n0 => truthy (match_hostname n0 peername))
                  (n :: l));
        split_tests; close_run;
        rewrite ?filter_app, ?filter_match_dNS_match_events;
        cbn; rewrite ?app_nil_r; now auto.
  - cbn [globals trace]. split_tests; close_run; cbn; now auto.
Qed.

(** ** The session cache helpers *)

(** C9, as the code has it.  [uncache_session] does nothing when the key
    is absent (a null [serverid]).  For every key that is present, the
    empty string included, it sends one delete request to tlsmgr(8),
    preceded by a log line at verbosity 3 and above. *)
Theorem uncache_session_request (env : Env) (TLScontext : TLScontext_t)
    (w : World) :
  run (uncache_session env TLScontext) w
  = (tt,
     match serverid TLScontext with
     | None => w
     | Some id =>
         mkWorld (globals w)
           (trace w
            ++ (if 3 <=? var_smtp_tls_loglevel env
                then [E_msg_info (Msg_remove_session id)]
                else [])
            ++ [E_tls_mgr_delete (tls_client_cache (globals w)) id])
     end).
Proof.
  unfold uncache_session, run.
  destruct (serverid TLScontext) as [id|]; [|reflexivity].
  unfold bind, when, emit, get_globals, ret.
  destruct (3 <=? var_smtp_tls_loglevel env); cbn;
    rewrite <- ?app_assoc; reflexivity.
Qed.

(** Against C9 in the wording of the specification: with an empty,
    non-null key the delete request is still sent. *)
Lemma uncache_session_empty_key_requests :
  serverid (set_serverid (Some "") (tls_alloc_context 0 "mail")) = Some ""
  /\ trace (snd (run (uncache_session env_wrong_alt_name
                        (set_serverid (Some "") (tls_alloc_context 0 "mail")))
                   (sample_world 2)))
     = [E_tls_mgr_delete 2 ""].
Proof. split; reflexivity. Qed.

(** ** Initialisation *)

(** C6. When seeding from the external entropy source fails, that is
    when [tls_ext_seed] answers with the negative status the code tests
    for, [tls_client_init] warns and returns a null engine handle.  It
    does so before [SSL_CTX_new] or any later step is reached, and it
    leaves the process-wide variables as they were. *)
Theorem init_without_entropy_fails (env : Env) (unused_verifydepth : Z)
    (w : World) :
  tls_ext_seed env (var_tls_daemon_rand_bytes env) < 0 ->
  exists evs : list event,
    run (tls_client_init env unused_verifydepth) w
    = (None, mkWorld (globals w) (trace w ++ evs))
    /\ filter is_SSL_CTX_new evs = []
    /\ evs
       = (if 2 <=? var_smtp_tls_loglevel env
          then [E_msg_info Msg_initializing_engine]
          else [])
         ++ [E_tls_check_version; E_SSL_load_error_strings;
             E_OpenSSL_add_ssl_algorithms;
             E_tls_ext_seed (var_tls_daemon_rand_bytes env);
             E_msg_warn Msg_no_entropy].
Proof.
  intros H. apply Z.ltb_lt in H.
  unfold tls_client_init, run, bind, when, emit, ret, c_return.
  rewrite H.
  destruct (2 <=? var_smtp_tls_loglevel env); cbn;
    (eexists; split; [rewrite <- ?app_assoc; reflexivity|]);
    split; reflexivity.
Qed.

Lemma init_without_entropy_fails_witness :
  exists evs : list event,
    run (tls_client_init env_no_entropy 5) (sample_world 0)
    = (None, mkWorld (globals (sample_world 0))
               (trace (sample_world 0) ++ evs))
    /\ filter is_SSL_CTX_new evs = []
    /\ evs
       = (if 2 <=? var_smtp_tls_loglevel env_no_entropy
          then [E_msg_info Msg_initializing_engine]
          else [])
         ++ [E_tls_check_version; E_SSL_load_error_strings;
             E_OpenSSL_add_ssl_algorithms;
             E_tls_ext_seed (var_tls_daemon_rand_bytes env_no_entropy);
             E_msg_warn Msg_no_entropy].
Proof.
  apply (init_without_entropy_fails env_no_entropy 5 (sample_world 0)).
  cbn. lia.
Defined.

Example init_with_entropy_succeeds :
  fst (run (tls_client_init env_wrong_alt_name 5) (sample_world 0))
  = Some sample_client_ctx
  /\ globals (snd (run (tls_client_init env_wrong_alt_name 5)
                     (mkWorld (mkGlobals 0 (-1)) [])))
     = mkGlobals 2 0.
Proof. split; reflexivity. Qed.

(** ** The stages of [tls_client_start] *)

(** What allocation leaves in the connection state. *)
Lemma allocate_fields (env : Env) (client_ctx : SSL_CTX)
    (enforce_peername : Z) (peername serverid : string) (w w' : World)
    (c : TLScontext_t) :
  tls_client_start_allocate env client_ctx enforce_peername peername
    serverid w = (Normal c, w') ->
  Ctx.serverid c = Some serverid
  /\ enforce_CN c = c_bool (truthy enforce_peername)
  /\ hostname_matched c = 0.
Proof.
  unfold tls_client_start_allocate, bind, when, emit, ret, c_return.
  split_tests; intros H; try discriminate H.
  all: injection H as <- _; cbn; auto.
Qed.

(** Priming touches the engine session only. *)
Lemma prime_fields (env : Env) (serverid : string)
    (w w' : World) (c c' : TLScontext_t) :
  tls_client_start_prime env serverid c w = (Normal c', w') ->
  Ctx.serverid c' = Ctx.serverid c
  /\ enforce_CN c' = enforce_CN c
  /\ hostname_matched c' = hostname_matched c.
Proof.
  unfold tls_client_start_prime, load_clnt_session, call, run, bind, when,
    emit, ret, c_return, get_globals.
  split_tests; intros H; try discriminate H;
    injection H as <- _; cbn; auto.
Qed.

(** A handshake that completes has a positive status, and nothing was
    deleted from the cache on the way. *)
Lemma handshake_completed (env : Env) (stream : VSTREAM) (timeout : Z)
    (peername : string) (c : TLScontext_t) (w w' : World) (u : unit) :
  tls_client_start_handshake env stream timeout peername c w
  = (Normal u, w') ->
  0 < tls_bio_connect env (vstream_fileno stream) timeout c
  /\ globals w' = globals w
  /\ exists evs : list event,
       trace w' = trace w ++ evs /\ filter is_tls_mgr_delete evs = [].
Proof.
  unfold tls_client_start_handshake, uncache_session, call, run, bind, when,
    emit, ret, c_return, get_globals.
  destruct (tls_bio_connect env (vstream_fileno stream) timeout c <=? 0)
    eqn:S.
  - split_tests; discriminate.
  - apply Z.leb_gt in S.
    split_tests; intros H; injection H as _ <-; cbn [globals trace];
      (repeat split; [lia|]);
      (eexists; split; [rewrite <- ?app_assoc; reflexivity | reflexivity]).
Qed.

Lemma connect_completed (env : Env) (client_ctx : SSL_CTX)
    (stream : VSTREAM) (timeout enforce_peername : Z)
    (peername serverid : string) (w w' : World) (c : TLScontext_t) :
  tls_client_start_connect env client_ctx stream timeout enforce_peername
    peername serverid w = (Normal c, w') ->
  Ctx.serverid c = Some serverid
  /\ enforce_CN c = c_bool (truthy enforce_peername)
  /\ hostname_matched c = 0
  /\ globals w' = globals w
  /\ exists evs : list event,
       trace w' = trace w ++ evs /\ filter is_tls_mgr_delete evs = [].
Proof.
  unfold tls_client_start_connect, bind.
  pose proof (allocate_no_delete env client_ctx enforce_peername peername
                serverid w) as (G1 & e1 & T1 & F1).
  destruct (tls_client_start_allocate env client_ctx enforce_peername
              peername serverid w) as [[c1 | r] w1] eqn:A; [|discriminate].
  cbn [snd] in G1, T1.
  pose proof (prime_no_delete env serverid c1 w1) as (G2 & e2 & T2 & F2).
  destruct (tls_client_start_prime env serverid c1 w1) as [[c2 | r] w2]
    eqn:P; [|discriminate].
  cbn [snd] in G2, T2.
  destruct (tls_client_start_handshake env stream timeout peername c2 w2)
    as [[u | r] w3] eqn:H; [|discriminate].
  intros [= <- <-].
  destruct (allocate_fields _ _ _ _ _ _ _ _ A) as (S1 & E1 & M1).
  destruct (prime_fields _ _ _ _ _ _ P) as (S2 & E2 & M2).
  destruct (handshake_completed _ _ _ _ _ _ _ _ H) as (_ & G3 & e3 & T3 & F3).
  repeat split; try congruence.
  exists (e1 ++ e2 ++ e3).
  rewrite T3, T2, T1, <- !app_assoc, !filter_app, F1, F2, F3. auto.
Qed.

(** ** The verdict under enforcement *)

(** The last stage when enforcement is on and no name matched. *)
Lemma finish_on_mismatch (env : Env) (client_ctx : SSL_CTX)
    (stream : VSTREAM) (timeout enforce_peername : Z) (peername : string)
    (c : TLScontext_t) (w : World) :
  truthy enforce_peername = true ->
  hostname_matched c = 0 ->
  tls_client_start_finish env client_ctx stream timeout enforce_peername
    peername c w
  = (Returned None,
     mkWorld (globals w)
       (trace w
        ++ [E_msg_info (Msg_hostname_mismatch peername);
            E_tls_client_stop timeout 0;
            E_SSL_shutdown;
            E_tls_free_context;
            E_tls_stream_stop])).
Proof.
  intros E M.
  unfold tls_client_start_finish, tls_client_stop, bind, when, emit, ret,
    c_return.
  rewrite E, M. cbn. rewrite <- !app_assoc. reflexivity.
Qed.

(** C3, as the code has it.  With enforcement on, when the handshake
    completes and the verifier leaves [hostname_matched] false,
    [tls_client_start] logs the mismatch, calls the teardown with the
    failure flag clear, and returns a null connection state.  With the
    flag clear the teardown is the clean one: the close notification is
    attempted before the connection state is released. *)
Theorem hostname_mismatch_fails_with_clean_teardown (env : Env)
    (client_ctx : SSL_CTX) (stream : VSTREAM) (timeout enforce_peername : Z)
    (peername serverid : string) (w w1 w2 : World) (c c' : TLScontext_t) :
  truthy enforce_peername = true ->
  tls_client_start_connect env client_ctx stream timeout enforce_peername
    peername serverid w = (Normal c, w1) ->
  tls_client_start_verify env peername c w1 = (Normal c', w2) ->
  hostname_matched c' = 0 ->
  run (tls_client_start env client_ctx stream timeout enforce_peername
         peername serverid) w
  = (None,
     mkWorld (globals w2)
       (trace w2
        ++ [E_msg_info (Msg_hostname_mismatch peername);
            E_tls_client_stop timeout 0;
            E_SSL_shutdown;
            E_tls_free_context;
            E_tls_stream_stop])).
Proof.
  intros E C V M.
  unfold tls_client_start, run, bind.
  rewrite C, V, (finish_on_mismatch _ _ _ _ _ _ _ _ E M).
  reflexivity.
Qed.

Lemma hostname_mismatch_fails_with_clean_teardown_witness :
  exists w2 : World,
    run (tls_client_start env_wrong_alt_name sample_client_ctx
           sample_stream 300 1 "mail.example.com" "smtp:mail.example.com")
      (sample_world 0)
    = (None,
       mkWorld (globals w2)
         (trace w2
          ++ [E_msg_info (Msg_hostname_mismatch "mail.example.com");
              E_tls_client_stop 300 0;
              E_SSL_shutdown;
              E_tls_free_context;
              E_tls_stream_stop])).
Proof.
  eexists.
  eapply (hostname_mismatch_fails_with_clean_teardown env_wrong_alt_name
            sample_client_ctx sample_stream 300 1 "mail.example.com"
            "smtp:mail.example.com" (sample_world 0));
    vm_compute; reflexivity.
Defined.

(** Against C3 in the wording of the specification: on a mismatch under
    enforcement the close notification is sent. *)
Lemma hostname_mismatch_sends_close_notify :
  exists (c c' : TLScontext_t) (w1 w2 : World),
    truthy 1 = true
    /\ tls_client_start_connect env_wrong_alt_name sample_client_ctx
         sample_stream 300 1 "mail.example.com" "smtp:mail.example.com"
         (sample_world 0) = (Normal c, w1)
    /\ tls_client_start_verify env_wrong_alt_name "mail.example.com" c w1
       = (Normal c', w2)
    /\ hostname_matched c' = 0
    /\ fst (run (tls_client_start env_wrong_alt_name sample_client_ctx
                   sample_stream 300 1 "mail.example.com"
                   "smtp:mail.example.com") (sample_world 0)) = None
    /\ In E_SSL_shutdown
         (trace (snd (run (tls_client_start env_wrong_alt_name
                             sample_client_ctx sample_stream 300 1
                             "mail.example.com" "smtp:mail.example.com")
                        (sample_world 0)))).
Proof.
  do 4 eexists.
  split; [reflexivity|].
  split; [vm_compute; reflexivity|].
  split; [vm_compute; reflexivity|].
  split; [reflexivity|].
  split; [reflexivity|].
  vm_compute. tauto.
Qed.

(** C4, as the code has it.  When a connection fails under enforced
    hostname verification (the handshake completed, the verifier left
    [hostname_matched] false), [tls_client_start] returns failure without
    asking the session cache to delete anything: none of the calls it
    made from entry to return is a delete request. *)
Theorem hostname_mismatch_deletes_nothing (env : Env) (client_ctx : SSL_CTX)
    (stream : VSTREAM) (timeout enforce_peername : Z)
    (peername serverid : string) (w w1 w2 : World) (c c' : TLScontext_t) :
  truthy enforce_peername = true ->
  tls_client_start_connect env client_ctx stream timeout enforce_peername
    peername serverid w = (Normal c, w1) ->
  tls_client_start_verify env peername c w1 = (Normal c', w2) ->
  hostname_matched c' = 0 ->
  exists evs : list event,
    run (tls_client_start env client_ctx stream timeout enforce_peername
           peername serverid) w
    = (None, mkWorld (globals w) (trace w ++ evs))
    /\ List.length (filter is_tls_mgr_delete evs) = 0%nat.
Proof.
  intros E C V M.
  unfold tls_client_start, run, bind.
  rewrite C, V, (finish_on_mismatch _ _ _ _ _ _ _ _ E M).
  destruct (connect_completed _ _ _ _ _ _ _ _ _ _ C)
    as (_ & _ & _ & G1 & e1 & T1 & F1).
  destruct (verify_no_delete env peername c w1) as (G2 & e2 & T2 & F2).
  rewrite V in G2, T2. cbn [snd] in G2, T2.
  eexists. split.
  - rewrite T2, T1, G2, G1, <- !app_assoc. reflexivity.
  - rewrite !filter_app, F1, F2. reflexivity.
Qed.

Lemma hostname_mismatch_deletes_nothing_witness :
  exists evs : list event,
    run (tls_client_start env_wrong_alt_name_cached sample_client_ctx
           sample_stream 300 1 "mail.example.com" "smtp:mail.example.com")
      (sample_world 2)
    = (None, mkWorld (globals (sample_world 2))
               (trace (sample_world 2) ++ evs))
    /\ List.length (filter is_tls_mgr_delete evs) = 0%nat.
Proof.
  eapply (hostname_mismatch_deletes_nothing env_wrong_alt_name_cached
            sample_client_ctx sample_stream 300 1 "mail.example.com"
            "smtp:mail.example.com" (sample_world 2));
    vm_compute; reflexivity.
Defined.

(** Against C4 in the wording of the specification: a session loaded
    from the cache is reused, the hostname check fails under enforcement,
    and the number of delete requests is zero, not one. *)
Lemma hostname_mismatch_leaves_cache_entry :
  exists (c c' : TLScontext_t) (w1 w2 : World),
    truthy 1 = true
    /\ tls_client_start_connect env_wrong_alt_name_cached sample_client_ctx
         sample_stream 300 1 "mail.example.com" "smtp:mail.example.com"
         (sample_world 2) = (Normal c, w1)
    /\ tls_client_start_verify env_wrong_alt_name_cached "mail.example.com"
         c w1 = (Normal c', w2)
    /\ hostname_matched c' = 0
    /\ session_reused c' = 1
    /\ fst (run (tls_client_start env_wrong_alt_name_cached
                   sample_client_ctx sample_stream 300 1 "mail.example.com"
                   "smtp:mail.example.com") (sample_world 2)) = None
    /\ List.length
         (filter is_tls_mgr_delete
            (trace (snd (run (tls_client_start env_wrong_alt_name_cached
                                sample_client_ctx sample_stream 300 1
                                "mail.example.com" "smtp:mail.example.com")
                           (sample_world 2)))))
       <> 1%nat.
Proof.
  do 4 eexists.
  split; [reflexivity|].
  split; [vm_compute; reflexivity|].
  split; [vm_compute; reflexivity|].
  split; [reflexivity|].
  split; [reflexivity|].
  split; [reflexivity|].
  vm_compute. discriminate.
Qed.

(** ** A failed handshake *)

(** C10. When the handshake itself fails ([tls_bio_connect] answers with
    a status that is not positive), [tls_client_start] asks the cache to
    delete the entry under the connection's [serverid], releases the
    connection state and returns a null one.  It does so whatever the
    value of [tls_client_cache] and whether or not a session had been
    loaded: the delete request and the release are the last two calls,
    and it is the only delete request of the run. *)
Theorem handshake_failure_uncaches (env : Env) (client_ctx : SSL_CTX)
    (stream : VSTREAM) (timeout enforce_peername : Z)
    (peername serverid : string) (w w1 w2 : World) (c1 c : TLScontext_t) :
  tls_client_start_allocate env client_ctx enforce_peername peername
    serverid w = (Normal c1, w1) ->
  tls_client_start_prime env serverid c1 w1 = (Normal c, w2) ->
  tls_bio_connect env (vstream_fileno stream) timeout c <= 0 ->
  exists evs : list event,
    run (tls_client_start env client_ctx stream timeout enforce_peername
           peername serverid) w
    = (None,
       mkWorld (globals w)
         (trace w ++ evs
          ++ [E_tls_mgr_delete (tls_client_cache (globals w)) serverid;
              E_tls_free_context]))
    /\ filter is_tls_mgr_delete evs = [].
Proof.
  intros A P S. apply Z.leb_le in S.
  destruct (allocate_fields _ _ _ _ _ _ _ _ A) as (S1 & _).
  destruct (prime_fields _ _ _ _ _ _ P) as (S2 & _).
  destruct (allocate_no_delete env client_ctx enforce_peername peername
              serverid w) as (G1 & e1 & T1 & F1).
  rewrite A in G1, T1. cbn [snd] in G1, T1.
  destruct (prime_no_delete env serverid c1 w1) as (G2 & e2 & T2 & F2).
  rewrite P in G2, T2. cbn [snd] in G2, T2.
  unfold tls_client_start, tls_client_start_connect, run, bind.
  rewrite A, P.
  unfold tls_client_start_handshake, uncache_session, call, run, bind, when,
    emit, ret, c_return, get_globals.
  rewrite S, S2, S1.
  destruct (3 <=? var_smtp_tls_loglevel env);
    cbn [globals trace fst snd];
    rewrite T2, T1, G2, G1.
  - exists (e1 ++ e2
            ++ [E_tls_int_seed;
                E_tls_ext_seed (var_tls_daemon_rand_bytes env);
                E_SSL_set_connect_state; E_SSL_set_bio;
                E_BIO_set_callback true;
                E_tls_bio_connect (vstream_fileno stream) timeout;
                E_msg_info
                  (Msg_SSL_connect_error peername
                     (tls_bio_connect env (vstream_fileno stream) timeout c));
                E_tls_print_errors;
                E_msg_info (Msg_remove_session serverid)]).
    split; [rewrite <- !app_assoc; reflexivity|].
    rewrite !filter_app, F1, F2. reflexivity.
  - exists (e1 ++ e2
            ++ [E_tls_int_seed;
                E_tls_ext_seed (var_tls_daemon_rand_bytes env);
                E_SSL_set_connect_state; E_SSL_set_bio;
                E_tls_bio_connect (vstream_fileno stream) timeout;
                E_msg_info
                  (Msg_SSL_connect_error peername
                     (tls_bio_connect env (vstream_fileno stream) timeout c));
                E_tls_print_errors]).
    split; [rewrite <- !app_assoc; reflexivity|].
    rewrite !filter_app, F1, F2. reflexivity.
Qed.

Lemma handshake_failure_uncaches_witness :
  exists evs : list event,
    run (tls_client_start env_handshake_timeout sample_client_ctx
           sample_stream 300 0 "mail.example.com" "smtp:mail.example.com")
      (sample_world 0)
    = (None,
       mkWorld (globals (sample_world 0))
         (trace (sample_world 0) ++ evs
          ++ [E_tls_mgr_delete (tls_client_cache (globals (sample_world 0)))
                "smtp:mail.example.com";
              E_tls_free_context]))
    /\ filter is_tls_mgr_delete evs = [].
Proof.
  eapply (handshake_failure_uncaches env_handshake_timeout sample_client_ctx
            sample_stream 300 0 "mail.example.com" "smtp:mail.example.com"
            (sample_world 0));
    [vm_compute; reflexivity | vm_compute; reflexivity | ].
  cbn. lia.
Defined.

(** ** Opportunistic mode *)

(** C8. With enforcement off, when the handshake completes and the
    engine's trust-chain verification of the presented certificate did
    not succeed, [tls_client_start] still returns the connection state.
    In it [peer_verified] and [hostname_matched] are false.  After the
    handshake the alternative names are never fetched and
    [match_hostname] is never called, and at verbosity 1 and above the
    "Unverified" line is logged with the two extracted names. *)
Theorem untrusted_peer_is_accepted_unverified (env : Env)
    (client_ctx : SSL_CTX) (stream : VSTREAM) (timeout enforce_peername : Z)
    (peername serverid : string) (w w1 : World) (c : TLScontext_t)
    (peercert : X509) :
  truthy enforce_peername = false ->
  tls_client_start_connect env client_ctx stream timeout enforce_peername
    peername serverid w = (Normal c, w1) ->
  SSL_get_peer_certificate env (con c) = Some peercert ->
  is_X509_V_OK (SSL_get_verify_result env (con c)) = false ->
  exists (TLScontext : TLScontext_t) (evs : list event),
    run (tls_client_start env client_ctx stream timeout enforce_peername
           peername serverid) w
    = (Some TLScontext, mkWorld (globals w1) (trace w1 ++ evs))
    /\ peer_verified TLScontext = 0
    /\ hostname_matched TLScontext = 0
    /\ filter is_X509_get_ext_d2i evs = []
    /\ filter is_match_hostname evs = []
    /\ (if 1 <=? var_smtp_tls_loglevel env
        then In (E_msg_info
                   (Msg_Unverified
                      match tls_peer_CN env peercert with
                      | Some s => s
                      | None => ""
                      end
                      match tls_issuer_CN env peercert with
                      | Some s => s
                      | None => ""
                      end)) evs
        else True).
Proof.
  intros E C PC VR.
  destruct (connect_completed _ _ _ _ _ _ _ _ _ _ C) as (_ & EC & HM & _).
  rewrite E in EC. cbn in EC.
  unfold tls_client_start, run, bind at 1. rewrite C.
  unfold tls_client_start_verify, tls_client_start_finish,
    verify_extract_peer, bind, when, emit, ret, c_return.
  cbn [con set_session_reused enforce_CN peer_verified hostname_matched
       set_peer_verified set_peer_CN set_issuer_CN set_hostname_matched].
  rewrite PC, VR, EC, E.
  cbn [c_bool Z.eqb negb andb orb truthy].
  split_tests; close_run; cbn; repeat split; auto; tauto.
Qed.

Lemma untrusted_peer_is_accepted_unverified_witness :
  exists (TLScontext : TLScontext_t) (evs : list event),
    fst (run (tls_client_start env_untrusted sample_client_ctx sample_stream
                300 0 "mail.example.com" "smtp:mail.example.com")
           (sample_world 0))
    = Some TLScontext
    /\ peer_verified TLScontext = 0
    /\ hostname_matched TLScontext = 0
    /\ filter is_X509_get_ext_d2i evs = []
    /\ filter is_match_hostname evs = []
    /\ In (E_msg_info (Msg_Unverified "mail.example.com" "Example CA")) evs.
Proof.
  destruct (untrusted_peer_is_accepted_unverified env_untrusted
              sample_client_ctx sample_stream 300 0 "mail.example.com"
              "smtp:mail.example.com" (sample_world 0)
              _ _ sample_cert eq_refl eq_refl eq_refl eq_refl)
    as (TLScontext & evs & R & PV & HM & F1 & F2 & L).
  exists TLScontext, evs.
  rewrite R. repeat split; assumption.
Defined.

(** ** The cache is an optimisation *)

(** A lookup that fails in any way yields no session. *)
Lemma load_clnt_session_absent (env : Env) (cache_id : string) (w : World) :
  fst (tls_mgr_lookup env (tls_client_cache (globals w)) cache_id)
  = TLS_MGR_STAT_not_OK
  \/ tls_session_activate env
       (snd (tls_mgr_lookup env (tls_client_cache (globals w)) cache_id))
     = None ->
  fst (run (load_clnt_session env cache_id) w) = None.
Proof.
  unfold load_clnt_session, run, bind, when, emit, ret, c_return, get_globals.
  intros H.
  destruct (3 <=? var_smtp_tls_loglevel env); cbn [globals trace];
    destruct (tls_mgr_lookup env (tls_client_cache (globals w)) cache_id)
      as [[|] blob]; cbn [fst snd] in H; try reflexivity;
    destruct H as [H | H]; try discriminate H; rewrite H; reflexivity.
Qed.

(** Then priming leaves the connection state as it was and hands no
    session to the engine. *)
Lemma prime_absent_run (env : Env) (serverid : string) (c : TLScontext_t)
    (w : World) :
  fst (tls_mgr_lookup env (tls_client_cache (globals w)) serverid)
  = TLS_MGR_STAT_not_OK
  \/ tls_session_activate env
       (snd (tls_mgr_lookup env (tls_client_cache (globals w)) serverid))
     = None ->
  exists evs : list event,
    tls_client_start_prime env serverid c w
    = (Normal c, mkWorld (globals w) (trace w ++ evs))
    /\ filter is_SSL_set_session evs = [].
Proof.
  intros H.
  unfold tls_client_start_prime, load_clnt_session, call, run, bind, when,
    emit, ret, c_return, get_globals.
  destruct (truthy (tls_client_cache (globals w)));
    [|exists []; rewrite app_nil_r; destruct w; split; reflexivity].
  destruct (3 <=? var_smtp_tls_loglevel env); cbn [globals trace];
    destruct (tls_mgr_lookup env (tls_client_cache (globals w)) serverid)
      as [[|] blob]; cbn [fst snd] in H;
    try (destruct H as [H | H]; [discriminate H | rewrite H]);
    cbn [globals trace];
    (eexists; split; [rewrite <- ?app_assoc; reflexivity | reflexivity]).
Qed.

Lemma prime_absent (env : Env) (serverid : string) (c : TLScontext_t)
    (w : World) :
  fst (tls_mgr_lookup env (tls_client_cache (globals w)) serverid)
  = TLS_MGR_STAT_not_OK
  \/ tls_session_activate env
       (snd (tls_mgr_lookup env (tls_client_cache (globals w)) serverid))
     = None ->
  fst (tls_client_start_prime env serverid c w) = Normal c.
Proof.
  intros H. destruct (prime_absent_run env serverid c w H) as (evs & E & _).
  now rewrite E.
Qed.

Lemma prime_without_cache (env : Env) (serverid : string) (c : TLScontext_t)
    (w : World) :
  tls_client_cache (globals w) = 0 ->
  fst (tls_client_start_prime env serverid c w) = Normal c.
Proof.
  intros H. unfold tls_client_start_prime, bind, get_globals.
  rewrite H. reflexivity.
Qed.

(** Two runs that agree on how they leave continue alike through a
    continuation whose outcome does not depend on the world. *)
Lemma bind_agree {R A B : Type} (m1 m2 : Fn R A) (k : A -> Fn R B)
    (w1 w2 : World) :
  fst (m1 w1) = fst (m2 w2) ->
  (forall a, value_stable (k a)) ->
  fst (bind m1 k w1) = fst (bind m2 k w2).
Proof.
  intros H K. unfold bind.
  destruct (m1 w1) as [[a1 | r1] w1'], (m2 w2) as [[a2 | r2] w2'];
    cbn [fst] in H; try discriminate H; injection H as ->.
  - apply K.
  - reflexivity.
Qed.

Lemma bind_agree_from {R A B : Type} (m : Fn R A) (k : A -> Fn R B)
    (w1 w2 : World) :
  fst (m w1) = fst (m w2) ->
  (forall a w1' w2',
      m w1 = (Normal a, w1') -> m w2 = (Normal a, w2') ->
      fst (k a w1') = fst (k a w2')) ->
  fst (bind m k w1) = fst (bind m k w2).
Proof.
  intros H K. unfold bind.
  destruct (m w1) as [[a1 | r1] w1'], (m w2) as [[a2 | r2] w2'];
    cbn [fst] in H; try discriminate H; injection H as ->.
  - now apply K.
  - reflexivity.
Qed.

Lemma run_agree {R : Type} (m1 m2 : Fn R R) (w1 w2 : World) :
  fst (m1 w1) = fst (m2 w2) -> fst (run m1 w1) = fst (run m2 w2).
Proof.
  unfold run. intros H.
  destruct (m1 w1) as [[a1 | r1] w1'], (m2 w2) as [[a2 | r2] w2'];
    cbn [fst] in *; congruence.
Qed.

(** *** Following a run through its stages *)

Lemma run_bind_bind {R A B : Type} (m : Fn R A) (k1 : A -> Fn R B)
    (k2 : B -> Fn R R) (w : World) :
  run (bind (bind m k1) k2) w = run (bind m (fun a => bind (k1 a) k2)) w.
Proof. unfold run, bind. destruct (m w) as [[a | r] w']; reflexivity. Qed.

Lemma run_bind_normal {R A : Type} (m : Fn R A) (k : A -> Fn R R)
    (w w' : World) (a : A) :
  m w = (Normal a, w') -> run (bind m k) w = run (k a) w'.
Proof. unfold run, bind. now intros ->. Qed.

Lemma run_bind_returned {R A : Type} (m : Fn R A) (k : A -> Fn R R)
    (w w' : World) (r : R) :
  m w = (Returned r, w') -> run (bind m k) w = (r, w').
Proof. unfold run, bind. now intros ->. Qed.

Lemma avoids_run {R : Type} (p : event -> bool) (body : Fn R R) :
  avoids p body ->
  forall w : World,
    exists evs : list event,
      trace (snd (run body w)) = trace w ++ evs /\ filter p evs = [].
Proof.
  intros H w. unfold run. destruct (H w) as (_ & T).
  destruct (body w) as [[a | r] w']; exact T.
Qed.

(** Only priming hands a session to the engine. *)
Lemma allocate_sets_no_session (env : Env) (client_ctx : SSL_CTX)
    (enforce_peername : Z) (peername serverid : string) :
  avoids is_SSL_set_session
    (tls_client_start_allocate env client_ctx enforce_peername peername
       serverid).
Proof. unfold tls_client_start_allocate. fn_rules. Qed.

Lemma handshake_sets_no_session (env : Env) (stream : VSTREAM) (timeout : Z)
    (peername : string) (TLScontext : TLScontext_t) :
  avoids is_SSL_set_session
    (tls_client_start_handshake env stream timeout peername TLScontext).
Proof.
  unfold tls_client_start_handshake. fn_rules.
  apply avoids_call. unfold uncache_session. fn_rules.
Qed.

Lemma after_handshake_sets_no_session (env : Env) (client_ctx : SSL_CTX)
    (stream : VSTREAM) (timeout enforce_peername : Z) (peername : string)
    (TLScontext : TLScontext_t) :
  avoids is_SSL_set_session
    (TLScontext <- tls_client_start_verify env peername TLScontext ;;
     tls_client_start_finish env client_ctx stream timeout enforce_peername
       peername TLScontext).
Proof.
  apply avoids_bind.
  - unfold tls_client_start_verify. fn_rules.
    unfold verify_extract_peer. fn_rules.
    now apply avoids_dNSName_loop.
  - intros c. unfold tls_client_start_finish, tls_client_stop. fn_rules.
Qed.

(** Allocation falls through unless one of its three steps fails. *)
Lemma allocate_succeeds (env : Env) (client_ctx : SSL_CTX)
    (enforce_peername : Z) (peername serverid : string) (w : World) :
  allocation_fails env client_ctx = false ->
  exists (c : TLScontext_t) (evs : list event),
    tls_client_start_allocate env client_ctx enforce_peername peername
      serverid w
    = (Normal c, mkWorld (globals w) (trace w ++ evs))
    /\ filter is_SSL_set_session evs = []
    /\ filter is_tls_bio_connect evs = [].
Proof.
  unfold tls_client_start_allocate, allocation_fails, bind, when, emit, ret,
    c_return.
  split_tests; intros H; try discriminate H;
    (do 2 eexists; split;
     [rewrite <- ?app_assoc; reflexivity | split; reflexivity]).
Qed.

(** The handshake stage starts the handshake, whatever comes of it. *)
Lemma handshake_attempted (env : Env) (stream : VSTREAM) (timeout : Z)
    (peername : string) (c : TLScontext_t) (w : World) :
  exists (f : Flow (option TLScontext_t) unit) (pre post : list event),
    tls_client_start_handshake env stream timeout peername c w
    = (f, mkWorld (globals w)
            (trace w ++ pre
             ++ E_tls_bio_connect (vstream_fileno stream) timeout :: post))
    /\ filter is_SSL_set_session pre = []
    /\ filter is_tls_bio_connect pre = []
    /\ filter is_SSL_set_session post = [].
Proof.
  destruct w as [g tr].
  unfold tls_client_start_handshake, uncache_session, call, run, bind, when,
    emit, ret, c_return, get_globals.
  exists (if tls_bio_connect env (vstream_fileno stream) timeout c <=? 0
          then Returned None else Normal tt).
  exists ([E_tls_int_seed; E_tls_ext_seed (var_tls_daemon_rand_bytes env);
           E_SSL_set_connect_state; E_SSL_set_bio]
          ++ (if 3 <=? var_smtp_tls_loglevel env
              then [E_BIO_set_callback true] else [])).
  split_tests;
    (eexists; split;
     [ rewrite <- ?app_assoc; cbn [app]; reflexivity
     | split; [|split]; reflexivity ]).
Qed.

(** Priming after a failed lookup: no session for the engine, and no
    handshake yet. *)
Lemma prime_absent_quiet (env : Env) (serverid : string) (c : TLScontext_t)
    (w : World) :
  fst (tls_mgr_lookup env (tls_client_cache (globals w)) serverid)
  = TLS_MGR_STAT_not_OK
  \/ tls_session_activate env
       (snd (tls_mgr_lookup env (tls_client_cache (globals w)) serverid))
     = None ->
  exists evs : list event,
    tls_client_start_prime env serverid c w
    = (Normal c, mkWorld (globals w) (trace w ++ evs))
    /\ filter is_SSL_set_session evs = []
    /\ filter is_tls_bio_connect evs = [].
Proof.
  intros H.
  destruct (prime_absent_run env serverid c w H) as (evs & E & S).
  exists evs. split; [exact E|]. split; [exact S|].
  assert (A : avoids is_tls_bio_connect
                (tls_client_start_prime env serverid c)).
  { unfold tls_client_start_prime. fn_rules.
    apply avoids_call. unfold load_clnt_session. fn_rules. }
  destruct (A w) as (_ & evs' & T & B).
  rewrite E in T. cbn [snd trace] in T.
  apply app_inv_head in T. now subst evs'.
Qed.

(** C7. Whichever way the lookup fails (the status of tlsmgr(8) is not
    OK: a miss or an unreachable service; or the blob cannot be
    activated), [load_clnt_session] yields no session, priming leaves the
    connection state untouched and never calls [SSL_set_session], and
    [tls_client_start] ends exactly as it does when client-side caching
    is off.  The connection is not aborted on the way: unless one of the
    allocation steps fails, which happens before the cache is consulted,
    the run goes on to [tls_bio_connect], and no session has been handed
    to the engine when the handshake starts nor is one handed over
    later. *)
Theorem cache_failure_means_fresh_handshake (env : Env)
    (client_ctx : SSL_CTX) (stream : VSTREAM) (timeout enforce_peername : Z)
    (peername serverid : string) (w : World) :
  fst (tls_mgr_lookup env (tls_client_cache (globals w)) serverid)
  = TLS_MGR_STAT_not_OK
  \/ tls_session_activate env
       (snd (tls_mgr_lookup env (tls_client_cache (globals w)) serverid))
     = None ->
  fst (run (load_clnt_session env serverid) w) = None
  /\ (forall (c : TLScontext_t) (tr : list event),
        exists evs : list event,
          tls_client_start_prime env serverid c (mkWorld (globals w) tr)
          = (Normal c, mkWorld (globals w) (tr ++ evs))
          /\ filter is_SSL_set_session evs = [])
  /\ fst (run (tls_client_start env client_ctx stream timeout
                 enforce_peername peername serverid) w)
     = fst (run (tls_client_start env client_ctx stream timeout
                   enforce_peername peername serverid)
              (mkWorld (mkGlobals 0 (TLScontext_index (globals w)))
                 (trace w)))
  /\ (allocation_fails env client_ctx = false ->
      exists pre post : list event,
        trace (snd (run (tls_client_start env client_ctx stream timeout
                           enforce_peername peername serverid) w))
        = trace w ++ pre
          ++ E_tls_bio_connect (vstream_fileno stream) timeout :: post
        /\ filter is_SSL_set_session pre = []
        /\ filter is_tls_bio_connect pre = []
        /\ filter is_SSL_set_session post = []).
Proof.
  intros H. split; [|split; [|split]].
  - now apply load_clnt_session_absent.
  - intros c tr.
    exact (prime_absent_run env serverid c (mkWorld (globals w) tr) H).
  - apply run_agree. unfold tls_client_start.
    apply bind_agree.
    2:{ intros c. apply value_stable_bind; [apply verify_stable|].
        intros c'. apply finish_stable. }
    unfold tls_client_start_connect.
    apply bind_agree_from; [apply allocate_stable|].
    intros c1 w1 w2 A1 A2.
    pose proof (allocate_no_delete env client_ctx enforce_peername peername
                  serverid w) as (G1 & _).
    pose proof (allocate_no_delete env client_ctx enforce_peername peername
                  serverid
                  (mkWorld (mkGlobals 0 (TLScontext_index (globals w)))
                     (trace w))) as (G2 & _).
    rewrite A1 in G1. rewrite A2 in G2. cbn [snd globals] in G1, G2.
    apply bind_agree.
    + rewrite prime_absent by (rewrite G1; exact H).
      rewrite prime_without_cache by (rewrite G2; reflexivity).
      reflexivity.
    + intros c. apply value_stable_bind; [apply handshake_stable|].
      intros u. apply value_stable_ret.
  - intros AF.
    unfold tls_client_start, tls_client_start_connect.
    rewrite run_bind_bind.
    destruct (allocate_succeeds env client_ctx enforce_peername peername
                serverid w AF) as (c1 & e1 & A1 & S1 & B1).
    rewrite (run_bind_normal _ _ _ _ _ A1), run_bind_bind.
    destruct (prime_absent_quiet env serverid c1
                (mkWorld (globals w) (trace w ++ e1)) H)
      as (e2 & P2 & S2 & B2).
    rewrite (run_bind_normal _ _ _ _ _ P2), run_bind_bind.
    cbn [globals trace].
    destruct (handshake_attempted env stream timeout peername c1
                (mkWorld (globals w) ((trace w ++ e1) ++ e2)))
      as (f & e3 & post & H3 & S3 & B3 & P3).
    cbn [globals trace] in H3.
    destruct f as [u | r].
    + rewrite (run_bind_normal _ _ _ _ _ H3).
      rewrite (run_bind_normal (ret c1) _ _ _ c1 eq_refl).
      destruct (avoids_run is_SSL_set_session _
                  (after_handshake_sets_no_session env client_ctx stream
                     timeout enforce_peername peername c1)
                  (mkWorld (globals w)
                     (((trace w ++ e1) ++ e2) ++ e3
                      ++ E_tls_bio_connect (vstream_fileno stream) timeout
                         :: post)))
        as (e4 & T4 & S4).
      exists (e1 ++ e2 ++ e3), (post ++ e4).
      rewrite T4. cbn [trace].
      rewrite !filter_app, S1, S2, S3, B1, B2, B3, P3, S4.
      split; [rewrite <- !app_assoc; reflexivity|].
      split; [reflexivity|]. split; reflexivity.
    + rewrite (run_bind_returned _ _ _ _ _ H3). cbn [snd trace].
      exists (e1 ++ e2 ++ e3), post.
      rewrite !filter_app, S1, S2, S3, B1, B2, B3.
      split; [rewrite <- !app_assoc; reflexivity|].
      split; [reflexivity|]. split; [reflexivity | exact P3].
Qed.

Lemma cache_failure_means_fresh_handshake_witness :
  fst (run (load_clnt_session env_corrupt_blob "smtp:mail.example.com")
         (sample_world 2)) = None
  /\ (forall (c : TLScontext_t) (tr : list event),
        exists evs : list event,
          tls_client_start_prime env_corrupt_blob "smtp:mail.example.com" c
            (mkWorld (globals (sample_world 2)) tr)
          = (Normal c, mkWorld (globals (sample_world 2)) (tr ++ evs))
          /\ filter is_SSL_set_session evs = [])
  /\ fst (run (tls_client_start env_corrupt_blob sample_client_ctx
                 sample_stream 300 0 "mail.example.com"
                 "smtp:mail.example.com") (sample_world 2))
     = fst (run (tls_client_start env_corrupt_blob sample_client_ctx
                   sample_stream 300 0 "mail.example.com"
                   "smtp:mail.example.com")
              (mkWorld (mkGlobals 0 (TLScontext_index
                                       (globals (sample_world 2))))
                 (trace (sample_world 2))))
  /\ exists pre post : list event,
       trace (snd (run (tls_client_start env_corrupt_blob sample_client_ctx
                          sample_stream 300 0 "mail.example.com"
                          "smtp:mail.example.com") (sample_world 2)))
       = trace (sample_world 2) ++ pre
         ++ E_tls_bio_connect (vstream_fileno sample_stream) 300 :: post
       /\ filter is_SSL_set_session pre = []
       /\ filter is_tls_bio_connect pre = []
       /\ filter is_SSL_set_session post = [].
Proof.
  destruct (cache_failure_means_fresh_handshake env_corrupt_blob
              sample_client_ctx sample_stream 300 0 "mail.example.com"
              "smtp:mail.example.com" (sample_world 2)
              (or_intror eq_refl))
    as (L & P & R & HS).
  split; [exact L|]. split; [exact P|]. split; [exact R|].
  apply HS. reflexivity.
Defined.

Example corrupt_blob_still_connects :
  exists TLScontext : TLScontext_t,
    fst (run (tls_client_start env_corrupt_blob sample_client_ctx
                sample_stream 300 0 "mail.example.com"
                "smtp:mail.example.com") (sample_world 2))
    = Some TLScontext
    /\ session_reused TLScontext = 0.
Proof. eexists. split; vm_compute; reflexivity. Qed.

(** ** The scenarios of the specification, run on the model *)

(** Scenario A: enforcement on, the alternative name is the host's. *)
Example scenario_alt_name_matches :
  exists TLScontext : TLScontext_t,
    fst (run (tls_client_start
                (sample_env 1 0 (TLS_MGR_STAT_not_OK, "") None 1 X509_V_OK
                   (Some [mkGENERAL_NAME GEN_DNS "mail.example.com"])
                   (Some "other.example.com"))
                sample_client_ctx sample_stream 300 1 "mail.example.com"
                "smtp:mail.example.com") (sample_world 0))
    = Some TLScontext
    /\ peer_verified TLScontext = 1
    /\ hostname_matched TLScontext = 1.
Proof. eexists. split; [|split]; vm_compute; reflexivity. Qed.

(** Scenario B: the only alternative name is wrong, the CommonName would
    match; the connection fails. *)
Example scenario_wrong_alt_name :
  fst (run (tls_client_start env_wrong_alt_name sample_client_ctx
              sample_stream 300 1 "mail.example.com" "smtp:mail.example.com")
         (sample_world 0))
  = None.
Proof. vm_compute. reflexivity. Qed.

(** Scenario C: no alternative names, a wildcard CommonName. *)
Example scenario_wildcard_CN :
  exists TLScontext : TLScontext_t,
    fst (run (tls_client_start
                (sample_env 1 0 (TLS_MGR_STAT_not_OK, "") None 1 X509_V_OK
                   None (Some "*.example.com"))
                sample_client_ctx sample_stream 300 1 "mail.example.com"
                "smtp:mail.example.com") (sample_world 0))
    = Some TLScontext
    /\ peer_verified TLScontext = 1
    /\ hostname_matched TLScontext = 1.
Proof. eexists. split; [|split]; vm_compute; reflexivity. Qed.

(** Scenario D: enforcement off, the trust chain fails. *)
Example scenario_untrusted :
  exists TLScontext : TLScontext_t,
    fst (run (tls_client_start env_untrusted sample_client_ctx sample_stream
                300 0 "mail.example.com" "smtp:mail.example.com")
           (sample_world 0))
    = Some TLScontext
    /\ peer_verified TLScontext = 0
    /\ hostname_matched TLScontext = 0.
Proof. eexists. split; [|split]; vm_compute; reflexivity. Qed.

(** * Further properties of the code *)

(** ** Symbolic execution of function bodies *)

(** As [split_tests], with the boolean connectives evaluated on the
    way. *)
Ltac case_tests :=
  repeat
    (cbv beta iota; cbn [globals trace fst snd negb andb orb];
     match goal with
     | |- context [match ?x with _ => _ end] =>
         lazymatch x with
         | context [match _ with _ => _ end] => fail
         | _ => idtac
         end;
         match type of x with
         | bool => destruct x eqn:?
         | option _ => destruct x eqn:?
         | tls_mgr_status => destruct x eqn:?
         | list _ => destruct x eqn:?
         | (_ * _)%type => destruct x eqn:?
         end
     end);
  cbv beta iota; cbn [globals trace fst snd negb andb orb].

(** The innermost test of a boolean expression. *)
Ltac test_atom x :=
  lazymatch x with
  | negb ?y => test_atom y
  | andb ?y _ => test_atom y
  | orb ?y _ => test_atom y
  | _ => x
  end.

(** Running a body symbolically: reduce, split the next test the run is
    stuck on, and reduce again. *)
Ltac exec_tests :=
  repeat
    (cbv beta iota;
     cbn [globals trace fst snd negb andb orb TLScontext_index
          tls_client_cache];
     match goal with
     | |- context [match ?x with _ => _ end] =>
         lazymatch x with
         | context [match _ with _ => _ end] => fail
         | _ => idtac
         end;
         match type of x with
         | bool => let a := test_atom x in destruct a eqn:?
         | option _ => destruct x eqn:?
         | tls_mgr_status => destruct x eqn:?
         | list _ => destruct x eqn:?
         | (_ * _)%type => destruct x eqn:?
         end
     end);
  cbv beta iota;
  cbn [globals trace fst snd negb andb orb TLScontext_index tls_client_cache].

(** ** [match_hostname] *)

Lemma strcasecmp_refl (s : string) : strcasecmp s s = 0.
Proof.
  induction s as [|c r IH]; [reflexivity|].
  cbn [strcasecmp]. rewrite Z.sub_diag. cbn [Z.eqb].
  destruct (code c =? 0); auto.
Qed.

(** X1. Every name matches itself, whatever bytes it holds. *)
Theorem match_hostname_refl (hostname : string) :
  match_hostname hostname hostname = 1.
Proof.
  unfold match_hostname. now rewrite strcasecmp_refl.
Qed.

Lemma code_lower_ascii (c : ascii) : code (lower_ascii c) = tolower (code c).
Proof.
  unfold lower_ascii, code at 1.
  pose proof (code_range c) as R.
  assert (B : 0 <= tolower (code c) < 256).
  { unfold tolower.
    destruct ((65 <=? code c) && (code c <=? 90)) eqn:U; [|lia].
    apply andb_true_iff in U. rewrite !Z.leb_le in U. lia. }
  rewrite N_ascii_embedding by lia.
  lia.
Qed.

Lemma tolower_idem (z : Z) : tolower (tolower z) = tolower z.
Proof.
  unfold tolower.
  destruct ((65 <=? z) && (z <=? 90)) eqn:U.
  - apply andb_true_iff in U. rewrite !Z.leb_le in U.
    replace ((65 <=? z + 32) && (z + 32 <=? 90)) with false; [reflexivity|].
    symmetry. apply andb_false_iff. rewrite !Z.leb_gt. lia.
  - now rewrite U.
Qed.

Lemma tolower_eq_zero (z : Z) : tolower z = 0 <-> z = 0.
Proof.
  unfold tolower.
  destruct ((65 <=? z) && (z <=? 90)) eqn:U; [|tauto].
  apply andb_true_iff in U. rewrite !Z.leb_le in U. lia.
Qed.

(** Folding leaves a byte that is not a letter where it is. *)
Lemma lower_ascii_eqb (c d : ascii) :
  tolower (code d) = code d ->
  (code d < 97 \/ 122 < code d) ->
  Ascii.eqb (lower_ascii c) d = Ascii.eqb c d.
Proof.
  intros Fix Out.
  destruct (Ascii.eqb c d) eqn:E.
  - apply Ascii.eqb_eq in E. subst c. apply Ascii.eqb_eq, code_inj.
    now rewrite code_lower_ascii.
  - apply Ascii.eqb_neq in E. apply Ascii.eqb_neq. intros L.
    apply E, code_inj.
    apply (f_equal code) in L. rewrite code_lower_ascii in L.
    unfold tolower in L.
    destruct ((65 <=? code c) && (code c <=? 90)) eqn:U; [|exact L].
    apply andb_true_iff in U. rewrite !Z.leb_le in U. lia.
Qed.

Lemma lower_ascii_star (c : ascii) :
  Ascii.eqb (lower_ascii c) "*" = Ascii.eqb c "*".
Proof. apply lower_ascii_eqb; [reflexivity | cbn; lia]. Qed.

Lemma lower_ascii_dot (c : ascii) :
  Ascii.eqb (lower_ascii c) "." = Ascii.eqb c ".".
Proof. apply lower_ascii_eqb; [reflexivity | cbn; lia]. Qed.

Lemma lower_ascii_NUL (c : ascii) :
  Ascii.eqb (lower_ascii c) NUL = Ascii.eqb c NUL.
Proof. apply lower_ascii_eqb; [reflexivity | cbn; lia]. Qed.

Lemma char_at_lowercase (s : string) :
  forall i : nat, char_at (lowercase s) i = lower_ascii (char_at s i).
Proof.
  induction s as [|c r IH]; intros [|i]; cbn; auto.
Qed.

Lemma ptr_add_lowercase (n : nat) :
  forall s : string, ptr_add (lowercase s) n = lowercase (ptr_add s n).
Proof.
  induction n as [|n IH]; intros [|c r]; cbn; auto.
Qed.

Lemma strcasecmp_lowercase (s1 : string) :
  forall s2 : string,
    strcasecmp (lowercase s1) (lowercase s2) = strcasecmp s1 s2.
Proof.
  induction s1 as [|c1 r1 IH]; intros [|c2 r2];
    cbn [lowercase strcasecmp]; rewrite ?code_lower_ascii, ?tolower_idem;
    try reflexivity.
  rewrite IH.
  destruct (tolower (code c1) - tolower (code c2) =? 0); [|reflexivity].
  destruct (code c1 =? 0) eqn:Z1.
  - apply Z.eqb_eq in Z1. rewrite Z1. reflexivity.
  - apply Z.eqb_neq in Z1.
    replace (tolower (code c1) =? 0) with false; [reflexivity|].
    symmetry. apply Z.eqb_neq. now rewrite tolower_eq_zero.
Qed.

Lemma strchr_dot_lowercase (s : string) :
  strchr (lowercase s) "."
  = match strchr s "." with
    | Some p => Some (lowercase p)
    | None => None
    end.
Proof.
  induction s as [|c r IH]; [reflexivity|].
  cbn [lowercase strchr]. rewrite lower_ascii_dot, lower_ascii_NUL.
  destruct (Ascii.eqb c "."); [reflexivity|].
  destruct (Ascii.eqb c NUL); [reflexivity | exact IH].
Qed.

Lemma match_hostname_lowercase (pattern hostname : string) :
  match_hostname (lowercase pattern) (lowercase hostname)
  = match_hostname pattern hostname.
Proof.
  unfold match_hostname.
  rewrite strcasecmp_lowercase, !char_at_lowercase, lower_ascii_star,
    lower_ascii_dot, lower_ascii_NUL, strchr_dot_lowercase.
  destruct (strchr hostname ".") as [p|]; [|reflexivity].
  now rewrite !ptr_add_lowercase, strcasecmp_lowercase.
Qed.

Lemma same_char_lower_ascii (a b : ascii) :
  same_char_nocase a b -> lower_ascii a = lower_ascii b.
Proof.
  intros H. apply code_inj. rewrite !code_lower_ascii.
  now apply tolower_eq_iff.
Qed.

Lemma eq_nocase_lowercase (s t : string) :
  eq_nocase s t -> lowercase s = lowercase t.
Proof.
  induction 1 as [|a b s t C _ IH]; [reflexivity|].
  cbn. now rewrite (same_char_lower_ascii a b C), IH.
Qed.

(** X2. Letter case never matters: two patterns that are equal up to
    case and two hostnames that are equal up to case give the same
    answer. *)
Theorem match_hostname_ignores_case (pattern pattern' hostname hostname'
    : string) :
  eq_nocase pattern pattern' -> eq_nocase hostname hostname' ->
  match_hostname pattern hostname = match_hostname pattern' hostname'.
Proof.
  intros P H.
  rewrite <- (match_hostname_lowercase pattern hostname),
    <- (match_hostname_lowercase pattern' hostname').
  now rewrite (eq_nocase_lowercase _ _ P), (eq_nocase_lowercase _ _ H).
Qed.

Lemma match_hostname_ignores_case_witness :
  match_hostname "*.Example.COM" "mail.EXAMPLE.com"
  = match_hostname "*.example.com" "MAIL.example.com".
Proof.
  apply match_hostname_ignores_case;
    repeat (constructor; [apply tolower_eq_iff; reflexivity|]); constructor.
Defined.

(** The two directions of the matching rule, for use below. *)
Lemma match_hostname_sound (pattern hostname : string) :
  nul_free pattern = true -> nul_free hostname = true ->
  match_hostname pattern hostname = 1 -> match_spec pattern hostname.
Proof.
  intros NP NH. unfold match_hostname, match_spec.
  rewrite c_bool_eq_1, orb_true_iff, Z.eqb_eq.
  rewrite (strcasecmp_zero_iff hostname pattern NH NP).
  rewrite andb_true_iff, (wildcard_prefix_iff pattern NP).
  intros [E | [(r & -> & NE) S]].
  - left. now apply eq_nocase_sym.
  - right. exists r. repeat split; auto.
    destruct (strchr hostname ".") as [p|] eqn:C; [|discriminate].
    destruct (strchr_dot_split _ _ C) as (label & suffix & -> & DF & ->).
    exists label, suffix. repeat split; auto.
    apply Z.eqb_eq in S. cbn [ptr_add] in S.
    apply nul_free_app in NH as [_ NS].
    apply nul_free_cons in NS as [_ NS].
    apply nul_free_cons in NP as [_ NP]. apply nul_free_cons in NP as [_ NP].
    now apply strcasecmp_zero_iff in S.
Qed.

Lemma same_char_nocase_dot (a b : ascii) :
  same_char_nocase a b -> Ascii.eqb a "." = Ascii.eqb b ".".
Proof.
  intros H. apply tolower_eq_iff in H.
  rewrite <- (lower_ascii_dot a), <- (lower_ascii_dot b).
  f_equal. apply code_inj. now rewrite !code_lower_ascii.
Qed.

Lemma eq_nocase_count_dots (s t : string) :
  eq_nocase s t -> count_dots s = count_dots t.
Proof.
  induction 1 as [|a b s t C _ IH]; [reflexivity|].
  cbn. rewrite (same_char_nocase_dot a b C), IH. reflexivity.
Qed.

Lemma count_dots_first_label (label suffix : string) :
  dot_free label ->
  count_dots (label ++ String "." suffix)%string = S (count_dots suffix).
Proof.
  induction label as [|c r IH]; intros DF; [reflexivity|].
  destruct DF as [D DF]. cbn [append count_dots].
  apply Ascii.eqb_neq in D. rewrite D. auto.
Qed.

(** X3. A match never crosses a label boundary: a pattern and a hostname
    that match have the same number of dots, so [*.] stands for exactly
    one label of the hostname, never for several. *)
Theorem match_hostname_same_labels (pattern hostname : string) :
  nul_free pattern = true -> nul_free hostname = true ->
  match_hostname pattern hostname = 1 ->
  count_dots pattern = count_dots hostname.
Proof.
  intros NP NH M.
  destruct (match_hostname_sound _ _ NP NH M)
    as [E | (r & -> & _ & label & suffix & -> & DF & E)].
  - now apply eq_nocase_count_dots.
  - rewrite (count_dots_first_label _ _ DF). cbn.
    f_equal. symmetry. now apply eq_nocase_count_dots.
Qed.

Lemma match_hostname_same_labels_witness :
  count_dots "*.example.com" = count_dots "mail.example.com".
Proof.
  apply match_hostname_same_labels; reflexivity.
Defined.

(** X4. The wildcard accepts any single label in front of the
    remainder, the empty label included: [*.] followed by a remainder
    matches every hostname that consists of a dot-free label, a dot, and
    the remainder up to case. *)
Theorem match_hostname_wildcard_any_label (label suffix remainder : string) :
  nul_free label = true -> nul_free suffix = true ->
  nul_free remainder = true ->
  dot_free label -> remainder <> EmptyString -> eq_nocase suffix remainder ->
  match_hostname (String "*" (String "." remainder))
    (label ++ String "." suffix)%string = 1.
Proof.
  intros NL NS NR DF NE E.
  unfold match_hostname. apply c_bool_eq_1, orb_true_iff. right.
  assert (NP : nul_free (String "*" (String "." remainder)) = true)
    by (cbn; exact NR).
  apply andb_true_iff. split.
  - apply (wildcard_prefix_iff _ NP). exists remainder. auto.
  - rewrite (strchr_dot_of_split label suffix NL DF). cbn [ptr_add].
    apply Z.eqb_eq. now apply strcasecmp_zero_iff.
Qed.

Lemma match_hostname_wildcard_any_label_witness :
  match_hostname (String "*" (String "." "example.com"))
    ("" ++ String "." "EXAMPLE.com")%string = 1.
Proof.
  apply match_hostname_wildcard_any_label;
    try reflexivity; try exact I; try discriminate.
  repeat (constructor; [apply tolower_eq_iff; reflexivity|]); constructor.
Defined.

(** X5. Only [*.] in front of something is a wildcard.  Any other
    pattern, among them a lone [*], [*.] with nothing behind it and a
    pattern with [*] elsewhere, matches a hostname only when the two are
    equal up to case. *)
Theorem match_hostname_literal_pattern (pattern hostname : string) :
  nul_free pattern = true -> nul_free hostname = true ->
  (forall remainder : string,
      pattern = String "*" (String "." remainder) ->
      remainder = EmptyString) ->
  (match_hostname pattern hostname = 1 <-> eq_nocase pattern hostname).
Proof.
  intros NP NH L. split.
  - intros M.
    destruct (match_hostname_sound _ _ NP NH M) as [E | (r & P & NE & _)];
      [exact E|].
    contradiction (NE (L r P)).
  - intros E. unfold match_hostname.
    apply c_bool_eq_1, orb_true_iff. left.
    apply Z.eqb_eq, strcasecmp_zero_iff; auto using eq_nocase_sym.
Qed.

Lemma match_hostname_literal_pattern_witness :
  match_hostname "m*.example.com" "mail.example.com" = 1
  <-> eq_nocase "m*.example.com" "mail.example.com".
Proof.
  apply match_hostname_literal_pattern; try reflexivity.
  intros remainder H. discriminate H.
Defined.

(** ** [verify_extract_peer] *)

Lemma tested_until_match_all (peername : string) (names : list string) :
  existsb (fun n => truthy (match_hostname n peername)) names = false ->
  tested_until_match peername names = names.
Proof.
  induction names as [|n l IH]; [reflexivity|].
  cbn [existsb tested_until_match]. intros H.
  apply orb_false_iff in H as [H1 H2]. rewrite H1, (IH H2). reflexivity.
Qed.

(** The connection state the verifier leaves behind. *)
Lemma verify_extract_peer_state (R : Type) (env : Env) (peername : string)
    (peercert : X509) (TLScontext : TLScontext_t) (w : World) :
  exists evs : list event,
    @verify_extract_peer R env peername peercert TLScontext w
    = (Normal
         (set_hostname_matched
            (if negb (enforce_CN TLScontext =? 0)
                && is_X509_V_OK (SSL_get_verify_result env (con TLScontext))
             then match
                    match X509_get_ext_d2i_subject_alt_name env peercert with
                    | Some gens => dNSNames gens
                    | None => []
                    end
                  with
                  | n :: l =>
                      c_bool
                        (existsb
                           (fun n => truthy (match_hostname n peername))
                           (n :: l))
                  | [] =>
                      if Ascii.eqb
                           (char_at
                              (string_or_empty (tls_peer_CN env peercert)) 0)
                           NUL
                      then 0
                      else match_hostname
                             (string_or_empty (tls_peer_CN env peercert))
                             peername
                  end
             else 0)
            (set_issuer_CN
               (Some (string_or_empty (tls_issuer_CN env peercert)))
               (set_peer_CN
                  (Some (string_or_empty (tls_peer_CN env peercert)))
                  (set_peer_verified
                     (c_bool
                        (is_X509_V_OK
                           (SSL_get_verify_result env (con TLScontext))))
                     TLScontext)))),
       mkWorld (globals w) (trace w ++ evs))
    /\ filter is_mismatch_msg evs
       = (if negb (enforce_CN TLScontext =? 0)
             && is_X509_V_OK (SSL_get_verify_result env (con TLScontext))
          then match
                 match X509_get_ext_d2i_subject_alt_name env peercert with
                 | Some gens => dNSNames gens
                 | None => []
                 end
               with
               | n :: l =>
                   if existsb (fun n => truthy (match_hostname n peername))
                        (n :: l)
                   then []
                   else [E_msg_info
                           (Msg_dNSNames_none_match peername
                              (Z.of_nat (List.length (n :: l))))]
               | [] =>
                   if Ascii.eqb
                        (char_at
                           (string_or_empty (tls_peer_CN env peercert)) 0)
                        NUL
                      || truthy
                           (match_hostname
                              (string_or_empty (tls_peer_CN env peercert))
                              peername)
                   then []
                   else [E_msg_info
                           (Msg_CommonName_mismatch peername
                              (string_or_empty (tls_peer_CN env peercert)))]
               end
          else []).
Proof.
  unfold verify_extract_peer, bind, emit, when, ret.
  cbn [enforce_CN peer_verified set_peer_verified].
  destruct (tls_peer_CN env peercert) as [cn|];
    destruct (tls_issuer_CN env peercert) as [issuer|];
    cbn [string_or_empty];
    try change (Ascii.eqb (char_at "" 0) NUL) with true.
  all: destruct (enforce_CN TLScontext =? 0);
    destruct (is_X509_V_OK (SSL_get_verify_result env (con TLScontext)));
    cbn [negb andb c_bool truthy Z.eqb];
    try (cbn [globals trace]; case_tests;
         (eexists; split; [rewrite <- ?app_assoc; reflexivity|]);
         reflexivity).
  all: destruct (X509_get_ext_d2i_subject_alt_name env peercert) as [gens|];
    [ rewrite dNSName_loop_run; destruct (dNSNames gens) as [|n l];
      [ |
        rewrite !tested_until_match_found, !truthy_c_bool;
        cbn [globals trace negb andb];
        destruct (existsb (fun n0 => truthy (match_hostname n0 peername))
                    (n :: l)) eqn:EX;
        [ | rewrite (tested_until_match_all _ _ EX) ];
        case_tests;
        (eexists; split; [rewrite <- ?app_assoc; reflexivity|]);
        rewrite ?filter_app, ?filter_dNS_match_events by reflexivity;
        cbn; rewrite ?Pos.of_nat_succ; reflexivity ]
    | ].
  all: cbn [globals trace tested_until_match List.length Z.of_nat Z.add
            dNS_match_events map truthy Z.eqb negb andb];
    try destruct (Ascii.eqb (char_at cn 0) NUL) eqn:CE;
    try destruct (truthy (match_hostname cn peername)) eqn:ME;
    cbn [negb andb orb];
    case_tests;
    (eexists; split; [rewrite <- ?app_assoc; reflexivity|]);
    cbn; rewrite ?ME; reflexivity.
Qed.

(** X6. The verifier records a hostname match only over a verified
    chain and only under enforcement: whenever it leaves
    [hostname_matched] set, the engine's verify result was [X509_V_OK],
    [peer_verified] is 1 and [enforce_CN] was set on entry. *)
Theorem hostname_match_needs_verified_chain (R : Type) (env : Env)
    (peername : string) (peercert : X509)
    (TLScontext TLScontext' : TLScontext_t)
    (w w' : World) :
  @verify_extract_peer R env peername peercert TLScontext w
  = (Normal TLScontext', w') ->
  hostname_matched TLScontext' <> 0 ->
  enforce_CN TLScontext <> 0
  /\ SSL_get_verify_result env (con TLScontext) = X509_V_OK
  /\ peer_verified TLScontext' = 1.
Proof.
  destruct (verify_extract_peer_state R env peername peercert TLScontext w)
    as (evs & E & _).
  rewrite E. intros [= <- _]. cbn [hostname_matched set_hostname_matched
    peer_verified set_issuer_CN set_peer_CN set_peer_verified].
  destruct (enforce_CN TLScontext =? 0) eqn:EC;
    destruct (SSL_get_verify_result env (con TLScontext));
    cbn [negb andb is_X509_V_OK c_bool]; intros H; try contradiction.
  apply Z.eqb_neq in EC. auto.
Qed.

Lemma hostname_match_needs_verified_chain_witness :
  enforce_CN (set_enforce_CN 1 (tls_alloc_context 1 "mail.example.com")) <> 0
  /\ SSL_get_verify_result
       (sample_env 1 0 (TLS_MGR_STAT_not_OK, "") None 1 X509_V_OK None
          (Some "*.example.com"))
       (con (set_enforce_CN 1 (tls_alloc_context 1 "mail.example.com")))
     = X509_V_OK
  /\ peer_verified
       (fst (run (verify_extract_peer
                    (sample_env 1 0 (TLS_MGR_STAT_not_OK, "") None 1
                       X509_V_OK None (Some "*.example.com"))
                    "mail.example.com" sample_cert
                    (set_enforce_CN 1
                       (tls_alloc_context 1 "mail.example.com")))
               (sample_world 0)))
     = 1.
Proof.
  eapply (hostname_match_needs_verified_chain TLScontext_t
            (sample_env 1 0 (TLS_MGR_STAT_not_OK, "") None 1 X509_V_OK None
               (Some "*.example.com"))
            "mail.example.com" sample_cert
            (set_enforce_CN 1 (tls_alloc_context 1 "mail.example.com"))
            _ (sample_world 0)).
  - vm_compute. reflexivity.
  - vm_compute. discriminate.
Defined.

(** X7. The verifier writes the four result fields and nothing else:
    the engine session, the cache key, the enforcement flags, the BIO
    pair and the negotiated parameters of the connection state are as on
    entry, and so are the process-wide variables. *)
Theorem verify_extract_peer_frame (R : Type) (env : Env)
    (peername : string) (peercert : X509) (TLScontext : TLScontext_t)
    (w : World) :
  exists (TLScontext' : TLScontext_t) (w' : World),
    @verify_extract_peer R env peername peercert TLScontext w
    = (Normal TLScontext', w')
    /\ globals w' = globals w
    /\ con TLScontext' = con TLScontext
    /\ serverid TLScontext' = serverid TLScontext
    /\ enforce_verify_errors TLScontext' = enforce_verify_errors TLScontext
    /\ enforce_CN TLScontext' = enforce_CN TLScontext
    /\ internal_bio TLScontext' = internal_bio TLScontext
    /\ network_bio TLScontext' = network_bio TLScontext
    /\ session_reused TLScontext' = session_reused TLScontext
    /\ protocol TLScontext' = protocol TLScontext
    /\ cipher_name TLScontext' = cipher_name TLScontext
    /\ cipher_usebits TLScontext' = cipher_usebits TLScontext
    /\ cipher_algbits TLScontext' = cipher_algbits TLScontext.
Proof.
  destruct (verify_extract_peer_state R env peername peercert TLScontext w)
    as (evs & E & _).
  do 2 eexists. split; [exact E|]. cbn. repeat split.
Qed.

(** X8. The verifier reports a failed name check at every verbosity,
    and only then.  With verification on and DNS names present, none of
    which matches, it logs one line that carries the number of DNS names
    in the certificate; with no DNS name and a CommonName that does not
    match, one line that carries the CommonName; with no DNS name and an
    empty CommonName the check fails without a line.  With verification
    off, or after a match, it logs no such line. *)
Theorem verify_extract_peer_mismatch_lines (R : Type) (env : Env)
    (peername : string) (peercert : X509) (TLScontext : TLScontext_t)
    (w : World) :
  exists (TLScontext' : TLScontext_t) (evs : list event),
    @verify_extract_peer R env peername peercert TLScontext w
    = (Normal TLScontext', mkWorld (globals w) (trace w ++ evs))
    /\ filter is_mismatch_msg evs
       = (if negb (enforce_CN TLScontext =? 0)
             && is_X509_V_OK (SSL_get_verify_result env (con TLScontext))
          then match
                 match X509_get_ext_d2i_subject_alt_name env peercert with
                 | Some gens => dNSNames gens
                 | None => []
                 end
               with
               | n :: l =>
                   if existsb (fun n => truthy (match_hostname n peername))
                        (n :: l)
                   then []
                   else [E_msg_info
                           (Msg_dNSNames_none_match peername
                              (Z.of_nat (List.length (n :: l))))]
               | [] =>
                   if Ascii.eqb
                        (char_at
                           (string_or_empty (tls_peer_CN env peercert)) 0)
                        NUL
                      || truthy
                           (match_hostname
                              (string_or_empty (tls_peer_CN env peercert))
                              peername)
                   then []
                   else [E_msg_info
                           (Msg_CommonName_mismatch peername
                              (string_or_empty (tls_peer_CN env peercert)))]
               end
          else []).
Proof.
  destruct (verify_extract_peer_state R env peername peercert TLScontext w)
    as (evs & E & F).
  eexists. exists evs. split; [exact E | exact F].
Qed.

(** ** [load_clnt_session] and [new_client_session_cb] *)

(** X9. A lookup makes exactly one request to tlsmgr(8), a lookup under
    the given id and the current cache type; it never updates or
    deletes.  It yields the activated session when the status is OK and
    the blob can be activated, and no session otherwise. *)
Theorem load_clnt_session_one_lookup (env : Env) (cache_id : string)
    (w : World) :
  exists evs : list event,
    run (load_clnt_session env cache_id) w
    = (match tls_mgr_lookup env (tls_client_cache (globals w)) cache_id with
       | (TLS_MGR_STAT_OK, session_data) =>
           tls_session_activate env session_data
       | (TLS_MGR_STAT_not_OK, _) => None
       end,
       mkWorld (globals w) (trace w ++ evs))
    /\ filter is_tls_mgr_request evs
       = [E_tls_mgr_lookup (tls_client_cache (globals w)) cache_id].
Proof.
  unfold load_clnt_session, run, bind, when, emit, ret, c_return, get_globals.
  destruct (3 <=? var_smtp_tls_loglevel env); cbn [globals trace];
    destruct (tls_mgr_lookup env (tls_client_cache (globals w)) cache_id)
      as [[|] blob]; cbn [globals trace];
    try destruct (tls_session_activate env blob);
    cbn [globals trace];
    (eexists; split; [rewrite <- ?app_assoc; reflexivity | reflexivity]).
Qed.

(** What a run of the save hook does. *)
Lemma new_client_session_cb_run (env : Env)
    (TLScontext : TLScontext_t) (session : SSL_SESSION) (id : string)
    (w : World) :
  serverid TLScontext = Some id ->
  exists evs : list event,
    run (new_client_session_cb env TLScontext session) w
    = (1, mkWorld (globals w)
            (trace w ++ evs ++ [E_SSL_SESSION_free session]))
    /\ filter is_SSL_SESSION_free evs = []
    /\ filter is_tls_mgr_request evs
       = match tls_session_passivate env session with
         | Some session_data =>
             [E_tls_mgr_update (tls_client_cache (globals w)) id session_data]
         | None => []
         end.
Proof.
  intros S.
  unfold new_client_session_cb, run, bind, when, emit, ret, c_return,
    get_globals.
  rewrite S.
  destruct (3 <=? var_smtp_tls_loglevel env); cbn [globals trace];
    destruct (tls_session_passivate env session) as [blob|];
    cbn [globals trace].
  - exists [E_msg_info (Msg_save_session id);
            E_tls_session_passivate session;
            E_tls_mgr_update (tls_client_cache (globals w)) id blob].
    rewrite <- !app_assoc. repeat split.
  - exists [E_msg_info (Msg_save_session id);
            E_tls_session_passivate session].
    rewrite <- !app_assoc. repeat split.
  - exists [E_tls_session_passivate session;
            E_tls_mgr_update (tls_client_cache (globals w)) id blob].
    rewrite <- !app_assoc. repeat split.
  - exists [E_tls_session_passivate session].
    rewrite <- !app_assoc. repeat split.
Qed.

(** X10. The save hook always answers 1 and always drops its reference
    to the session, exactly once and as its last step, whether or not the
    session could be serialised.  It sends one update request under the
    connection's [serverid] when serialisation succeeds and no request
    when it fails; it never looks up or deletes. *)
Theorem new_client_session_cb_releases (env : Env)
    (TLScontext : TLScontext_t) (session : SSL_SESSION) (id : string)
    (w : World) :
  serverid TLScontext = Some id ->
  exists evs : list event,
    run (new_client_session_cb env TLScontext session) w
    = (1, mkWorld (globals w)
            (trace w ++ evs ++ [E_SSL_SESSION_free session]))
    /\ filter is_SSL_SESSION_free evs = []
    /\ filter is_tls_mgr_request evs
       = match tls_session_passivate env session with
         | Some session_data =>
             [E_tls_mgr_update (tls_client_cache (globals w)) id session_data]
         | None => []
         end.
Proof.
  exact (new_client_session_cb_run env TLScontext session id w).
Qed.

Lemma new_client_session_cb_releases_witness :
  exists evs : list event,
    run (new_client_session_cb env_wrong_alt_name
           (set_serverid (Some "smtp:mail.example.com")
              (tls_alloc_context 1 "mail.example.com"))
           sample_session) (sample_world 2)
    = (1, mkWorld (globals (sample_world 2))
            (trace (sample_world 2) ++ evs
             ++ [E_SSL_SESSION_free sample_session]))
    /\ filter is_SSL_SESSION_free evs = []
    /\ filter is_tls_mgr_request evs
       = match tls_session_passivate env_wrong_alt_name sample_session with
         | Some session_data =>
             [E_tls_mgr_update (tls_client_cache (globals (sample_world 2)))
                "smtp:mail.example.com" session_data]
         | None => []
         end.
Proof.
  apply (new_client_session_cb_releases env_wrong_alt_name
           (set_serverid (Some "smtp:mail.example.com")
              (tls_alloc_context 1 "mail.example.com"))
           sample_session "smtp:mail.example.com" (sample_world 2)).
  reflexivity.
Defined.

(** ** [tls_client_init] *)

(** What a run of the initialisation returns and what it leaves in the
    process-wide variables and in the trace. *)
Lemma tls_client_init_run (env : Env) (unused_verifydepth : Z) (w : World) :
  exists (result : option SSL_CTX) (evs : list event),
    run (tls_client_init env unused_verifydepth) w
    = (result,
       mkWorld
         match result with
         | None => globals w
         | Some _ =>
             mkGlobals
               match tls_mgr_policy env with
               | (TLS_MGR_STAT_OK, cache_types) =>
                   Z.land cache_types (TLS_MGR_SCACHE_CLIENT env)
               | (TLS_MGR_STAT_not_OK, _) => tls_client_cache (globals w)
               end
               (if TLScontext_index (globals w) <? 0
                then SSL_get_ex_new_index env
                else TLScontext_index (globals w))
         end
         (trace w ++ evs))
    /\ result
       = match SSL_CTX_new env with
         | Some ctx =>
             if (tls_ext_seed env (var_tls_daemon_rand_bytes env) <? 0)
                || (negb (Ascii.eqb (char_at (var_smtp_tls_cipherlist env) 0)
                            NUL)
                    && (SSL_CTX_set_cipher_list env ctx
                          (var_smtp_tls_cipherlist env) =? 0))
                || (tls_set_ca_certificate_info env ctx
                      (var_smtp_tls_CAfile env) (var_smtp_tls_CApath env)
                    <? 0)
                || ((negb (Ascii.eqb
                             (char_at (var_smtp_tls_cert_file env) 0) NUL)
                     || negb (Ascii.eqb
                                (char_at (var_smtp_tls_dcert_file env) 0)
                                NUL))
                    && (tls_set_my_certificate_key_info env ctx
                          (var_smtp_tls_cert_file env)
                          (var_smtp_tls_key_file env)
                          (var_smtp_tls_dcert_file env)
                          (var_smtp_tls_dkey_file env) <? 0))
             then None
             else Some ctx
         | None => None
         end
    /\ filter is_SSL_CTX_free evs
       = match result, SSL_CTX_new env with
         | None, Some ctx =>
             if tls_ext_seed env (var_tls_daemon_rand_bytes env) <? 0
             then []
             else [E_SSL_CTX_free ctx]
         | _, _ => []
         end
    /\ filter is_SSL_get_ex_new_index evs
       = match result with
         | Some _ =>
             if TLScontext_index (globals w) <? 0
             then [E_SSL_get_ex_new_index]
             else []
         | None => []
         end
    /\ filter is_SSL_CTX_sess_set_new_cb evs
       = match result, tls_mgr_policy env with
         | Some ctx, (TLS_MGR_STAT_OK, cache_types) =>
             if Z.land cache_types (TLS_MGR_SCACHE_CLIENT env) =? 0
             then []
             else [E_SSL_CTX_sess_set_new_cb ctx]
         | _, _ => []
         end
    /\ filter is_SSL_CTX_set_cipher_list evs
       = match SSL_CTX_new env with
         | Some ctx =>
             if (tls_ext_seed env (var_tls_daemon_rand_bytes env) <? 0)
                || Ascii.eqb (char_at (var_smtp_tls_cipherlist env) 0) NUL
             then []
             else [E_SSL_CTX_set_cipher_list ctx
                     (var_smtp_tls_cipherlist env)]
         | None => []
         end
    /\ (Ascii.eqb (char_at (var_smtp_tls_cert_file env) 0) NUL
        && Ascii.eqb (char_at (var_smtp_tls_dcert_file env) 0) NUL = true ->
        filter is_tls_set_my_certificate_key_info evs = []).
Proof.
  destruct w as [[cache index] tr].
  unfold tls_client_init, run, bind, when, emit, ret, c_return, get_globals,
    put_globals.
  exec_tests;
    match goal with
    | |- exists r e, (?R, _) = _ /\ _ => exists R
    end;
    (eexists; split; [rewrite <- ?app_assoc; reflexivity|]);
    (split; [|split; [|split; [|split; [|split]]]]);
    try reflexivity; intros H; try discriminate H; reflexivity.
Qed.

(** X11. Initialisation fails for exactly five reasons: no entropy, no
    engine context, a cipher list the engine rejects, trust anchors that
    cannot be loaded, and a configured certificate or key that cannot be
    loaded.  Otherwise it returns the context the engine created.  The
    answer of the cache policy query, the verbosity and the state of the
    process-wide variables have no part in the outcome. *)
Theorem tls_client_init_outcome (env : Env) (unused_verifydepth : Z)
    (w : World) :
  fst (run (tls_client_init env unused_verifydepth) w)
  = match SSL_CTX_new env with
    | Some ctx =>
        if (tls_ext_seed env (var_tls_daemon_rand_bytes env) <? 0)
           || (negb (Ascii.eqb (char_at (var_smtp_tls_cipherlist env) 0) NUL)
               && (SSL_CTX_set_cipher_list env ctx
                     (var_smtp_tls_cipherlist env) =? 0))
           || (tls_set_ca_certificate_info env ctx
                 (var_smtp_tls_CAfile env) (var_smtp_tls_CApath env) <? 0)
           || ((negb (Ascii.eqb (char_at (var_smtp_tls_cert_file env) 0) NUL)
                || negb (Ascii.eqb (char_at (var_smtp_tls_dcert_file env) 0)
                           NUL))
               && (tls_set_my_certificate_key_info env ctx
                     (var_smtp_tls_cert_file env) (var_smtp_tls_key_file env)
                     (var_smtp_tls_dcert_file env)
                     (var_smtp_tls_dkey_file env) <? 0))
        then None
        else Some ctx
    | None => None
    end.
Proof.
  destruct (tls_client_init_run env unused_verifydepth w)
    as (result & evs & E & R & _).
  now rewrite E.
Qed.

(** X12. A failed initialisation leaves nothing behind: the process-wide
    variables are as before, and an engine context that had been created
    is freed, once.  A successful initialisation never frees the context
    it returns. *)
Theorem tls_client_init_cleans_up (env : Env) (unused_verifydepth : Z)
    (w : World) :
  exists evs : list event,
    trace (snd (run (tls_client_init env unused_verifydepth) w))
    = trace w ++ evs
    /\ match fst (run (tls_client_init env unused_verifydepth) w) with
       | Some _ => filter is_SSL_CTX_free evs = []
       | None =>
           globals (snd (run (tls_client_init env unused_verifydepth) w))
           = globals w
           /\ filter is_SSL_CTX_free evs
              = match SSL_CTX_new env with
                | Some ctx =>
                    if tls_ext_seed env (var_tls_daemon_rand_bytes env) <? 0
                    then []
                    else [E_SSL_CTX_free ctx]
                | None => []
                end
       end.
Proof.
  destruct (tls_client_init_run env unused_verifydepth w)
    as (result & evs & E & _ & F & _).
  exists evs. rewrite E. cbn [fst snd trace globals]. split; [reflexivity|].
  destruct result; [exact F|].
  split; [reflexivity|].
  destruct (SSL_CTX_new env); exact F.
Qed.

(** X13. After a successful initialisation [tls_client_cache] holds the
    client bit of the cache types tlsmgr(8) reported, and the save hook
    is registered exactly when that bit is set.  When the policy query
    fails, [tls_client_cache] keeps its value and no hook is
    registered. *)
Theorem tls_client_init_cache_policy (env : Env) (unused_verifydepth : Z)
    (w w' : World) (client_ctx : SSL_CTX) :
  run (tls_client_init env unused_verifydepth) w = (Some client_ctx, w') ->
  exists evs : list event,
    trace w' = trace w ++ evs
    /\ tls_client_cache (globals w')
       = match tls_mgr_policy env with
         | (TLS_MGR_STAT_OK, cache_types) =>
             Z.land cache_types (TLS_MGR_SCACHE_CLIENT env)
         | (TLS_MGR_STAT_not_OK, _) => tls_client_cache (globals w)
         end
    /\ filter is_SSL_CTX_sess_set_new_cb evs
       = match tls_mgr_policy env with
         | (TLS_MGR_STAT_OK, _) =>
             if tls_client_cache (globals w') =? 0
             then []
             else [E_SSL_CTX_sess_set_new_cb client_ctx]
         | (TLS_MGR_STAT_not_OK, _) => []
         end.
Proof.
  destruct (tls_client_init_run env unused_verifydepth w)
    as (result & evs & E & _ & _ & _ & F & _).
  rewrite E. intros [= -> <-].
  exists evs. cbn [trace globals tls_client_cache].
  split; [reflexivity|]. split; [reflexivity|].
  rewrite F. destruct (tls_mgr_policy env) as [[|] cache_types]; reflexivity.
Qed.

Lemma tls_client_init_cache_policy_witness :
  exists evs : list event,
    trace (snd (run (tls_client_init env_wrong_alt_name 5) (sample_world 0)))
    = trace (sample_world 0) ++ evs
    /\ tls_client_cache
         (globals (snd (run (tls_client_init env_wrong_alt_name 5)
                          (sample_world 0))))
       = 2
    /\ filter is_SSL_CTX_sess_set_new_cb evs
       = [E_SSL_CTX_sess_set_new_cb sample_client_ctx].
Proof.
  assert (R : exists w',
             run (tls_client_init env_wrong_alt_name 5) (sample_world 0)
             = (Some sample_client_ctx, w'))
    by (eexists; vm_compute; reflexivity).
  destruct R as (w' & R).
  destruct (tls_client_init_cache_policy env_wrong_alt_name 5
              (sample_world 0) w' sample_client_ctx R)
    as (evs & T & C & F).
  exists evs. rewrite R. cbn [snd].
  split; [exact T|]. split; [exact C|].
  rewrite F, C. reflexivity.
Defined.

(** X14. The index under which connection states are attached to engine
    sessions is obtained once.  After one successful initialisation in
    which the engine handed out a valid index, a further initialisation
    does not ask for an index again and leaves [TLScontext_index] as it
    is. *)
Theorem tls_client_init_index_once (env : Env) (v1 v2 : Z) (w w1 : World)
    (client_ctx : SSL_CTX) :
  0 <= SSL_get_ex_new_index env ->
  run (tls_client_init env v1) w = (Some client_ctx, w1) ->
  exists evs : list event,
    trace (snd (run (tls_client_init env v2) w1)) = trace w1 ++ evs
    /\ filter is_SSL_get_ex_new_index evs = []
    /\ TLScontext_index (globals (snd (run (tls_client_init env v2) w1)))
       = TLScontext_index (globals w1).
Proof.
  intros I.
  destruct (tls_client_init_run env v1 w) as (r1 & e1 & E1 & _).
  rewrite E1. intros [= -> <-].
  set (w1 := mkWorld _ _).
  assert (P : (TLScontext_index (globals w1) <? 0) = false).
  { subst w1. cbn [globals TLScontext_index]. apply Z.ltb_ge.
    destruct (TLScontext_index (globals w) <? 0) eqn:L; [exact I|].
    now apply Z.ltb_ge. }
  destruct (tls_client_init_run env v2 w1)
    as (r2 & e2 & E2 & _ & _ & F & _).
  exists e2. rewrite E2. cbn [fst snd trace globals].
  rewrite P in *.
  destruct r2; auto.
Qed.

Lemma tls_client_init_index_once_witness :
  exists evs : list event,
    trace (snd (run (tls_client_init env_wrong_alt_name 7)
                  (snd (run (tls_client_init env_wrong_alt_name 5)
                          (mkWorld (mkGlobals 0 (-1)) [])))))
    = trace (snd (run (tls_client_init env_wrong_alt_name 5)
                    (mkWorld (mkGlobals 0 (-1)) [])))
      ++ evs
    /\ filter is_SSL_get_ex_new_index evs = [].
Proof.
  assert (R : exists w1,
             run (tls_client_init env_wrong_alt_name 5)
               (mkWorld (mkGlobals 0 (-1)) [])
             = (Some sample_client_ctx, w1))
    by (eexists; vm_compute; reflexivity).
  destruct R as (w1 & R).
  destruct (tls_client_init_index_once env_wrong_alt_name 5 7
              (mkWorld (mkGlobals 0 (-1)) []) w1 sample_client_ctx
              ltac:(cbn; lia) R)
    as (evs & T & F & _).
  exists evs. rewrite R. cbn [snd]. split; [exact T | exact F].
Defined.

(** X15. Without a configured cipher list the engine's default list is
    left alone: [SSL_CTX_set_cipher_list] is never called. *)
Theorem tls_client_init_default_ciphers (env : Env) (unused_verifydepth : Z)
    (w : World) :
  var_smtp_tls_cipherlist env = "" ->
  exists evs : list event,
    trace (snd (run (tls_client_init env unused_verifydepth) w))
    = trace w ++ evs
    /\ filter is_SSL_CTX_set_cipher_list evs = [].
Proof.
  intros C.
  destruct (tls_client_init_run env unused_verifydepth w)
    as (result & evs & E & _ & _ & _ & _ & F & _).
  exists evs. rewrite E. split; [reflexivity|].
  rewrite F, C. cbn. rewrite orb_true_r.
  destruct (SSL_CTX_new env); reflexivity.
Qed.

Lemma tls_client_init_default_ciphers_witness :
  exists evs : list event,
    trace (snd (run (tls_client_init env_wrong_alt_name 5) (sample_world 0)))
    = trace (sample_world 0) ++ evs
    /\ filter is_SSL_CTX_set_cipher_list evs = [].
Proof.
  apply (tls_client_init_default_ciphers env_wrong_alt_name 5
           (sample_world 0)).
  reflexivity.
Defined.

(** X16. Without a configured client certificate (neither the RSA nor
    the DSA file is set) no certificate or key is loaded:
    [tls_set_my_certificate_key_info] is never called. *)
Theorem tls_client_init_no_client_cert (env : Env) (unused_verifydepth : Z)
    (w : World) :
  var_smtp_tls_cert_file env = "" ->
  var_smtp_tls_dcert_file env = "" ->
  exists evs : list event,
    trace (snd (run (tls_client_init env unused_verifydepth) w))
    = trace w ++ evs
    /\ filter is_tls_set_my_certificate_key_info evs = [].
Proof.
  intros C D.
  destruct (tls_client_init_run env unused_verifydepth w)
    as (result & evs & E & _ & _ & _ & _ & _ & F).
  exists evs. rewrite E. split; [reflexivity|].
  apply F. rewrite C, D. reflexivity.
Qed.

Lemma tls_client_init_no_client_cert_witness :
  exists evs : list event,
    trace (snd (run (tls_client_init env_wrong_alt_name 5) (sample_world 0)))
    = trace (sample_world 0) ++ evs
    /\ filter is_tls_set_my_certificate_key_info evs = [].
Proof.
  apply (tls_client_init_no_client_cert env_wrong_alt_name 5
           (sample_world 0)); reflexivity.
Defined.

(** ** [tls_client_start], stage by stage *)

Lemma verify_extract_peer_avoids {R : Type} (p : event -> bool) (env : Env)
    (peername : string) (peercert : X509) (TLScontext : TLScontext_t) :
  (forall e, is_verifier_event e = true -> p e = false) ->
  avoids p (@verify_extract_peer R env peername peercert TLScontext).
Proof.
  intros H. unfold verify_extract_peer. fn_rules.
  all: try (apply avoids_emit, H; reflexivity).
  all: try (apply avoids_dNSName_loop; intros; apply H; reflexivity).
  all: fn_rules.
  all: try (apply avoids_emit, H; reflexivity).
  all: fn_rules.
  all: try (apply avoids_emit, H; reflexivity).
  all: fn_rules.
  all: try (apply avoids_emit, H; reflexivity).
Qed.

Lemma world_nil (g : Globals) (tr : list event) :
  mkWorld g tr = mkWorld g (tr ++ []).
Proof. now rewrite app_nil_r. Qed.

Ltac stage_run :=
  do 2 eexists; split;
  [ first [ rewrite <- ?app_assoc; reflexivity
          | apply f_equal2; [reflexivity | apply world_nil] ] | ].

Ltac stage_done :=
  stage_run; cbn; repeat split; try reflexivity; try discriminate; auto.

(** Allocation: it fails exactly when one of its three steps fails, and
    then the connection state is released; it never reaches the cache or
    the network. *)
Lemma allocate_stage (env : Env) (client_ctx : SSL_CTX)
    (enforce_peername : Z) (peername serverid : string) (w : World) :
  exists (f : Flow (option TLScontext_t) TLScontext_t) (evs : list event),
    steps (tls_client_start_allocate env client_ctx enforce_peername
             peername serverid) w f evs
    /\ filter is_cache_or_network evs = []
    /\ filter is_tls_mgr_request evs = []
    /\ filter is_session_handoff evs = []
    /\ filter is_X509_free evs = []
    /\ match f with
       | Returned r =>
           r = None
           /\ allocation_fails env client_ctx = true
           /\ filter is_tls_free_context evs = [E_tls_free_context]
       | Normal c =>
           allocation_fails env client_ctx = false
           /\ filter is_tls_free_context evs = []
           /\ Ctx.serverid c = Some serverid
           /\ enforce_CN c = c_bool (truthy enforce_peername)
           /\ hostname_matched c = 0
           /\ con c <> None
           /\ internal_bio c <> None
           /\ network_bio c <> None
       end.
Proof.
  destruct w as [g tr].
  unfold steps, tls_client_start_allocate, allocation_fails, bind, when,
    emit, ret, c_return.
  exec_tests; stage_done.
Qed.

(** Priming: it always falls through; it makes at most one lookup, and a
    session it hands to the engine is released right away. *)
Lemma prime_stage (env : Env) (serverid : string) (c : TLScontext_t)
    (w : World) :
  exists (c' : TLScontext_t) (evs : list event),
    steps (tls_client_start_prime env serverid c) w (Normal c') evs
    /\ filter is_tls_free_context evs = []
    /\ filter is_X509_free evs = []
    /\ filter is_tls_mgr_request evs
       = (if truthy (tls_client_cache (globals w))
          then [E_tls_mgr_lookup (tls_client_cache (globals w)) serverid]
          else [])
    /\ (filter is_session_handoff evs = []
        \/ exists session : SSL_SESSION,
             filter is_session_handoff evs
             = [E_SSL_set_session session; E_SSL_SESSION_free session])
    /\ (truthy (tls_client_cache (globals w)) = false -> evs = [])
    /\ Ctx.serverid c' = Ctx.serverid c
    /\ enforce_CN c' = enforce_CN c
    /\ hostname_matched c' = hostname_matched c
    /\ (con c <> None -> con c' <> None)
    /\ internal_bio c' = internal_bio c
    /\ network_bio c' = network_bio c.
Proof.
  destruct w as [g tr].
  unfold steps, tls_client_start_prime, load_clnt_session, call, run, bind,
    when, emit, ret, c_return, get_globals.
  exec_tests; stage_done;
    try (right; eexists; reflexivity);
    try (destruct (con c); [discriminate | contradiction]).
Qed.

(** Priming hands over at most one session, and frees it in the next
    step. *)
Lemma prime_handoff (env : Env) (serverid : string) (c : TLScontext_t)
    (w : World) :
  exists (c' : TLScontext_t) (evs : list event),
    tls_client_start_prime env serverid c w
    = (Normal c', mkWorld (globals w) (trace w ++ evs))
    /\ (filter is_SSL_set_session evs = []
        \/ exists (session : SSL_SESSION) (pre : list event),
             evs = pre ++ [E_SSL_set_session session;
                           E_SSL_SESSION_free session]
             /\ filter is_SSL_set_session pre = []).
Proof.
  destruct w as [g tr].
  unfold tls_client_start_prime, load_clnt_session, call, run, bind, when,
    emit, ret, c_return, get_globals.
  exec_tests;
    (do 2 eexists; split;
     [ first [ rewrite <- ?app_assoc; reflexivity
             | apply f_equal2; [reflexivity | apply world_nil] ] | ]);
    first [ left; reflexivity
          | right; eexists;
            first [ exists []; split; reflexivity
                  | eexists [_]; split; reflexivity
                  | eexists [_; _]; split; reflexivity
                  | eexists [_; _; _]; split; reflexivity
                  | eexists [_; _; _; _]; split; reflexivity ] ].
Qed.

(** The handshake: it falls through exactly on a positive status;
    otherwise it asks the cache to delete the entry and releases the
    connection state. *)
Lemma handshake_stage (env : Env) (stream : VSTREAM) (timeout : Z)
    (peername : string) (c : TLScontext_t) (w : World) :
  exists (f : Flow (option TLScontext_t) unit) (evs : list event),
    steps (tls_client_start_handshake env stream timeout peername c) w f evs
    /\ filter is_session_handoff evs = []
    /\ filter is_X509_free evs = []
    /\ filter is_tls_mgr_lookup evs = []
    /\ match f with
       | Normal _ =>
           0 < tls_bio_connect env (vstream_fileno stream) timeout c
           /\ filter is_tls_free_context evs = []
           /\ filter is_tls_mgr_request evs = []
       | Returned r =>
           r = None
           /\ tls_bio_connect env (vstream_fileno stream) timeout c <= 0
           /\ filter is_tls_free_context evs = [E_tls_free_context]
       end.
Proof.
  destruct w as [g tr].
  unfold steps, tls_client_start_handshake, uncache_session, call, run,
    bind, when, emit, ret, c_return, get_globals.
  destruct (tls_bio_connect env (vstream_fileno stream) timeout c <=? 0)
    eqn:S; [apply Z.leb_le in S | apply Z.leb_gt in S];
    destruct (serverid c);
    exec_tests; stage_done; lia.
Qed.

(** The verdict: the last stage always returns. *)
Lemma finish_stage (env : Env) (client_ctx : SSL_CTX) (stream : VSTREAM)
    (timeout enforce_peername : Z) (peername : string) (c : TLScontext_t)
    (w : World) :
  exists (r : option TLScontext_t) (evs : list event),
    steps (tls_client_start_finish env client_ctx stream timeout
             enforce_peername peername c) w (Returned r) evs
    /\ filter is_session_handoff evs = []
    /\ filter is_X509_free evs = []
    /\ filter is_tls_mgr_request evs = []
    /\ match r with
       | None =>
           truthy enforce_peername = true
           /\ hostname_matched c = 0
           /\ filter is_tls_free_context evs = [E_tls_free_context]
       | Some c' =>
           (truthy enforce_peername = true -> hostname_matched c <> 0)
           /\ filter is_tls_free_context evs = []
           /\ con c' = con c
           /\ Ctx.serverid c' = Ctx.serverid c
           /\ enforce_CN c' = enforce_CN c
           /\ hostname_matched c' = hostname_matched c
           /\ peer_verified c' = peer_verified c
           /\ peer_CN c' = peer_CN c
           /\ issuer_CN c' = issuer_CN c
           /\ session_reused c' = session_reused c
           /\ internal_bio c' = internal_bio c
           /\ network_bio c' = network_bio c
           /\ protocol c' <> None
           /\ cipher_name c' <> None
       end.
Proof.
  destruct w as [g tr].
  unfold steps, tls_client_start_finish, tls_client_stop, bind, when, emit,
    ret, c_return.
  destruct (truthy enforce_peername) eqn:E;
    destruct (hostname_matched c =? 0) eqn:M;
    unfold truthy at 1; rewrite ?M;
    [apply Z.eqb_eq in M | apply Z.eqb_neq in M | | ];
    exec_tests; stage_done.
Qed.

Lemma verify_extract_peer_quiet {R : Type} (env : Env) (peername : string)
    (peercert : X509) (TLScontext TLScontext' : TLScontext_t) (w : World)
    (evs : list event) (p : event -> bool) :
  @verify_extract_peer R env peername peercert TLScontext w
  = (Normal TLScontext', mkWorld (globals w) (trace w ++ evs)) ->
  (forall e, is_verifier_event e = true -> p e = false) ->
  filter p evs = [].
Proof.
  intros E H.
  destruct (@verify_extract_peer_avoids R p env peername peercert TLScontext
              H w) as (_ & evs' & T & F).
  rewrite E in T. cbn [snd trace] in T.
  apply app_inv_head in T. now subst evs'.
Qed.

Ltac not_verifier_event :=
  let e := fresh "e" in
  let H := fresh "H" in
  intros e H; destruct e; try discriminate H; reflexivity.

(** Verification: it always falls through, writes the result fields
    only, and frees the certificate it obtained. *)
Lemma verify_stage (env : Env) (peername : string) (c : TLScontext_t)
    (w : World) :
  exists (c' : TLScontext_t) (evs : list event),
    steps (tls_client_start_verify env peername c) w (Normal c') evs
    /\ filter is_tls_free_context evs = []
    /\ filter is_session_handoff evs = []
    /\ filter is_tls_mgr_request evs = []
    /\ filter is_X509_free evs
       = match SSL_get_peer_certificate env (con c) with
         | Some peercert => [E_X509_free peercert]
         | None => []
         end
    /\ con c' = con c
    /\ Ctx.serverid c' = Ctx.serverid c
    /\ enforce_CN c' = enforce_CN c
    /\ internal_bio c' = internal_bio c
    /\ network_bio c' = network_bio c
    /\ session_reused c' = SSL_session_reused env (con c)
    /\ (hostname_matched c = 0 -> hostname_matched c' <> 0 ->
        enforce_CN c <> 0
        /\ SSL_get_peer_certificate env (con c) <> None
        /\ SSL_get_verify_result env (con c) = X509_V_OK
        /\ peer_verified c' = 1).
Proof.
  destruct w as [g tr].
  unfold steps, tls_client_start_verify, bind, when, emit, ret.
  cbn [con set_session_reused].
  destruct (SSL_get_peer_certificate env (con c)) as [peercert|].
  - destruct ((3 <=? var_smtp_tls_loglevel env)
              && truthy (SSL_session_reused env (con c)));
      destruct (var_smtp_tls_loglevel env <? 4);
      cbv beta iota; cbn [globals trace];
      match goal with
      | |- context [verify_extract_peer ?e ?p ?x ?t ?W] =>
          destruct (verify_extract_peer_state (option TLScontext_t) e p x t W)
            as (ev & E & _);
          pose proof (verify_extract_peer_quiet e p x t _ W ev
                        is_tls_free_context E ltac:(not_verifier_event))
            as F1;
          pose proof (verify_extract_peer_quiet e p x t _ W ev
                        is_session_handoff E ltac:(not_verifier_event))
            as F2;
          pose proof (verify_extract_peer_quiet e p x t _ W ev
                        is_tls_mgr_request E ltac:(not_verifier_event))
            as F3;
          pose proof (verify_extract_peer_quiet e p x t _ W ev
                        is_X509_free E ltac:(not_verifier_event))
            as F4;
          rewrite E
      end;
      cbn [globals trace];
      (do 2 eexists; split; [rewrite <- ?app_assoc; reflexivity|]);
      rewrite ?filter_app, ?F1, ?F2, ?F3, ?F4;
      cbn [filter is_tls_free_context is_session_handoff is_tls_mgr_request
           is_X509_free app
           con serverid enforce_CN internal_bio network_bio session_reused
           hostname_matched peer_verified set_hostname_matched set_issuer_CN
           set_peer_CN set_peer_verified set_session_reused];
      repeat (split; [reflexivity|]);
      intros _ HM;
      destruct (enforce_CN c =? 0) eqn:EC;
      destruct (SSL_get_verify_result env (con c));
      cbn [negb andb is_X509_V_OK c_bool] in HM |- *;
      try contradiction;
      apply Z.eqb_neq in EC; repeat split; auto; discriminate.
  - exec_tests; stage_done; cbn in *; congruence.
Qed.

Lemma filter_nil_weaken {A : Type} (p q : A -> bool) (l : list A) :
  (forall a, q a = true -> p a = true) ->
  filter p l = [] -> filter q l = [].
Proof.
  intros H. induction l as [|a l IH]; [reflexivity|].
  cbn. destruct (p a) eqn:P; [discriminate|]. intros F.
  destruct (q a) eqn:Q; [|auto].
  rewrite (H a Q) in P. discriminate.
Qed.

Lemma request_covers_lookup (e : event) :
  is_tls_mgr_lookup e = true -> is_tls_mgr_request e = true.
Proof. destruct e; try discriminate; reflexivity. Qed.

Lemma filter_filter_weaken {A : Type} (p q : A -> bool) (l : list A) :
  (forall a, q a = true -> p a = true) ->
  filter q (filter p l) = filter q l.
Proof.
  intros H. induction l as [|a l IH]; [reflexivity|].
  cbn. destruct (p a) eqn:P; cbn; rewrite IH; [reflexivity|].
  destruct (q a) eqn:Q; [|reflexivity].
  rewrite (H a Q) in P. discriminate.
Qed.

Lemma request_covers_delete (e : event) :
  is_tls_mgr_delete e = true -> is_tls_mgr_request e = true.
Proof. destruct e; try discriminate; reflexivity. Qed.

(** The whole of [tls_client_start], from its stages. *)
Lemma tls_client_start_run (env : Env) (client_ctx : SSL_CTX)
    (stream : VSTREAM) (timeout enforce_peername : Z)
    (peername serverid : string) (w : World) :
  exists (result : option TLScontext_t) (evs : list event),
    run (tls_client_start env client_ctx stream timeout enforce_peername
           peername serverid) w
    = (result, mkWorld (globals w) (trace w ++ evs))
    /\ filter is_tls_free_context evs
       = match result with
         | None => [E_tls_free_context]
         | Some _ => []
         end
    /\ (filter is_session_handoff evs = []
        \/ exists session : SSL_SESSION,
             filter is_session_handoff evs
             = [E_SSL_set_session session; E_SSL_SESSION_free session])
    /\ (truthy (tls_client_cache (globals w)) = false ->
        filter is_tls_mgr_lookup evs = []
        /\ filter is_session_handoff evs = [])
    /\ (allocation_fails env client_ctx = true ->
        result = None /\ filter is_cache_or_network evs = [])
    /\ match result with
       | None => True
       | Some c =>
           con c <> None
           /\ internal_bio c <> None
           /\ network_bio c <> None
           /\ Ctx.serverid c = Some serverid
           /\ protocol c <> None
           /\ cipher_name c <> None
           /\ enforce_CN c = c_bool (truthy enforce_peername)
           /\ session_reused c = SSL_session_reused env (con c)
           /\ filter is_X509_free evs
              = match SSL_get_peer_certificate env (con c) with
                | Some peercert => [E_X509_free peercert]
                | None => []
                end
           /\ filter is_tls_mgr_request evs
              = (if truthy (tls_client_cache (globals w))
                 then [E_tls_mgr_lookup (tls_client_cache (globals w))
                         serverid]
                 else [])
           /\ (truthy enforce_peername = true ->
               hostname_matched c <> 0
               /\ peer_verified c = 1
               /\ SSL_get_peer_certificate env (con c) <> None
               /\ SSL_get_verify_result env (con c) = X509_V_OK)
       end.
Proof.
  unfold tls_client_start, tls_client_start_connect, run, bind, ret.
  destruct (allocate_stage env client_ctx enforce_peername peername serverid
              w)
    as (f1 & e1 & S1 & N1 & Q1 & H1 & X1 & A1).
  unfold steps in S1. rewrite S1.
  destruct f1 as [c1 | r1].
  2:{ destruct A1 as (-> & AF & F1).
      exists None, e1. repeat split; auto.
      apply (filter_nil_weaken _ _ _ request_covers_lookup Q1). }
  destruct A1 as (AF & F1 & SI1 & EC1 & HM1 & CO1 & IB1 & NB1).
  destruct (prime_stage env serverid c1 (mkWorld (globals w) (trace w ++ e1)))
    as (c2 & e2 & S2 & F2 & X2 & Q2 & H2 & OFF2 & SI2 & EC2 & HM2 & CO2
        & IB2 & NB2).
  unfold steps in S2. cbn [globals trace] in S2, Q2, OFF2. rewrite S2.
  destruct (handshake_stage env stream timeout peername c2
              (mkWorld (globals w) ((trace w ++ e1) ++ e2)))
    as (f3 & e3 & S3 & H3 & X3 & L3 & A3).
  unfold steps in S3. cbn [globals trace] in S3. rewrite S3.
  destruct f3 as [u | r3].
  2:{ destruct A3 as (-> & STS & F3).
      exists None, (e1 ++ e2 ++ e3).
      rewrite <- !app_assoc, !filter_app, F1, F2, F3, H1, H3.
      rewrite !app_nil_r. cbn [app].
      split; [reflexivity|]. split; [reflexivity|].
      split; [exact H2|]. split.
      - intros OFF. rewrite (OFF2 OFF), L3,
          (filter_nil_weaken _ _ _ request_covers_lookup Q1). auto.
      - split; [|exact I]. intros AF'. congruence. }
  destruct A3 as (STS & F3 & Q3).
  destruct (verify_stage env peername c2
              (mkWorld (globals w) (((trace w ++ e1) ++ e2) ++ e3)))
    as (c4 & e4 & S4 & F4 & H4 & Q4 & X4 & CO4 & SI4 & EC4 & IB4 & NB4 & SR4
        & V4).
  unfold steps in S4. cbn [globals trace] in S4. cbv beta iota.
  rewrite S4.
  destruct (finish_stage env client_ctx stream timeout enforce_peername
              peername c4
              (mkWorld (globals w) ((((trace w ++ e1) ++ e2) ++ e3) ++ e4)))
    as (r5 & e5 & S5 & H5 & X5 & Q5 & A5).
  unfold steps in S5. cbn [globals trace] in S5. rewrite S5.
  exists r5, (e1 ++ e2 ++ e3 ++ e4 ++ e5).
  rewrite <- !app_assoc, !filter_app.
  rewrite F1, F2, F3, F4, H1, H3, H4, H5, X1, X2, X3, X5, Q1, Q3, Q4, Q5.
  rewrite ?app_nil_r. cbn [app].
  split; [reflexivity|].
  assert (LK : truthy (tls_client_cache (globals w)) = false ->
               filter is_tls_mgr_lookup e1 ++ filter is_tls_mgr_lookup e2
               ++ filter is_tls_mgr_lookup e3 ++ filter is_tls_mgr_lookup e4
               ++ filter is_tls_mgr_lookup e5 = []
               /\ filter is_session_handoff e2 = []).
  { intros OFF. rewrite (OFF2 OFF), L3,
      (filter_nil_weaken _ _ _ request_covers_lookup Q1),
      (filter_nil_weaken _ _ _ request_covers_lookup Q4),
      (filter_nil_weaken _ _ _ request_covers_lookup Q5). auto. }
  destruct r5 as [c5|].
  - destruct A5 as (HM5 & F5 & CO5 & SI5 & EC5 & HMS5 & PV5 & _ & _ & SR5
                    & IB5 & NB5 & PR5 & CN5).
    rewrite F5.
    split; [reflexivity|]. split; [exact H2|]. split; [exact LK|].
    split; [intros AF'; congruence|].
    rewrite CO5, SI5, EC5, SR5, IB5, NB5, HMS5, PV5.
    rewrite CO4, SI4, EC4, SR4, IB4, NB4, X4, Q2.
    rewrite SI2, EC2, IB2, NB2.
    do 10 (split; [solve [auto | congruence]|]).
    intros E. specialize (HM5 E).
    assert (M2 : hostname_matched c2 = 0) by congruence.
    destruct (V4 M2 HM5) as (_ & PC & VR & PV).
    auto.
  - destruct A5 as (E5 & HM5 & F5). rewrite F5.
    split; [reflexivity|]. split; [exact H2|]. split; [exact LK|].
    split; [intros AF'; congruence | exact I].
Qed.

(** ** [tls_client_start] as a whole *)

(** X17. Under enforcement a connection state is handed to the caller
    only for a peer that presented a certificate, whose chain the engine
    verified, and one of whose names matched: whenever
    [tls_client_start] returns a connection state with [enforce_peername]
    set, [hostname_matched] is set, [peer_verified] is 1, and the
    engine's verify result for that connection is [X509_V_OK]. *)
Theorem enforced_connection_is_verified (env : Env) (client_ctx : SSL_CTX)
    (stream : VSTREAM) (timeout enforce_peername : Z)
    (peername serverid : string) (w : World) (TLScontext : TLScontext_t) :
  truthy enforce_peername = true ->
  fst (run (tls_client_start env client_ctx stream timeout enforce_peername
              peername serverid) w) = Some TLScontext ->
  hostname_matched TLScontext <> 0
  /\ peer_verified TLScontext = 1
  /\ SSL_get_peer_certificate env (con TLScontext) <> None
  /\ SSL_get_verify_result env (con TLScontext) = X509_V_OK.
Proof.
  intros E.
  destruct (tls_client_start_run env client_ctx stream timeout
              enforce_peername peername serverid w)
    as (result & evs & R & _ & _ & _ & _ & S).
  rewrite R. cbn [fst]. intros ->.
  destruct S as (_ & _ & _ & _ & _ & _ & _ & _ & _ & _ & V).
  exact (V E).
Qed.

Lemma enforced_connection_is_verified_witness :
  exists TLScontext : TLScontext_t,
    fst (run (tls_client_start env_alt_name_matches sample_client_ctx
                sample_stream 300 1 "mail.example.com"
                "smtp:mail.example.com") (sample_world 0))
    = Some TLScontext
    /\ hostname_matched TLScontext <> 0
    /\ peer_verified TLScontext = 1.
Proof.
  eexists. split; [vm_compute; reflexivity|].
  match goal with
  | |- hostname_matched ?c <> 0 /\ _ =>
      assert (E : fst (run (tls_client_start env_alt_name_matches
                              sample_client_ctx sample_stream 300 1
                              "mail.example.com" "smtp:mail.example.com")
                         (sample_world 0)) = Some c)
        by (vm_compute; reflexivity);
      destruct (enforced_connection_is_verified env_alt_name_matches
                  sample_client_ctx sample_stream 300 1 "mail.example.com"
                  "smtp:mail.example.com" (sample_world 0) c eq_refl E)
        as (M & V & _)
  end.
  split; [exact M | exact V].
Defined.

(** X18. A connection state is never handed to the caller half
    initialised: in every state [tls_client_start] returns, the engine
    session and both ends of the BIO pair are set, the cache key is the
    [serverid] argument, the protocol and cipher names are set,
    [enforce_CN] reflects the [enforce_peername] argument and
    [session_reused] is what the engine reports for the session. *)
Theorem established_state_is_complete (env : Env) (client_ctx : SSL_CTX)
    (stream : VSTREAM) (timeout enforce_peername : Z)
    (peername serverid : string) (w : World) (TLScontext : TLScontext_t) :
  fst (run (tls_client_start env client_ctx stream timeout enforce_peername
              peername serverid) w) = Some TLScontext ->
  con TLScontext <> None
  /\ internal_bio TLScontext <> None
  /\ network_bio TLScontext <> None
  /\ Ctx.serverid TLScontext = Some serverid
  /\ protocol TLScontext <> None
  /\ cipher_name TLScontext <> None
  /\ enforce_CN TLScontext = c_bool (truthy enforce_peername)
  /\ session_reused TLScontext = SSL_session_reused env (con TLScontext).
Proof.
  destruct (tls_client_start_run env client_ctx stream timeout
              enforce_peername peername serverid w)
    as (result & evs & R & _ & _ & _ & _ & S).
  rewrite R. cbn [fst]. intros ->.
  destruct S as (S1 & S2 & S3 & S4 & S5 & S6 & S7 & S8 & _).
  repeat split; assumption.
Qed.

Lemma established_state_is_complete_witness :
  exists TLScontext : TLScontext_t,
    fst (run (tls_client_start env_alt_name_matches sample_client_ctx
                sample_stream 300 1 "mail.example.com"
                "smtp:mail.example.com") (sample_world 0))
    = Some TLScontext
    /\ Ctx.serverid TLScontext = Some "smtp:mail.example.com"
    /\ protocol TLScontext <> None.
Proof.
  eexists. split; [vm_compute; reflexivity|].
  match goal with
  | |- Ctx.serverid ?c = _ /\ _ =>
      assert (E : fst (run (tls_client_start env_alt_name_matches
                              sample_client_ctx sample_stream 300 1
                              "mail.example.com" "smtp:mail.example.com")
                         (sample_world 0)) = Some c)
        by (vm_compute; reflexivity);
      destruct (established_state_is_complete env_alt_name_matches
                  sample_client_ctx sample_stream 300 1 "mail.example.com"
                  "smtp:mail.example.com" (sample_world 0) c E)
        as (_ & _ & _ & S & P & _)
  end.
  split; [exact S | exact P].
Defined.

(** X19. [tls_client_start] never writes the process-wide variables:
    [tls_client_cache] and [TLScontext_index] are after every run, failed
    or not, what they were before. *)
Theorem tls_client_start_keeps_globals (env : Env) (client_ctx : SSL_CTX)
    (stream : VSTREAM) (timeout enforce_peername : Z)
    (peername serverid : string) (w : World) :
  globals (snd (run (tls_client_start env client_ctx stream timeout
                       enforce_peername peername serverid) w))
  = globals w.
Proof.
  destruct (tls_client_start_run env client_ctx stream timeout
              enforce_peername peername serverid w)
    as (result & evs & R & _).
  now rewrite R.
Qed.

(** X20. The connection state is released exactly when no state is
    returned.  On every failing run, whether allocation, the handshake or
    the name check under enforcement fails, the state is released once;
    on a successful run it is not released.  (On a failed name check the
    release happens inside [tls_client_stop].) *)
Theorem tls_client_start_releases_on_failure (env : Env)
    (client_ctx : SSL_CTX) (stream : VSTREAM) (timeout enforce_peername : Z)
    (peername serverid : string) (w : World) :
  exists evs : list event,
    trace (snd (run (tls_client_start env client_ctx stream timeout
                       enforce_peername peername serverid) w))
    = trace w ++ evs
    /\ filter is_tls_free_context evs
       = match fst (run (tls_client_start env client_ctx stream timeout
                           enforce_peername peername serverid) w) with
         | None => [E_tls_free_context]
         | Some _ => []
         end.
Proof.
  destruct (tls_client_start_run env client_ctx stream timeout
              enforce_peername peername serverid w)
    as (result & evs & R & F & _).
  exists evs. rewrite R. split; [reflexivity | exact F].
Qed.

(** X21. A session loaded from the cache is handed to the engine at most
    once per connection, and the reference obtained from the cache is
    dropped in the very next step, on every path: [tls_client_start]
    either never calls [SSL_set_session], or calls it once, with
    [SSL_SESSION_free] on the same session directly behind it. *)
Theorem cached_session_is_released (env : Env) (client_ctx : SSL_CTX)
    (stream : VSTREAM) (timeout enforce_peername : Z)
    (peername serverid : string) (w : World) :
  exists evs : list event,
    trace (snd (run (tls_client_start env client_ctx stream timeout
                       enforce_peername peername serverid) w))
    = trace w ++ evs
    /\ (filter is_SSL_set_session evs = []
        \/ exists (session : SSL_SESSION) (pre post : list event),
             evs = pre ++ E_SSL_set_session session
                   :: E_SSL_SESSION_free session :: post
             /\ filter is_SSL_set_session pre = []
             /\ filter is_SSL_set_session post = []).
Proof.
  unfold tls_client_start, tls_client_start_connect.
  rewrite run_bind_bind.
  pose proof (allocate_sets_no_session env client_ctx enforce_peername
                peername serverid w) as (G1 & e1 & T1 & S1).
  destruct (tls_client_start_allocate env client_ctx enforce_peername
              peername serverid w) as [[c1 | r] [g1 t1]] eqn:A1;
    cbn [snd globals trace] in G1, T1; subst g1 t1.
  2:{ rewrite (run_bind_returned _ _ _ _ _ A1). cbn [snd].
      exists e1. split; [reflexivity | left; exact S1]. }
  rewrite (run_bind_normal _ _ _ _ _ A1), run_bind_bind.
  destruct (prime_handoff env serverid c1
              (mkWorld (globals w) (trace w ++ e1)))
    as (c2 & e2 & P2 & H2).
  rewrite (run_bind_normal _ _ _ _ _ P2). cbn [globals trace].
  match goal with
  | |- context [run ?m ?W] =>
      assert (A : avoids is_SSL_set_session m);
      [|destruct (avoids_run is_SSL_set_session m A W) as (e3 & T3 & S3)]
  end.
  { apply avoids_bind.
    - apply avoids_bind; [apply handshake_sets_no_session|].
      intros u. apply avoids_ret.
    - intros c. apply after_handshake_sets_no_session. }
  cbn [globals trace] in T3.
  destruct H2 as [S2 | (session & pre & -> & S2)].
  - exists (e1 ++ e2 ++ e3). rewrite T3, <- !app_assoc.
    split; [reflexivity|]. left.
    rewrite !filter_app, S1, S2, S3. reflexivity.
  - exists (e1 ++ (pre ++ [E_SSL_set_session session;
                           E_SSL_SESSION_free session]) ++ e3).
    rewrite T3, <- !app_assoc.
    split; [reflexivity|]. right.
    exists session, (e1 ++ pre), e3.
    rewrite filter_app, S1, S2, <- !app_assoc.
    split; [reflexivity|]. split; [reflexivity | exact S3].
Qed.

(** X22. With client-side caching off ([tls_client_cache] is 0) a
    connection never looks a session up and never hands one to the
    engine. *)
Theorem no_lookup_without_cache (env : Env) (client_ctx : SSL_CTX)
    (stream : VSTREAM) (timeout enforce_peername : Z)
    (peername serverid : string) (w : World) :
  tls_client_cache (globals w) = 0 ->
  exists evs : list event,
    trace (snd (run (tls_client_start env client_ctx stream timeout
                       enforce_peername peername serverid) w))
    = trace w ++ evs
    /\ filter is_tls_mgr_lookup evs = []
    /\ filter is_session_handoff evs = [].
Proof.
  intros C.
  destruct (tls_client_start_run env client_ctx stream timeout
              enforce_peername peername serverid w)
    as (result & evs & R & _ & _ & OFF & _).
  exists evs. rewrite R. split; [reflexivity|].
  apply OFF. now rewrite C.
Qed.

Lemma no_lookup_without_cache_witness :
  exists evs : list event,
    trace (snd (run (tls_client_start env_wrong_alt_name_cached
                       sample_client_ctx sample_stream 300 0
                       "mail.example.com" "smtp:mail.example.com")
                  (sample_world 0)))
    = trace (sample_world 0) ++ evs
    /\ filter is_tls_mgr_lookup evs = []
    /\ filter is_session_handoff evs = [].
Proof.
  apply (no_lookup_without_cache env_wrong_alt_name_cached sample_client_ctx
           sample_stream 300 0 "mail.example.com" "smtp:mail.example.com"
           (sample_world 0)).
  reflexivity.
Defined.

(** X23. When one of the allocation steps fails (the engine session, its
    application data, or the BIO pair), [tls_client_start] returns
    failure without having contacted the cache service or the peer: no
    lookup, update or delete, no handshake, no stream switch, no close
    notification. *)
Theorem allocation_failure_is_local (env : Env) (client_ctx : SSL_CTX)
    (stream : VSTREAM) (timeout enforce_peername : Z)
    (peername serverid : string) (w : World) :
  allocation_fails env client_ctx = true ->
  exists evs : list event,
    run (tls_client_start env client_ctx stream timeout enforce_peername
           peername serverid) w
    = (None, mkWorld (globals w) (trace w ++ evs))
    /\ filter is_cache_or_network evs = [].
Proof.
  intros A.
  destruct (tls_client_start_run env client_ctx stream timeout
              enforce_peername peername serverid w)
    as (result & evs & R & _ & _ & _ & AF & _).
  destruct (AF A) as (-> & N).
  exists evs. split; [exact R | exact N].
Qed.

Lemma allocation_failure_is_local_witness :
  exists evs : list event,
    run (tls_client_start env_no_engine_session sample_client_ctx
           sample_stream 300 1 "mail.example.com" "smtp:mail.example.com")
      (sample_world 2)
    = (None, mkWorld (globals (sample_world 2))
               (trace (sample_world 2) ++ evs))
    /\ filter is_cache_or_network evs = [].
Proof.
  apply (allocation_failure_is_local env_no_engine_session sample_client_ctx
           sample_stream 300 1 "mail.example.com" "smtp:mail.example.com"
           (sample_world 2)).
  reflexivity.
Defined.

(** X24. An established connection leaves the cache entry in place: a
    run of [tls_client_start] that returns a connection state has asked
    tlsmgr(8) for the entry once when client-side caching is on and not
    at all when it is off, and it has not asked for its removal.  (What
    is saved after a handshake is the business of the save hook,
    [new_client_session_cb], which only ever sends updates.) *)
Theorem established_connection_keeps_cache_entry (env : Env)
    (client_ctx : SSL_CTX) (stream : VSTREAM) (timeout enforce_peername : Z)
    (peername serverid : string) (w w' : World) (TLScontext : TLScontext_t) :
  run (tls_client_start env client_ctx stream timeout enforce_peername
         peername serverid) w = (Some TLScontext, w') ->
  exists evs : list event,
    trace w' = trace w ++ evs
    /\ filter is_tls_mgr_lookup evs
       = (if truthy (tls_client_cache (globals w))
          then [E_tls_mgr_lookup (tls_client_cache (globals w)) serverid]
          else [])
    /\ filter is_tls_mgr_delete evs = [].
Proof.
  destruct (tls_client_start_run env client_ctx stream timeout
              enforce_peername peername serverid w)
    as (result & evs & R & _ & _ & _ & _ & S).
  rewrite R. intros [= -> <-].
  destruct S as (_ & _ & _ & _ & _ & _ & _ & _ & _ & Q & _).
  exists evs. split; [reflexivity|].
  rewrite <- (filter_filter_weaken is_tls_mgr_request is_tls_mgr_lookup evs
                request_covers_lookup).
  rewrite <- (filter_filter_weaken is_tls_mgr_request is_tls_mgr_delete evs
                request_covers_delete).
  rewrite Q.
  destruct (truthy (tls_client_cache (globals w))); split; reflexivity.
Qed.

Lemma established_connection_keeps_cache_entry_witness :
  exists evs : list event,
    trace (snd (run (tls_client_start env_alt_name_matches sample_client_ctx
                       sample_stream 300 1 "mail.example.com"
                       "smtp:mail.example.com") (sample_world 2)))
    = trace (sample_world 2) ++ evs
    /\ filter is_tls_mgr_lookup evs
       = [E_tls_mgr_lookup 2 "smtp:mail.example.com"]
    /\ filter is_tls_mgr_delete evs = [].
Proof.
  assert (R : exists c w',
             run (tls_client_start env_alt_name_matches sample_client_ctx
                    sample_stream 300 1 "mail.example.com"
                    "smtp:mail.example.com") (sample_world 2)
             = (Some c, w'))
    by (do 2 eexists; vm_compute; reflexivity).
  destruct R as (c & w' & R).
  destruct (established_connection_keeps_cache_entry env_alt_name_matches
              sample_client_ctx sample_stream 300 1 "mail.example.com"
              "smtp:mail.example.com" (sample_world 2) w' c R)
    as (evs & T & Q & D).
  exists evs. rewrite R. split; [exact T|]. split; [exact Q | exact D].
Defined.

(** X25. The certificate obtained from the engine is freed: a run that
    returns a connection state has called [X509_free] once on the peer's
    certificate when the peer presented one, and not at all otherwise. *)
Theorem peer_certificate_is_freed (env : Env) (client_ctx : SSL_CTX)
    (stream : VSTREAM) (timeout enforce_peername : Z)
    (peername serverid : string) (w w' : World) (TLScontext : TLScontext_t) :
  run (tls_client_start env client_ctx stream timeout enforce_peername
         peername serverid) w = (Some TLScontext, w') ->
  exists evs : list event,
    trace w' = trace w ++ evs
    /\ filter is_X509_free evs
       = match SSL_get_peer_certificate env (con TLScontext) with
         | Some peercert => [E_X509_free peercert]
         | None => []
         end.
Proof.
  destruct (tls_client_start_run env client_ctx stream timeout
              enforce_peername peername serverid w)
    as (result & evs & R & _ & _ & _ & _ & S).
  rewrite R. intros [= -> <-].
  destruct S as (_ & _ & _ & _ & _ & _ & _ & _ & X & _).
  exists evs. split; [reflexivity | exact X].
Qed.

Lemma peer_certificate_is_freed_witness :
  exists evs : list event,
    trace (snd (run (tls_client_start env_alt_name_matches sample_client_ctx
                       sample_stream 300 1 "mail.example.com"
                       "smtp:mail.example.com") (sample_world 2)))
    = trace (sample_world 2) ++ evs
    /\ filter is_X509_free evs = [E_X509_free sample_cert].
Proof.
  assert (R : exists c w',
             run (tls_client_start env_alt_name_matches sample_client_ctx
                    sample_stream 300 1 "mail.example.com"
                    "smtp:mail.example.com") (sample_world 2)
             = (Some c, w'))
    by (do 2 eexists; vm_compute; reflexivity).
  destruct R as (c & w' & R).
  destruct (peer_certificate_is_freed env_alt_name_matches
              sample_client_ctx sample_stream 300 1 "mail.example.com"
              "smtp:mail.example.com" (sample_world 2) w' c R)
    as (evs & T & X).
  exists evs. rewrite R. split; [exact T | exact X].
Defined.

(** X26. Sessions are saved under the key they are looked up by.  For a
    connection state that [tls_client_start] returned for [serverid],
    the save hook sends its update request under that same [serverid],
    the key of the lookup at the start of the next connection to the
    server. *)
Theorem session_saved_under_lookup_key (env : Env) (client_ctx : SSL_CTX)
    (stream : VSTREAM) (timeout enforce_peername : Z)
    (peername serverid : string) (w w2 : World) (TLScontext : TLScontext_t)
    (session : SSL_SESSION) (session_data : string) :
  fst (run (tls_client_start env client_ctx stream timeout enforce_peername
              peername serverid) w) = Some TLScontext ->
  tls_session_passivate env session = Some session_data ->
  exists evs : list event,
    trace (snd (run (new_client_session_cb env TLScontext session) w2))
    = trace w2 ++ evs
    /\ filter is_tls_mgr_request evs
       = [E_tls_mgr_update (tls_client_cache (globals w2)) serverid
            session_data].
Proof.
  intros E P.
  destruct (tls_client_start_run env client_ctx stream timeout
              enforce_peername peername serverid w)
    as (result & evs & R & _ & _ & _ & _ & S).
  rewrite R in E. cbn [fst] in E. subst result.
  destruct S as (_ & _ & _ & SI & _).
  destruct (new_client_session_cb_run env TLScontext session serverid w2 SI)
    as (e2 & R2 & _ & Q).
  rewrite P in Q.
  exists (e2 ++ [E_SSL_SESSION_free session]).
  rewrite R2. cbn [snd trace]. split; [reflexivity|].
  rewrite filter_app, Q. reflexivity.
Qed.

Lemma session_saved_under_lookup_key_witness :
  exists evs : list event,
    filter is_tls_mgr_request evs
    = [E_tls_mgr_update 2 "smtp:mail.example.com" "blob"].
Proof.
  assert (R : exists c,
             fst (run (tls_client_start env_alt_name_matches
                         sample_client_ctx sample_stream 300 1
                         "mail.example.com" "smtp:mail.example.com")
                    (sample_world 2)) = Some c)
    by (eexists; vm_compute; reflexivity).
  destruct R as (c & R).
  destruct (session_saved_under_lookup_key env_alt_name_matches
              sample_client_ctx sample_stream 300 1 "mail.example.com"
              "smtp:mail.example.com" (sample_world 2) (sample_world 2) c
              sample_session "blob" R eq_refl)
    as (evs & _ & Q).
  exists evs. exact Q.
Defined.
